(** * Recipe dashboard: the data-shaping core of [App.jsx] and [RecipeDetail.jsx]

    The development embeds the client-side transformations of the dashboard
    (the list filter, the summary statistics, the nutrition chart series and
    the HTML-to-text helper) together with the part of the JavaScript
    runtime they call: values as [JSON.parse] produces them, IEEE-754
    doubles, the coercions [ToBoolean], [ToNumber] and [ToString], and the
    array and string methods used by the source. *)

From Stdlib Require Import ZArith Lia Bool List Ascii String Floats.
From Stdlib Require Import DecimalString Sorting.Sorted Sorting.Permutation.
Import ListNotations.

Set Warnings "-register-all,-inexact-float".

Local Open Scope list_scope.
Local Open Scope string_scope.

(** ** JavaScript values and exceptions *)

Module JS.

(** A JavaScript number is an IEEE-754 binary64 value. *)
Definition number := float.

(** The values a parsed JSON document is made of, plus [undefined] (what
    reading an absent property gives).  An object carries its own
    properties as a key/value list with one binding per key, as
    [JSON.parse] leaves it. *)
Inductive value : Type :=
  | VUndef
  | VNull
  | VBool (b : bool)
  | VNum (n : number)
  | VStr (s : string)
  | VArr (items : list value)
  | VObj (props : list (string * value)).

(** The only exception the embedded code can raise. *)
Inductive error : Type :=
  | TypeError (msg : string).

Inductive result (A : Type) : Type :=
  | Ok (a : A)
  | Throw (e : error).
Arguments Ok {A} a.
Arguments Throw {A} e.

Definition bind {A B} (m : result A) (k : A -> result B) : result B :=
  match m with
  | Ok a => k a
  | Throw e => Throw e
  end.

Declare Scope js_scope.
Delimit Scope js_scope with js.
Notation "x <- m ;; k" := (bind m (fun x => k))
  (at level 61, m at next level, right associativity) : js_scope.
Local Open Scope js_scope.

(** [Array.prototype.map] and [Array.prototype.filter] with a callback
    that may throw: elements are visited left to right and the first
    exception aborts the traversal. *)
Fixpoint mapM {A B} (f : A -> result B) (l : list A) : result (list B) :=
  match l with
  | [] => Ok []
  | x :: xs => y <- f x ;; ys <- mapM f xs ;; Ok (y :: ys)
  end.

Fixpoint filterM {A} (f : A -> result bool) (l : list A) : result (list A) :=
  match l with
  | [] => Ok []
  | x :: xs =>
      b <- f x ;; ys <- filterM f xs ;; Ok (if b then x :: ys else ys)
  end.

(** *** Strings

    A string is kept as the bytes of its UTF-8 form, the form in which
    the literals of this file are written and the one [URLSearchParams]
    serializes.  The model covers the well-formed strings, those without
    an unpaired surrogate; on them a substring search gives the same
    answer on the UTF-8 bytes as on the UTF-16 code units. *)

Definition byte (b : ascii) : Z := Z.of_N (N_of_ascii b).

Definition chr (n : Z) : ascii := ascii_of_N (Z.to_N n).

(** A continuation byte, [10xxxxxx]. *)
Definition is_cont (b : ascii) : bool :=
  (128 <=? byte b)%Z && (byte b <=? 191)%Z.

(** The code point a sequence of two, three or four bytes stands for. *)
Definition scalar2 (b1 b2 : ascii) : Z :=
  ((byte b1 - 192) * 64 + (byte b2 - 128))%Z.

Definition scalar3 (b1 b2 b3 : ascii) : Z :=
  ((byte b1 - 224) * 4096 + (byte b2 - 128) * 64 + (byte b3 - 128))%Z.

Definition scalar4 (b1 b2 b3 b4 : ascii) : Z :=
  ((byte b1 - 240) * 262144 + (byte b2 - 128) * 4096
   + (byte b3 - 128) * 64 + (byte b4 - 128))%Z.

(** Well-formed sequences: the shortest form of a code point that is not
    a surrogate and not above U+10FFFF. *)
Definition valid2 (b1 b2 : ascii) : bool :=
  (194 <=? byte b1)%Z && (byte b1 <=? 223)%Z && is_cont b2.

Definition valid3 (b1 b2 b3 : ascii) : bool :=
  (224 <=? byte b1)%Z && (byte b1 <=? 239)%Z && is_cont b2 && is_cont b3
  && (2048 <=? scalar3 b1 b2 b3)%Z
  && negb ((55296 <=? scalar3 b1 b2 b3)%Z && (scalar3 b1 b2 b3 <=? 57343)%Z).

Definition valid4 (b1 b2 b3 b4 : ascii) : bool :=
  (240 <=? byte b1)%Z && (byte b1 <=? 244)%Z
  && is_cont b2 && is_cont b3 && is_cont b4
  && (65536 <=? scalar4 b1 b2 b3 b4)%Z
  && (scalar4 b1 b2 b3 b4 <=? 1114111)%Z.

(** A decoded unit: a code point, or a byte that belongs to no
    well-formed sequence and is carried along as it is. *)
Inductive code : Type :=
  | Scalar (c : Z)
  | Stray (b : ascii).

Fixpoint decode (s : string) : list code :=
  match s with
  | EmptyString => []
  | String b1 r1 =>
      if (byte b1 <? 128)%Z then Scalar (byte b1) :: decode r1
      else
        let stray := Stray b1 :: decode r1 in
        match r1 with
        | EmptyString => stray
        | String b2 r2 =>
            if valid2 b1 b2 then Scalar (scalar2 b1 b2) :: decode r2
            else
              match r2 with
              | EmptyString => stray
              | String b3 r3 =>
                  if valid3 b1 b2 b3
                  then Scalar (scalar3 b1 b2 b3) :: decode r3
                  else
                    match r3 with
                    | EmptyString => stray
                    | String b4 r4 =>
                        if valid4 b1 b2 b3 b4
                        then Scalar (scalar4 b1 b2 b3 b4) :: decode r4
                        else stray
                    end
              end
        end
  end.

Definition encode_scalar (c : Z) : string :=
  if (c <? 128)%Z then String (chr c) EmptyString
  else if (c <? 2048)%Z then
    String (chr (192 + c / 64)) (String (chr (128 + c mod 64)) EmptyString)
  else if (c <? 65536)%Z then
    String (chr (224 + c / 4096))
      (String (chr (128 + (c / 64) mod 64))
         (String (chr (128 + c mod 64)) EmptyString))
  else
    String (chr (240 + c / 262144))
      (String (chr (128 + (c / 4096) mod 64))
         (String (chr (128 + (c / 64) mod 64))
            (String (chr (128 + c mod 64)) EmptyString))).

Fixpoint encode (l : list code) : string :=
  match l with
  | [] => EmptyString
  | Scalar c :: rest => encode_scalar c ++ encode rest
  | Stray b :: rest => String b (encode rest)
  end.

(** **** Letter case

    The case data are those of Unicode 14.0; a character assigned later
    has no entry and is left as it is. *)

(** Whether [c] lies in one of the ranges, which are in ascending order. *)
Fixpoint in_ranges (c : Z) (ranges : list (Z * Z)) : bool :=
  match ranges with
  | [] => false
  | (lo, hi) :: rest =>
      if (c <? lo)%Z then false
      else if (c <=? hi)%Z then true
      else in_ranges c rest
  end.

(** The simple lower-case mappings, as runs [(first, last, step, delta)]:
    every [step]-th code point from [first] to [last] maps to itself plus
    [delta]. *)
Definition lower_runs : list (Z * Z * Z * Z) :=
  [(65, 90, 1, 32); (192, 214, 1, 32); (216, 222, 1, 32); (256, 302, 2, 1);
   (306, 310, 2, 1); (313, 327, 2, 1); (330, 374, 2, 1);
   (376, 376, 1, (-121)); (377, 381, 2, 1); (385, 385, 1, 210);
   (386, 388, 2, 1); (390, 390, 1, 206); (391, 391, 1, 1);
   (393, 394, 1, 205); (395, 395, 1, 1); (398, 398, 1, 79);
   (399, 399, 1, 202); (400, 400, 1, 203); (401, 401, 1, 1);
   (403, 403, 1, 205); (404, 404, 1, 207); (406, 406, 1, 211);
   (407, 407, 1, 209); (408, 408, 1, 1); (412, 412, 1, 211);
   (413, 413, 1, 213); (415, 415, 1, 214); (416, 420, 2, 1);
   (422, 422, 1, 218); (423, 423, 1, 1); (425, 425, 1, 218);
   (428, 428, 1, 1); (430, 430, 1, 218); (431, 431, 1, 1);
   (433, 434, 1, 217); (435, 437, 2, 1); (439, 439, 1, 219);
   (440, 440, 1, 1); (444, 444, 1, 1); (452, 452, 1, 2); (453, 453, 1, 1);
   (455, 455, 1, 2); (456, 456, 1, 1); (458, 458, 1, 2); (459, 475, 2, 1);
   (478, 494, 2, 1); (497, 497, 1, 2); (498, 500, 2, 1);
   (502, 502, 1, (-97)); (503, 503, 1, (-56)); (504, 542, 2, 1);
   (544, 544, 1, (-130)); (546, 562, 2, 1); (570, 570, 1, 10795);
   (571, 571, 1, 1); (573, 573, 1, (-163)); (574, 574, 1, 10792);
   (577, 577, 1, 1); (579, 579, 1, (-195)); (580, 580, 1, 69);
   (581, 581, 1, 71); (582, 590, 2, 1); (880, 882, 2, 1); (886, 886, 1, 1);
   (895, 895, 1, 116); (902, 902, 1, 38); (904, 906, 1, 37);
   (908, 908, 1, 64); (910, 911, 1, 63); (913, 929, 1, 32);
   (931, 939, 1, 32); (975, 975, 1, 8); (984, 1006, 2, 1);
   (1012, 1012, 1, (-60)); (1015, 1015, 1, 1); (1017, 1017, 1, (-7));
   (1018, 1018, 1, 1); (1021, 1023, 1, (-130)); (1024, 1039, 1, 80);
   (1040, 1071, 1, 32); (1120, 1152, 2, 1); (1162, 1214, 2, 1);
   (1216, 1216, 1, 15); (1217, 1229, 2, 1); (1232, 1326, 2, 1);
   (1329, 1366, 1, 48); (4256, 4293, 1, 7264); (4295, 4295, 1, 7264);
   (4301, 4301, 1, 7264); (5024, 5103, 1, 38864); (5104, 5109, 1, 8);
   (7312, 7354, 1, (-3008)); (7357, 7359, 1, (-3008)); (7680, 7828, 2, 1);
   (7838, 7838, 1, (-7615)); (7840, 7934, 2, 1); (7944, 7951, 1, (-8));
   (7960, 7965, 1, (-8)); (7976, 7983, 1, (-8)); (7992, 7999, 1, (-8));
   (8008, 8013, 1, (-8)); (8025, 8031, 2, (-8)); (8040, 8047, 1, (-8));
   (8072, 8079, 1, (-8)); (8088, 8095, 1, (-8)); (8104, 8111, 1, (-8));
   (8120, 8121, 1, (-8)); (8122, 8123, 1, (-74)); (8124, 8124, 1, (-9));
   (8136, 8139, 1, (-86)); (8140, 8140, 1, (-9)); (8152, 8153, 1, (-8));
   (8154, 8155, 1, (-100)); (8168, 8169, 1, (-8)); (8170, 8171, 1, (-112));
   (8172, 8172, 1, (-7)); (8184, 8185, 1, (-128)); (8186, 8187, 1, (-126));
   (8188, 8188, 1, (-9)); (8486, 8486, 1, (-7517)); (8490, 8490, 1, (-8383));
   (8491, 8491, 1, (-8262)); (8498, 8498, 1, 28); (8544, 8559, 1, 16);
   (8579, 8579, 1, 1); (9398, 9423, 1, 26); (11264, 11311, 1, 48);
   (11360, 11360, 1, 1); (11362, 11362, 1, (-10743));
   (11363, 11363, 1, (-3814)); (11364, 11364, 1, (-10727));
   (11367, 11371, 2, 1); (11373, 11373, 1, (-10780));
   (11374, 11374, 1, (-10749)); (11375, 11375, 1, (-10783));
   (11376, 11376, 1, (-10782)); (11378, 11378, 1, 1); (11381, 11381, 1, 1);
   (11390, 11391, 1, (-10815)); (11392, 11490, 2, 1); (11499, 11501, 2, 1);
   (11506, 11506, 1, 1); (42560, 42604, 2, 1); (42624, 42650, 2, 1);
   (42786, 42798, 2, 1); (42802, 42862, 2, 1); (42873, 42875, 2, 1);
   (42877, 42877, 1, (-35332)); (42878, 42886, 2, 1); (42891, 42891, 1, 1);
   (42893, 42893, 1, (-42280)); (42896, 42898, 2, 1); (42902, 42920, 2, 1);
   (42922, 42922, 1, (-42308)); (42923, 42923, 1, (-42319));
   (42924, 42924, 1, (-42315)); (42925, 42925, 1, (-42305));
   (42926, 42926, 1, (-42308)); (42928, 42928, 1, (-42258));
   (42929, 42929, 1, (-42282)); (42930, 42930, 1, (-42261));
   (42931, 42931, 1, 928); (42932, 42946, 2, 1); (42948, 42948, 1, (-48));
   (42949, 42949, 1, (-42307)); (42950, 42950, 1, (-35384));
   (42951, 42953, 2, 1); (42960, 42960, 1, 1); (42966, 42968, 2, 1);
   (42997, 42997, 1, 1); (65313, 65338, 1, 32); (66560, 66599, 1, 40);
   (66736, 66771, 1, 40); (66928, 66938, 1, 39); (66940, 66954, 1, 39);
   (66956, 66962, 1, 39); (66964, 66965, 1, 39); (68736, 68786, 1, 64);
   (71840, 71871, 1, 32); (93760, 93791, 1, 32); (125184, 125217, 1, 34)]%Z.

(** The property [Cased]. *)
Definition cased_ranges : list (Z * Z) :=
  [(65, 90); (97, 122); (170, 170); (181, 181); (186, 186); (192, 214);
   (216, 246); (248, 442); (444, 447); (452, 659); (661, 696); (704, 705);
   (736, 740); (837, 837); (880, 883); (886, 887); (890, 893); (895, 895);
   (902, 902); (904, 906); (908, 908); (910, 929); (931, 1013); (1015, 1153);
   (1162, 1327); (1329, 1366); (1376, 1416); (4256, 4293); (4295, 4295);
   (4301, 4301); (4304, 4346); (4349, 4351); (5024, 5109); (5112, 5117);
   (7296, 7304); (7312, 7354); (7357, 7359); (7424, 7615); (7680, 7957);
   (7960, 7965); (7968, 8005); (8008, 8013); (8016, 8023); (8025, 8025);
   (8027, 8027); (8029, 8029); (8031, 8061); (8064, 8116); (8118, 8124);
   (8126, 8126); (8130, 8132); (8134, 8140); (8144, 8147); (8150, 8155);
   (8160, 8172); (8178, 8180); (8182, 8188); (8305, 8305); (8319, 8319);
   (8336, 8348); (8450, 8450); (8455, 8455); (8458, 8467); (8469, 8469);
   (8473, 8477); (8484, 8484); (8486, 8486); (8488, 8488); (8490, 8493);
   (8495, 8500); (8505, 8505); (8508, 8511); (8517, 8521); (8526, 8526);
   (8544, 8575); (8579, 8580); (9398, 9449); (11264, 11492); (11499, 11502);
   (11506, 11507); (11520, 11557); (11559, 11559); (11565, 11565);
   (42560, 42605); (42624, 42653); (42786, 42887); (42891, 42894);
   (42896, 42954); (42960, 42961); (42963, 42963); (42965, 42969);
   (42997, 42998); (43000, 43002); (43824, 43866); (43868, 43880);
   (43888, 43967); (64256, 64262); (64275, 64279); (65313, 65338);
   (65345, 65370); (66560, 66639); (66736, 66771); (66776, 66811);
   (66928, 66938); (66940, 66954); (66956, 66962); (66964, 66965);
   (66967, 66977); (66979, 66993); (66995, 67001); (67003, 67004);
   (67456, 67456); (67459, 67461); (67463, 67504); (67506, 67514);
   (68736, 68786); (68800, 68850); (71840, 71903); (93760, 93823);
   (119808, 119892); (119894, 119964); (119966, 119967); (119970, 119970);
   (119973, 119974); (119977, 119980); (119982, 119993); (119995, 119995);
   (119997, 120003); (120005, 120069); (120071, 120074); (120077, 120084);
   (120086, 120092); (120094, 120121); (120123, 120126); (120128, 120132);
   (120134, 120134); (120138, 120144); (120146, 120485); (120488, 120512);
   (120514, 120538); (120540, 120570); (120572, 120596); (120598, 120628);
   (120630, 120654); (120656, 120686); (120688, 120712); (120714, 120744);
   (120746, 120770); (120772, 120779); (122624, 122633); (122635, 122654);
   (125184, 125251); (127280, 127305); (127312, 127337); (127344, 127369)]%Z.

(** The property [Case_Ignorable]. *)
Definition case_ignorable_ranges : list (Z * Z) :=
  [(39, 39); (46, 46); (58, 58); (94, 94); (96, 96); (168, 168); (173, 173);
   (175, 175); (180, 180); (183, 184); (688, 879); (884, 885); (890, 890);
   (900, 901); (903, 903); (1155, 1161); (1369, 1369); (1375, 1375);
   (1425, 1469); (1471, 1471); (1473, 1474); (1476, 1477); (1479, 1479);
   (1524, 1524); (1536, 1541); (1552, 1562); (1564, 1564); (1600, 1600);
   (1611, 1631); (1648, 1648); (1750, 1757); (1759, 1768); (1770, 1773);
   (1807, 1807); (1809, 1809); (1840, 1866); (1958, 1968); (2027, 2037);
   (2042, 2042); (2045, 2045); (2070, 2093); (2137, 2139); (2184, 2184);
   (2192, 2193); (2200, 2207); (2249, 2306); (2362, 2362); (2364, 2364);
   (2369, 2376); (2381, 2381); (2385, 2391); (2402, 2403); (2417, 2417);
   (2433, 2433); (2492, 2492); (2497, 2500); (2509, 2509); (2530, 2531);
   (2558, 2558); (2561, 2562); (2620, 2620); (2625, 2626); (2631, 2632);
   (2635, 2637); (2641, 2641); (2672, 2673); (2677, 2677); (2689, 2690);
   (2748, 2748); (2753, 2757); (2759, 2760); (2765, 2765); (2786, 2787);
   (2810, 2815); (2817, 2817); (2876, 2876); (2879, 2879); (2881, 2884);
   (2893, 2893); (2901, 2902); (2914, 2915); (2946, 2946); (3008, 3008);
   (3021, 3021); (3072, 3072); (3076, 3076); (3132, 3132); (3134, 3136);
   (3142, 3144); (3146, 3149); (3157, 3158); (3170, 3171); (3201, 3201);
   (3260, 3260); (3263, 3263); (3270, 3270); (3276, 3277); (3298, 3299);
   (3328, 3329); (3387, 3388); (3393, 3396); (3405, 3405); (3426, 3427);
   (3457, 3457); (3530, 3530); (3538, 3540); (3542, 3542); (3633, 3633);
   (3636, 3642); (3654, 3662); (3761, 3761); (3764, 3772); (3782, 3782);
   (3784, 3789); (3864, 3865); (3893, 3893); (3895, 3895); (3897, 3897);
   (3953, 3966); (3968, 3972); (3974, 3975); (3981, 3991); (3993, 4028);
   (4038, 4038); (4141, 4144); (4146, 4151); (4153, 4154); (4157, 4158);
   (4184, 4185); (4190, 4192); (4209, 4212); (4226, 4226); (4229, 4230);
   (4237, 4237); (4253, 4253); (4348, 4348); (4957, 4959); (5906, 5908);
   (5938, 5939); (5970, 5971); (6002, 6003); (6068, 6069); (6071, 6077);
   (6086, 6086); (6089, 6099); (6103, 6103); (6109, 6109); (6155, 6159);
   (6211, 6211); (6277, 6278); (6313, 6313); (6432, 6434); (6439, 6440);
   (6450, 6450); (6457, 6459); (6679, 6680); (6683, 6683); (6742, 6742);
   (6744, 6750); (6752, 6752); (6754, 6754); (6757, 6764); (6771, 6780);
   (6783, 6783); (6823, 6823); (6832, 6862); (6912, 6915); (6964, 6964);
   (6966, 6970); (6972, 6972); (6978, 6978); (7019, 7027); (7040, 7041);
   (7074, 7077); (7080, 7081); (7083, 7085); (7142, 7142); (7144, 7145);
   (7149, 7149); (7151, 7153); (7212, 7219); (7222, 7223); (7288, 7293);
   (7376, 7378); (7380, 7392); (7394, 7400); (7405, 7405); (7412, 7412);
   (7416, 7417); (7468, 7530); (7544, 7544); (7579, 7679); (8125, 8125);
   (8127, 8129); (8141, 8143); (8157, 8159); (8173, 8175); (8189, 8190);
   (8203, 8207); (8216, 8217); (8228, 8228); (8231, 8231); (8234, 8238);
   (8288, 8292); (8294, 8303); (8305, 8305); (8319, 8319); (8336, 8348);
   (8400, 8432); (11388, 11389); (11503, 11505); (11631, 11631);
   (11647, 11647); (11744, 11775); (11823, 11823); (12293, 12293);
   (12330, 12333); (12337, 12341); (12347, 12347); (12441, 12446);
   (12540, 12542); (40981, 40981); (42232, 42237); (42508, 42508);
   (42607, 42610); (42612, 42621); (42623, 42623); (42652, 42655);
   (42736, 42737); (42752, 42785); (42864, 42864); (42888, 42890);
   (42994, 42996); (43000, 43001); (43010, 43010); (43014, 43014);
   (43019, 43019); (43045, 43046); (43052, 43052); (43204, 43205);
   (43232, 43249); (43263, 43263); (43302, 43309); (43335, 43345);
   (43392, 43394); (43443, 43443); (43446, 43449); (43452, 43453);
   (43471, 43471); (43493, 43494); (43561, 43566); (43569, 43570);
   (43573, 43574); (43587, 43587); (43596, 43596); (43632, 43632);
   (43644, 43644); (43696, 43696); (43698, 43700); (43703, 43704);
   (43710, 43711); (43713, 43713); (43741, 43741); (43756, 43757);
   (43763, 43764); (43766, 43766); (43867, 43871); (43881, 43883);
   (44005, 44005); (44008, 44008); (44013, 44013); (64286, 64286);
   (64434, 64450); (65024, 65039); (65043, 65043); (65056, 65071);
   (65106, 65106); (65109, 65109); (65279, 65279); (65287, 65287);
   (65294, 65294); (65306, 65306); (65342, 65342); (65344, 65344);
   (65392, 65392); (65438, 65439); (65507, 65507); (65529, 65531);
   (66045, 66045); (66272, 66272); (66422, 66426); (67456, 67461);
   (67463, 67504); (67506, 67514); (68097, 68099); (68101, 68102);
   (68108, 68111); (68152, 68154); (68159, 68159); (68325, 68326);
   (68900, 68903); (69291, 69292); (69446, 69456); (69506, 69509);
   (69633, 69633); (69688, 69702); (69744, 69744); (69747, 69748);
   (69759, 69761); (69811, 69814); (69817, 69818); (69821, 69821);
   (69826, 69826); (69837, 69837); (69888, 69890); (69927, 69931);
   (69933, 69940); (70003, 70003); (70016, 70017); (70070, 70078);
   (70089, 70092); (70095, 70095); (70191, 70193); (70196, 70196);
   (70198, 70199); (70206, 70206); (70367, 70367); (70371, 70378);
   (70400, 70401); (70459, 70460); (70464, 70464); (70502, 70508);
   (70512, 70516); (70712, 70719); (70722, 70724); (70726, 70726);
   (70750, 70750); (70835, 70840); (70842, 70842); (70847, 70848);
   (70850, 70851); (71090, 71093); (71100, 71101); (71103, 71104);
   (71132, 71133); (71219, 71226); (71229, 71229); (71231, 71232);
   (71339, 71339); (71341, 71341); (71344, 71349); (71351, 71351);
   (71453, 71455); (71458, 71461); (71463, 71467); (71727, 71735);
   (71737, 71738); (71995, 71996); (71998, 71998); (72003, 72003);
   (72148, 72151); (72154, 72155); (72160, 72160); (72193, 72202);
   (72243, 72248); (72251, 72254); (72263, 72263); (72273, 72278);
   (72281, 72283); (72330, 72342); (72344, 72345); (72752, 72758);
   (72760, 72765); (72767, 72767); (72850, 72871); (72874, 72880);
   (72882, 72883); (72885, 72886); (73009, 73014); (73018, 73018);
   (73020, 73021); (73023, 73029); (73031, 73031); (73104, 73105);
   (73109, 73109); (73111, 73111); (73459, 73460); (78896, 78904);
   (92912, 92916); (92976, 92982); (92992, 92995); (94031, 94031);
   (94095, 94111); (94176, 94177); (94179, 94180); (110576, 110579);
   (110581, 110587); (110589, 110590); (113821, 113822); (113824, 113827);
   (118528, 118573); (118576, 118598); (119143, 119145); (119155, 119170);
   (119173, 119179); (119210, 119213); (119362, 119364); (121344, 121398);
   (121403, 121452); (121461, 121461); (121476, 121476); (121499, 121503);
   (121505, 121519); (122880, 122886); (122888, 122904); (122907, 122913);
   (122915, 122916); (122918, 122922); (123184, 123197); (123566, 123566);
   (123628, 123631); (125136, 125142); (125252, 125259); (127995, 127999);
   (917505, 917505); (917536, 917631); (917760, 917999)]%Z.

Fixpoint lower_delta (c : Z) (runs : list (Z * Z * Z * Z)) : Z :=
  match runs with
  | [] => 0%Z
  | (lo, hi, step, delta) :: rest =>
      if (c <? lo)%Z then 0%Z
      else if (c <=? hi)%Z && ((c - lo) mod step =? 0)%Z then delta
      else lower_delta c rest
  end.

(** The lower-case form of one code point out of context: U+0130 becomes
    [i] and a combining dot, every other code point its simple mapping. *)
Definition lower_scalar (c : Z) : list Z :=
  if (c =? 304)%Z then [105; 775]%Z
  else [(c + lower_delta c lower_runs)%Z].

Definition is_cased (c : Z) : bool := in_ranges c cased_ranges.

Definition is_case_ignorable (c : Z) : bool :=
  in_ranges c case_ignorable_ranges.

(** Whether a cased letter follows, case-ignorable characters skipped. *)
Fixpoint followed_by_cased (l : list code) : bool :=
  match l with
  | Scalar c :: rest =>
      if is_case_ignorable c then followed_by_cased rest else is_cased c
  | _ => false
  end.

(** Lower-cases the code points of [l]; [after_cased] tells whether the
    nearest character before [l] that is not case-ignorable is cased.  A
    capital sigma (U+03A3) becomes the final sigma (U+03C2) when it comes
    after a cased letter and no cased letter follows, and the small sigma
    (U+03C3) otherwise. *)
Fixpoint lower_codes (after_cased : bool) (l : list code) : list code :=
  match l with
  | [] => []
  | Stray b :: rest => Stray b :: lower_codes false rest
  | Scalar c :: rest =>
      let out :=
        if (c =? 931)%Z then
          if after_cased && negb (followed_by_cased rest)
          then [962%Z] else [963%Z]
        else lower_scalar c in
      (map Scalar out
       ++ lower_codes (if is_case_ignorable c then after_cased else is_cased c)
            rest)%list
  end.

(** [String.prototype.toLowerCase]. *)
Definition toLowerCase (s : string) : string :=
  encode (lower_codes false (decode s)).

(** The lower-case form of the letters [A]-[Z] alone, which is how HTML
    compares tag names and keywords. *)
Definition is_upper (c : ascii) : bool :=
  let n := nat_of_ascii c in (65 <=? n)%nat && (n <=? 90)%nat.

Definition lower_char (c : ascii) : ascii :=
  if is_upper c then ascii_of_nat (nat_of_ascii c + 32) else c.

Fixpoint ascii_lower (s : string) : string :=
  match s with
  | EmptyString => EmptyString
  | String c s' => String (lower_char c) (ascii_lower s')
  end.

(** **** White space

    The code points [trim] and [Number] strip: the white space and the
    line terminators of the language (TAB, LF, VT, FF, CR, SPACE, U+00A0,
    U+1680, U+2000 to U+200A, U+2028, U+2029, U+202F, U+205F, U+3000 and
    U+FEFF). *)
Definition is_white_space (c : Z) : bool :=
  ((9 <=? c)%Z && (c <=? 13)%Z) || (c =? 32)%Z || (c =? 160)%Z
  || (c =? 5760)%Z || ((8192 <=? c)%Z && (c <=? 8202)%Z)
  || (c =? 8232)%Z || (c =? 8233)%Z || (c =? 8239)%Z || (c =? 8287)%Z
  || (c =? 12288)%Z || (c =? 65279)%Z.

(** A white space character in one, two or three bytes (none takes
    four). *)
Definition ws1 (b1 : ascii) : bool :=
  (byte b1 <? 128)%Z && is_white_space (byte b1).

Definition ws2 (b1 b2 : ascii) : bool :=
  valid2 b1 b2 && is_white_space (scalar2 b1 b2).

Definition ws3 (b1 b2 b3 : ascii) : bool :=
  valid3 b1 b2 b3 && is_white_space (scalar3 b1 b2 b3).

(** [String.prototype.trimStart]. *)
Fixpoint trimStart (s : string) : string :=
  match s with
  | EmptyString => EmptyString
  | String b1 r1 =>
      if ws1 b1 then trimStart r1
      else
        match r1 with
        | EmptyString => s
        | String b2 r2 =>
            if ws2 b1 b2 then trimStart r2
            else
              match r2 with
              | EmptyString => s
              | String b3 r3 => if ws3 b1 b2 b3 then trimStart r3 else s
              end
        end
  end.

Fixpoint reverse_onto (s acc : string) : string :=
  match s with
  | EmptyString => acc
  | String b rest => reverse_onto rest (String b acc)
  end.

Definition reverse (s : string) : string := reverse_onto s EmptyString.

(** [trimStart] on a string read backwards: the bytes of a character
    come last byte first. *)
Fixpoint trimStart_reversed (s : string) : string :=
  match s with
  | EmptyString => EmptyString
  | String b1 r1 =>
      if ws1 b1 then trimStart_reversed r1
      else
        match r1 with
        | EmptyString => s
        | String b2 r2 =>
            if ws2 b2 b1 then trimStart_reversed r2
            else
              match r2 with
              | EmptyString => s
              | String b3 r3 =>
                  if ws3 b3 b2 b1 then trimStart_reversed r3 else s
              end
        end
  end.

(** [String.prototype.trimEnd]. *)
Definition trimEnd (s : string) : string :=
  reverse (trimStart_reversed (reverse s)).

(** [String.prototype.trim]. *)
Definition trim (s : string) : string := trimEnd (trimStart s).

(** [String.prototype.includes] with a string argument: [q] occurs in [s]
    as a contiguous run. *)
Fixpoint str_includes (s q : string) : bool :=
  String.prefix q s ||
  match s with
  | EmptyString => false
  | String _ s' => str_includes s' q
  end.

(** *** Coercions and property access *)

(** [ToBoolean]. *)
Definition truthy (v : value) : bool :=
  match v with
  | VUndef | VNull => false
  | VBool b => b
  | VNum n => negb (PrimFloat.is_nan n || PrimFloat.is_zero n)
  | VStr s => negb (s =? "")
  | VArr _ | VObj _ => true
  end.

(** [a || b] on values. *)
Definition or_else (a b : value) : value := if truthy a then a else b.

(** [a || b] on strings. *)
Definition or_str (a b : string) : string := if a =? "" then b else a.

Fixpoint lookup (k : string) (props : list (string * value)) : value :=
  match props with
  | [] => VUndef
  | (k', v) :: rest => if k' =? k then v else lookup k rest
  end.

(** [v?.k]: reading property [k] where [null] and [undefined] give
    [undefined].  None of the property names the program reads ([title],
    [diets], [name], [amount], ...) exists on a built-in prototype, so only
    an object's own properties can answer. *)
Definition get_opt (v : value) (k : string) : value :=
  match v with
  | VObj props => lookup k props
  | _ => VUndef
  end.

(** [v.k]: as [v?.k], but reading a property of [null] or [undefined]
    throws. *)
Definition get (v : value) (k : string) : result value :=
  match v with
  | VUndef | VNull =>
      Throw (TypeError "Cannot read properties of null or undefined")
  | _ => Ok (get_opt v k)
  end.

(** *** Numbers: decimal text to double and back *)

(** The double nearest to [m * 10^k] for a natural [m] (round to nearest,
    ties to even), computed on exact integers. *)
Definition dec_to_float (m k : Z) : number :=
  match m with
  | Zpos _ =>
      if (0 <=? k)%Z then
        SF2Prim (binary_normalize prec emax (m * 10 ^ k) 0 false)
      else
        let '(q, e, l) := SFdiv_core_binary prec emax m 0 (10 ^ (- k)) 0 in
        SF2Prim (binary_round_aux prec emax false q e l)
  | _ => PrimFloat.zero
  end.

Definition digit_of (base : Z) (c : ascii) : option Z :=
  let n := Z.of_nat (nat_of_ascii c) in
  let d :=
    if (48 <=? n)%Z && (n <=? 57)%Z then (n - 48)%Z
    else if (97 <=? n)%Z && (n <=? 102)%Z then (n - 87)%Z
    else if (65 <=? n)%Z && (n <=? 70)%Z then (n - 55)%Z
    else 99%Z in
  if (d <? base)%Z then Some d else None.

(** Reads the longest run of digits of [base] at the head of [s]: the run's
    value continuing [acc], its length, and the rest of the text. *)
Fixpoint read_digits (base : Z) (s : string) (acc : Z) : Z * nat * string :=
  match s with
  | EmptyString => (acc, 0%nat, EmptyString)
  | String c s' =>
      match digit_of base c with
      | Some d =>
          let '(v, n, rest) := read_digits base s' (acc * base + d)%Z in
          (v, S n, rest)
      | None => (acc, 0%nat, s)
      end
  end.

(** [+] or [-] at the head of [s]: whether it is [-], and the rest. *)
Definition read_sign (s : string) : bool * string :=
  match s with
  | String "-"%char s' => (true, s')
  | String "+"%char s' => (false, s')
  | _ => (false, s)
  end.

(** [ExponentPart] (optional): [e] or [E], a [SignedInteger], end of text. *)
Definition read_exponent (s : string) : option Z :=
  match s with
  | EmptyString => Some 0%Z
  | String c s' =>
      if (c =? "e")%char || (c =? "E")%char then
        let '(neg, s1) := read_sign s' in
        match read_digits 10 s1 0 with
        | (_, O, _) => None
        | (v, _, EmptyString) => Some (if neg then (- v)%Z else v)
        | _ => None
        end
      else None
  end.

(** [StrUnsignedDecimalLiteral]. *)
Definition parse_unsigned_decimal (s : string) : option number :=
  if s =? "Infinity" then Some PrimFloat.infinity
  else
    let '(ip, ni, s1) := read_digits 10 s 0 in
    let '(m, nf, s2) :=
      match s1 with
      | String "."%char s1' => read_digits 10 s1' ip
      | _ => (ip, 0%nat, s1)
      end in
    match (ni + nf)%nat with
    | O => None
    | _ =>
        match read_exponent s2 with
        | Some ex => Some (dec_to_float m (ex - Z.of_nat nf)%Z)
        | None => None
        end
    end.

(** [NonDecimalIntegerLiteral]: [0b], [0o] or [0x] (either case) and at
    least one digit of that base. *)
Definition parse_non_decimal (s : string) : option number :=
  match s with
  | String "0"%char (String c s') =>
      let base :=
        if (c =? "x")%char || (c =? "X")%char then 16%Z
        else if (c =? "o")%char || (c =? "O")%char then 8%Z
        else if (c =? "b")%char || (c =? "B")%char then 2%Z
        else 0%Z in
      if (base =? 0)%Z then None
      else
        match read_digits base s' 0 with
        | (_, O, _) => None
        | (v, _, EmptyString) => Some (dec_to_float v 0)
        | _ => None
        end
  | _ => None
  end.

(** [StrNumericLiteral]. *)
Definition parse_numeric (s : string) : option number :=
  match parse_non_decimal s with
  | Some x => Some x
  | None =>
      let '(neg, s') := read_sign s in
      match parse_unsigned_decimal s' with
      | Some x => Some (if neg then (- x)%float else x)
      | None => None
      end
  end.

(** [StringToNumber]: white space alone is [+0], a numeric literal between
    optional white space is its value, anything else is [NaN]. *)
Definition StringToNumber (s : string) : number :=
  let t := trim s in
  if t =? "" then PrimFloat.zero
  else match parse_numeric t with
       | Some x => x
       | None => PrimFloat.nan
       end.

(** The exact value of a finite double: its sign and the fraction
    [p / q] of its magnitude ([q] a power of two). *)
Definition exact (x : number) : bool * Z * Z :=
  match Prim2SF x with
  | S754_finite sg m e =>
      if (0 <=? e)%Z then (sg, (Zpos m * 2 ^ e)%Z, 1%Z)
      else (sg, Zpos m, (2 ^ (- e))%Z)
  | S754_zero sg => (sg, 0%Z, 1%Z)
  | S754_infinity sg => (sg, 1%Z, 0%Z)
  | S754_nan => (false, 0%Z, 0%Z)
  end.

(** [p / q] scaled by [10^(-j)], again as a fraction of integers. *)
Definition scale10 (p q j : Z) : Z * Z :=
  if (0 <=? j)%Z then (p, (q * 10 ^ j)%Z) else ((p * 10 ^ (- j))%Z, q).

(** The decimal magnitude of [p / q > 0]: the [n] with
    [10^(n-1) <= p / q < 10^n].  [mag_up] climbs from [n >= 1] holding
    [t = q * 10^n]; [mag_down] descends from [n <= 0] holding
    [t = p * 10^(-n)]. *)
Fixpoint mag_up (fuel : nat) (p t n : Z) : Z :=
  match fuel with
  | O => n
  | S fuel' => if (p <? t)%Z then n else mag_up fuel' p (t * 10)%Z (n + 1)%Z
  end.

Fixpoint mag_down (fuel : nat) (t q n : Z) : Z :=
  match fuel with
  | O => n
  | S fuel' =>
      if (t * 10 <? q)%Z then mag_down fuel' (t * 10)%Z q (n - 1)%Z else n
  end.

Definition magnitude10 (p q : Z) : Z :=
  if (p <? q)%Z then mag_down 400 p q 0 else mag_up 400 p (q * 10)%Z 1.

Definition decimal (z : Z) : string :=
  NilZero.string_of_uint (N.to_uint (Z.to_N z)).

Fixpoint zeros (n : nat) : string :=
  match n with
  | O => EmptyString
  | S n' => String "0" (zeros n')
  end.

(** The digits [s] (of [k] places) for magnitude [n] that print the
    positive double [x = p / q] with [k] significant digits, if some
    [k]-digit decimal reads back as [x]: the nearer of the two neighbours
    of [x] on the grid [10^(n-k)], the even one on a tie. *)
Definition digits_at (x : number) (p q n k : Z) : option (Z * Z) :=
  let j := (n - k)%Z in
  let '(p', q') := scale10 p q j in
  let lo := (p' / q')%Z in
  let r := (p' mod q')%Z in
  let hi := (lo + 1)%Z in
  let back s := PrimFloat.Leibniz.eqb (dec_to_float s j) x in
  let pick s := if (s =? 10 ^ k)%Z then Some ((n + 1)%Z, (10 ^ (k - 1))%Z)
                else Some (n, s) in
  match back lo, back hi with
  | true, true =>
      match (2 * r ?= q')%Z with
      | Lt => pick lo
      | Gt => pick hi
      | Eq => if Z.even lo then pick lo else pick hi
      end
  | true, false => pick lo
  | false, true => pick hi
  | false, false => None
  end.

(** The shortest digit string that reads back as [x], trying 1, 2, ...
    significant digits; seventeen always suffice for a double. *)
Fixpoint shortest (fuel : nat) (x : number) (p q n k : Z) : Z * Z * Z :=
  match fuel with
  | O => (n, k, (fst (scale10 p q (n - k)) / snd (scale10 p q (n - k)))%Z)
  | S fuel' =>
      match digits_at x p q n k with
      | Some (n', s) => (n', k, s)
      | None => shortest fuel' x p q n (k + 1)%Z
      end
  end.

(** [Number::toString] in radix 10. *)
Definition NumberToString (x : number) : string :=
  if PrimFloat.is_nan x then "NaN"
  else if PrimFloat.is_zero x then "0"
  else
    let '(sg, p, q) := exact x in
    let sign := if sg then "-" else "" in
    if PrimFloat.is_infinity x then sign ++ "Infinity"
    else
      let '(n, k, s) :=
        shortest 17 (PrimFloat.abs x) p q (magnitude10 p q) 1 in
      let ds := decimal s in
      let body :=
        if (k <=? n)%Z && (n <=? 21)%Z then ds ++ zeros (Z.to_nat (n - k))
        else if (0 <? n)%Z && (n <=? 21)%Z then
          substring 0 (Z.to_nat n) ds ++ "."
            ++ substring (Z.to_nat n) (Z.to_nat (k - n)) ds
        else if (-6 <? n)%Z && (n <=? 0)%Z then
          "0." ++ zeros (Z.to_nat (- n)) ++ ds
        else
          let e := (n - 1)%Z in
          let es := (if (e <? 0)%Z then "-" else "+") ++ decimal (Z.abs e) in
          if (k =? 1)%Z then ds ++ "e" ++ es
          else substring 0 1 ds ++ "."
                 ++ substring 1 (Z.to_nat (k - 1)) ds ++ "e" ++ es in
      sign ++ body.

(** [Number.prototype.toFixed(1)]: the decimal with one fraction digit
    nearest to the exact value of [x], the larger on a tie; values of
    magnitude [10^21] and more, and non-finite ones, print as
    [Number::toString] does. *)
Definition toFixed1 (x : number) : string :=
  if negb (PrimFloat.is_finite x) then NumberToString x
  else
    let '(_, p, q) := exact x in
    let sign := if (x <? 0)%float then "-" else "" in
    if (10 ^ 21 * q <=? p)%Z then sign ++ NumberToString (PrimFloat.abs x)
    else
      let n := ((2 * 10 * p + q) / (2 * q))%Z in
      let m := decimal n in
      let m := if (String.length m <=? 1)%nat
               then zeros (2 - String.length m) ++ m else m in
      let k := String.length m in
      sign ++ substring 0 (k - 1) m ++ "." ++ substring (k - 1) 1 m.

(** [Number.isFinite] on a number. *)
Definition isFinite (x : number) : bool := PrimFloat.is_finite x.

(** Two readings of the bit-level description of a double: a rounded
    result that kept the sign [sx] and is not zero, and a value that is
    zero or finite. *)
Definition signed_nonzero (sx : bool) (r : spec_float) : Prop :=
  match r with
  | S754_finite s _ _ | S754_infinity s => s = sx
  | _ => False
  end.

Definition finite_or_zero (x : spec_float) : bool :=
  match x with
  | S754_zero _ | S754_finite _ _ _ => true
  | _ => false
  end.

(** A length or a count as a number (exact below [2^53]). *)
Definition of_nat (n : nat) : number := dec_to_float (Z.of_nat n) 0.

Fixpoint has_own (k : string) (props : list (string * value)) : bool :=
  match props with
  | [] => false
  | (k', _) :: rest => (k' =? k) || has_own k rest
  end.

(** [ToString].  An array prints as [join(",")] does, [null] and
    [undefined] elements as the empty string.  A plain object prints as
    [[object Object]] through the inherited [Object.prototype.toString];
    an own [toString] property (never callable in parsed JSON) shadows it
    and [OrdinaryToPrimitive] then finds no usable method. *)
Fixpoint ToString (v : value) : result string :=
  match v with
  | VUndef => Ok "undefined"
  | VNull => Ok "null"
  | VBool true => Ok "true"
  | VBool false => Ok "false"
  | VNum n => Ok (NumberToString n)
  | VStr s => Ok s
  | VArr items =>
      (fix join (l : list value) : result string :=
         match l with
         | [] => Ok ""
         | x :: rest =>
             a <- match x with
                  | VUndef | VNull => Ok ""
                  | _ => ToString x
                  end ;;
             match rest with
             | [] => Ok a
             | _ => b <- join rest ;; Ok (a ++ "," ++ b)
             end
         end) items
  | VObj props =>
      if has_own "toString" props
      then Throw (TypeError "Cannot convert object to primitive value")
      else Ok "[object Object]"
  end.

(** [ToNumber], which is what [Number(v)] computes. *)
Definition ToNumber (v : value) : result number :=
  match v with
  | VUndef => Ok PrimFloat.nan
  | VNull => Ok PrimFloat.zero
  | VBool true => Ok PrimFloat.one
  | VBool false => Ok PrimFloat.zero
  | VNum n => Ok n
  | VStr s => Ok (StringToNumber s)
  | VArr _ | VObj _ => s <- ToString v ;; Ok (StringToNumber s)
  end.

(** *** Arrays and sets *)

(** [SameValueZero].  Arrays and objects compare by identity, and two
    occurrences in a parsed document are never the same object. *)
Definition same_value_zero (a b : value) : bool :=
  match a, b with
  | VUndef, VUndef => true
  | VNull, VNull => true
  | VBool x, VBool y => Bool.eqb x y
  | VNum x, VNum y => (PrimFloat.is_nan x && PrimFloat.is_nan y) || (x =? y)%float
  | VStr x, VStr y => (x =? y)%string
  | _, _ => false
  end.

(** [x === y] where one side is a string. *)
Definition strict_eq_str (v : value) (s : string) : bool :=
  match v with
  | VStr t => (t =? s)%string
  | _ => false
  end.

(** [v.includes(label)] for a string [label]: the array method on an
    array, the substring test on a string; no other value has the
    method. *)
Definition includes (v : value) (label : string) : result bool :=
  match v with
  | VArr items => Ok (existsb (fun x => same_value_zero x (VStr label)) items)
  | VStr s => Ok (str_includes s label)
  | _ => Throw (TypeError "includes is not a function")
  end.

(** [v.toLowerCase()]: only strings have the method. *)
Definition call_toLowerCase (v : value) : result string :=
  match v with
  | VStr s => Ok (toLowerCase s)
  | _ => Throw (TypeError "toLowerCase is not a function")
  end.

(** [Array.prototype.sort(cmp)] on numbers.  A comparator result that is
    positive puts its first argument after the second; [NaN] counts as
    [+0].  The sort is stable, so for a consistent comparator the result
    is the one insertion gives. *)
Fixpoint insert (cmp : number -> number -> number) (x : number)
    (l : list number) : list number :=
  match l with
  | [] => [x]
  | y :: l' => if (0 <? cmp x y)%float then y :: insert cmp x l' else x :: l
  end.

Definition sort (cmp : number -> number -> number) (l : list number)
    : list number :=
  fold_right (insert cmp) [] l.

(** [new Set(l).size]: the number of elements distinct under
    [SameValueZero]. *)
Fixpoint set_add (x : value) (seen : list value) : list value :=
  match seen with
  | [] => [x]
  | y :: seen' => if same_value_zero y x then seen else y :: set_add x seen'
  end.

Definition set_of (l : list value) : list value :=
  fold_left (fun seen x => set_add x seen) l [].

Definition set_size (l : list value) : nat := List.length (set_of l).

End JS.

Import JS.
Local Open Scope js_scope.

(** ** The DOM calls of [stripHtml]

    [el.innerHTML = s] parses [s] as a fragment inside a detached [div];
    [el.textContent] reads the text back.  The model follows the
    tokenizer states of the HTML standard for character data, start and
    end tags with their attributes, comments and declarations, and the
    character references [amp], [lt], [gt], [quot] and [apos]; the tree is
    built with a stack of open elements.  Elements whose content the
    browser reads as raw text ([script], [style], ...) or relocates (table
    parts), the other character references, and the NUL character (which
    the browser drops from text) are outside the model; the statements
    about markup keep to markup without them. *)

Module DOM.

Inductive node : Type :=
  | Text (data : string)
  | Comment
  | Element (tag : string) (children : list node).

Inductive token : Type :=
  | TChar (c : ascii)
  | TStart (name : string)
  | TEnd (name : string)
  | TComment.

Inductive state : Type :=
  | Data
  | TagName (closing : bool) (name : string)
  | BeforeAttrName (closing : bool) (name : string)
  | AttrName (closing : bool) (name : string)
  | AfterAttrName (closing : bool) (name : string)
  | BeforeAttrValue (closing : bool) (name : string)
  | ValueDouble (closing : bool) (name : string)
  | ValueSingle (closing : bool) (name : string)
  | ValueUnquoted (closing : bool) (name : string)
  | BogusComment
  | Doctype
  | CommentStart
  | CommentStartDash
  | CommentBody
  | CommentEndDash
  | CommentEnd
  | CommentEndBang.

Definition is_alpha (c : ascii) : bool :=
  let n := nat_of_ascii c in
  ((65 <=? n)%nat && (n <=? 90)%nat) || ((97 <=? n)%nat && (n <=? 122)%nat).

(** TAB, LF, FF and SPACE. *)
Definition is_html_space (c : ascii) : bool :=
  let n := nat_of_ascii c in
  (n =? 9)%nat || (n =? 10)%nat || (n =? 12)%nat || (n =? 32)%nat.

(** Input preprocessing: CR LF and a lone CR become LF. *)
Fixpoint normalize_newlines (s : string) : string :=
  match s with
  | EmptyString => EmptyString
  | String c rest =>
      if (nat_of_ascii c =? 13)%nat then
        match rest with
        | String c' rest' =>
            if (nat_of_ascii c' =? 10)%nat
            then String c' (normalize_newlines rest')
            else String (ascii_of_nat 10) (normalize_newlines rest)
        | EmptyString => String (ascii_of_nat 10) EmptyString
        end
      else String c (normalize_newlines rest)
  end.

(** The double quote character. *)
Definition dquote : ascii := ascii_of_nat 34.

Definition tag_token (closing : bool) (name : string) : token :=
  if closing then TEnd name else TStart name.

Definition snoc (name : string) (c : ascii) : string :=
  name ++ String (lower_char c) EmptyString.

(** Whether the text after [<!] opens a document type declaration. *)
Definition starts_doctype (s : string) : bool :=
  ascii_lower (substring 0 7 s) =? "doctype".

(** The tokenizer.  [BeforeAttrName] also stands for the standard's
    "self-closing start tag" and "after attribute value (quoted)" states,
    which move exactly as it does once the self-closing flag is left out
    (the tree builder ignores it on HTML elements).  A tag cut short by
    the end of input is dropped; an unfinished comment is emitted; a
    document type declaration leaves no token behind. *)
Fixpoint tokenize (st : state) (s : string) : list token :=
  match s with
  | EmptyString =>
      match st with
      | BogusComment | CommentStart | CommentStartDash | CommentBody
      | CommentEndDash | CommentEnd | CommentEndBang => [TComment]
      | _ => []
      end
  | String c rest =>
      match st with
      | Data =>
          if (c =? "<")%char then
            match rest with
            | String "!" (String "-" (String "-" r)) => tokenize CommentStart r
            | String "!" r =>
                if starts_doctype r then tokenize Doctype r
                else tokenize BogusComment r
            | String "?" r => tokenize BogusComment r
            | String "/" EmptyString => [TChar "<"; TChar "/"]
            | String "/" (String c2 r as r1) =>
                if is_alpha c2 then tokenize (TagName true (snoc "" c2)) r
                else if (c2 =? ">")%char then tokenize Data r
                else tokenize BogusComment r1
            | String c1 r =>
                if is_alpha c1 then tokenize (TagName false (snoc "" c1)) r
                else TChar "<" :: tokenize Data rest
            | EmptyString => [TChar "<"]
            end
          else if (c =? "&")%char then
            match rest with
            | String "a" (String "m" (String "p" (String ";" r))) =>
                TChar "&" :: tokenize Data r
            | String "l" (String "t" (String ";" r)) =>
                TChar "<" :: tokenize Data r
            | String "g" (String "t" (String ";" r)) =>
                TChar ">" :: tokenize Data r
            | String "q" (String "u" (String "o" (String "t" (String ";" r)))) =>
                TChar dquote :: tokenize Data r
            | String "a" (String "p" (String "o" (String "s" (String ";" r)))) =>
                TChar "'" :: tokenize Data r
            | String "a" (String "m" (String "p" r)) =>
                TChar "&" :: tokenize Data r
            | String "l" (String "t" r) => TChar "<" :: tokenize Data r
            | String "g" (String "t" r) => TChar ">" :: tokenize Data r
            | String "q" (String "u" (String "o" (String "t" r))) =>
                TChar dquote :: tokenize Data r
            | _ => TChar "&" :: tokenize Data rest
            end
          else TChar c :: tokenize Data rest
      | TagName cl nm =>
          if is_html_space c || (c =? "/")%char
          then tokenize (BeforeAttrName cl nm) rest
          else if (c =? ">")%char then tag_token cl nm :: tokenize Data rest
          else tokenize (TagName cl (snoc nm c)) rest
      | BeforeAttrName cl nm =>
          if is_html_space c || (c =? "/")%char
          then tokenize (BeforeAttrName cl nm) rest
          else if (c =? ">")%char then tag_token cl nm :: tokenize Data rest
          else tokenize (AttrName cl nm) rest
      | AttrName cl nm =>
          if is_html_space c then tokenize (AfterAttrName cl nm) rest
          else if (c =? "/")%char then tokenize (BeforeAttrName cl nm) rest
          else if (c =? ">")%char then tag_token cl nm :: tokenize Data rest
          else if (c =? "=")%char then tokenize (BeforeAttrValue cl nm) rest
          else tokenize (AttrName cl nm) rest
      | AfterAttrName cl nm =>
          if is_html_space c then tokenize (AfterAttrName cl nm) rest
          else if (c =? "/")%char then tokenize (BeforeAttrName cl nm) rest
          else if (c =? "=")%char then tokenize (BeforeAttrValue cl nm) rest
          else if (c =? ">")%char then tag_token cl nm :: tokenize Data rest
          else tokenize (AttrName cl nm) rest
      | BeforeAttrValue cl nm =>
          if is_html_space c then tokenize (BeforeAttrValue cl nm) rest
          else if (c =? dquote)%char then tokenize (ValueDouble cl nm) rest
          else if (c =? "'")%char then tokenize (ValueSingle cl nm) rest
          else if (c =? ">")%char then tag_token cl nm :: tokenize Data rest
          else tokenize (ValueUnquoted cl nm) rest
      | ValueDouble cl nm =>
          if (c =? dquote)%char then tokenize (BeforeAttrName cl nm) rest
          else tokenize (ValueDouble cl nm) rest
      | ValueSingle cl nm =>
          if (c =? "'")%char then tokenize (BeforeAttrName cl nm) rest
          else tokenize (ValueSingle cl nm) rest
      | ValueUnquoted cl nm =>
          if is_html_space c then tokenize (BeforeAttrName cl nm) rest
          else if (c =? ">")%char then tag_token cl nm :: tokenize Data rest
          else tokenize (ValueUnquoted cl nm) rest
      | BogusComment =>
          if (c =? ">")%char then TComment :: tokenize Data rest
          else tokenize BogusComment rest
      | Doctype =>
          if (c =? ">")%char then tokenize Data rest
          else tokenize Doctype rest
      | CommentStart =>
          if (c =? "-")%char then tokenize CommentStartDash rest
          else if (c =? ">")%char then TComment :: tokenize Data rest
          else tokenize CommentBody rest
      | CommentStartDash =>
          if (c =? "-")%char then tokenize CommentEnd rest
          else if (c =? ">")%char then TComment :: tokenize Data rest
          else tokenize CommentBody rest
      | CommentBody =>
          if (c =? "-")%char then tokenize CommentEndDash rest
          else tokenize CommentBody rest
      | CommentEndDash =>
          if (c =? "-")%char then tokenize CommentEnd rest
          else tokenize CommentBody rest
      | CommentEnd =>
          if (c =? ">")%char then TComment :: tokenize Data rest
          else if (c =? "!")%char then tokenize CommentEndBang rest
          else if (c =? "-")%char then tokenize CommentEnd rest
          else tokenize CommentBody rest
      | CommentEndBang =>
          if (c =? "-")%char then tokenize CommentEndDash rest
          else if (c =? ">")%char then TComment :: tokenize Data rest
          else tokenize CommentBody rest
      end
  end.

(** Elements that never have children. *)
Definition is_void (name : string) : bool :=
  existsb (String.eqb name)
    ["area"; "base"; "basefont"; "bgsound"; "br"; "col"; "embed"; "hr";
     "img"; "input"; "keygen"; "link"; "meta"; "param"; "source"; "track";
     "wbr"].

(** Character data joins the text node that ends the current child list,
    or starts a new one.  Child lists under construction are kept last
    child first. *)
Definition append_char (c : ascii) (cur : list node) : list node :=
  match cur with
  | Text d :: before => Text (d ++ String c EmptyString) :: before
  | _ => Text (String c EmptyString) :: cur
  end.

(** An open element: its tag and the children its parent had before it. *)
Definition frame : Type := string * list node.

(** Closes open elements, innermost first, up to and including the first
    one called [name]. *)
Fixpoint close_until (name : string) (cur : list node) (stack : list frame)
    : list node * list frame :=
  match stack with
  | [] => (cur, [])
  | (tag, before) :: outer =>
      let cur' := Element tag (rev cur) :: before in
      if tag =? name then (cur', outer) else close_until name cur' outer
  end.

(** At the end of input every open element is closed. *)
Fixpoint close_all (cur : list node) (stack : list frame) : list node :=
  match stack with
  | [] => rev cur
  | (tag, before) :: outer => close_all (Element tag (rev cur) :: before) outer
  end.

(** Tree construction: [cur] holds the children of the innermost open
    element (or of the context element when [stack] is empty). *)
Fixpoint build (tokens : list token) (cur : list node) (stack : list frame)
    : list node :=
  match tokens with
  | [] => close_all cur stack
  | TChar c :: rest => build rest (append_char c cur) stack
  | TComment :: rest => build rest (Comment :: cur) stack
  | TStart name :: rest =>
      if is_void name then build rest (Element name [] :: cur) stack
      else build rest [] ((name, cur) :: stack)
  | TEnd name :: rest =>
      if existsb (fun f => fst f =? name) stack then
        let '(cur', stack') := close_until name cur stack in
        build rest cur' stack'
      else build rest cur stack
  end.

(** The children [el.innerHTML = s] gives a [div]. *)
Definition parse_fragment (s : string) : list node :=
  build (tokenize Data (normalize_newlines s)) [] [].

(** [node.textContent]: the data of the text nodes below, in tree order. *)
Fixpoint textContent (n : node) : string :=
  match n with
  | Text d => d
  | Comment => EmptyString
  | Element _ children =>
      (fix go (l : list node) : string :=
         match l with
         | [] => EmptyString
         | c :: l' => textContent c ++ go l'
         end) children
  end.

(** [el.innerText] of an element that is not rendered is its
    [textContent]. *)
Definition innerText (n : node) : string := textContent n.



(** The text of a list of sibling nodes. *)
Definition text_of (l : list node) : string :=
  fold_right (fun c acc => textContent c ++ acc) EmptyString l.

(** The character data among [tokens], in order. *)
Fixpoint token_text (tokens : list token) : string :=
  match tokens with
  | [] => EmptyString
  | TChar c :: rest => String c (token_text rest)
  | _ :: rest => token_text rest
  end.

(** The text already placed before the children of the innermost open
    element, outermost element first. *)
Fixpoint outer_text (stack : list frame) : string :=
  match stack with
  | [] => EmptyString
  | (_, before) :: outer => outer_text outer ++ text_of (rev before)
  end.

(** Text that holds no markup: no [<], no [&] and no carriage return. *)
Fixpoint is_plain (s : string) : bool :=
  match s with
  | EmptyString => true
  | String c rest =>
      negb ((c =? "<")%char || (c =? "&")%char || (nat_of_ascii c =? 13)%nat)
      && is_plain rest
  end.

End DOM.


(** ** [App.jsx]: the list filter and the summary statistics *)

Module App.

(** One diet flag of the [flags] object:
    [!!r[field] || (r.diets || []).includes(label)]. *)
Definition diet_flag (r : value) (field label : string) : result bool :=
  f <- get r field ;;
  if truthy f then Ok true
  else d <- get r "diets" ;; includes (or_else d (VArr [])) label.

(** The callback of [recipes.filter] inside [filtered]. *)
Definition keep (q diet : string) (r : value) : result bool :=
  t <- get r "title" ;;
  title <- call_toLowerCase (or_else t (VStr "")) ;;
  let matchQ := (q =? "") || str_includes title q in
  if diet =? "all" then Ok matchQ
  else
    vegetarian <- diet_flag r "vegetarian" "vegetarian" ;;
    vegan <- diet_flag r "vegan" "vegan" ;;
    glutenFree <- diet_flag r "glutenFree" "gluten free" ;;
    let matchDiet :=
      ((diet =? "vegetarian") && vegetarian)
      || ((diet =? "vegan") && vegan)
      || ((diet =? "glutenFree") && glutenFree) in
    Ok (matchQ && matchDiet).

(** [filtered]: the rows of [recipes] that pass the title search and the
    diet selector. *)
Definition filtered (recipes : list value) (query diet : string)
    : result (list value) :=
  let q := toLowerCase (trim query) in
  filterM (keep q diet) recipes.

(** The placeholder shown when a statistic has no data. *)
Definition dash : value := VStr "—".

Record Stats : Type := mkStats
  { total : nat;
    avgReady : value;
    medianHS : value;
    cuisines : value }.

(** [filtered.map(r => Number(r[field]))]. *)
Definition numbers_of (field : string) (rows : list value)
    : result (list number) :=
  mapM (fun r => v <- get r field ;; ToNumber v) rows.

(** [ready.length ? (ready.reduce((a, b) => a + b, 0) / ready.length).toFixed(1) : dash]. *)
Definition average (ready : list number) : value :=
  match List.length ready with
  | O => dash
  | S _ =>
      VStr (toFixed1 (fold_left PrimFloat.add ready PrimFloat.zero
                      / of_nat (List.length ready))%float)
  end.

(** [hs[i]]; every index the median reads is within bounds. *)
Definition at_index (hs : list number) (i : nat) : number :=
  nth i hs PrimFloat.nan.

(** The conditional that defines [medianHS], on the sorted scores. *)
Definition median (hs : list number) : value :=
  let len := List.length hs in
  match len with
  | O => dash
  | S _ =>
      if (len mod 2 =? 0)%nat then
        VStr (toFixed1 ((at_index hs (len / 2 - 1) + at_index hs (len / 2))
                        / PrimFloat.two)%float)
      else VNum (at_index hs ((len - 1) / 2))
  end.

(** [filtered.flatMap(r => Array.isArray(r.cuisines) ? r.cuisines : [])]. *)
Fixpoint cuisines_of (rows : list value) : result (list value) :=
  match rows with
  | [] => Ok []
  | r :: rest =>
      c <- get r "cuisines" ;;
      cs <- cuisines_of rest ;;
      Ok ((match c with VArr items => items | _ => [] end) ++ cs)%list
  end.

(** [new Set(list.filter(Boolean)).size || dash]. *)
Definition distinct_count (cs : list value) : value :=
  match set_size (filter truthy cs) with
  | O => dash
  | n => VNum (of_nat n)
  end.

(** [stats]: the summary of the currently filtered set. *)
Definition stats (filtered : list value) : result Stats :=
  let total := List.length filtered in
  ready0 <- numbers_of "readyInMinutes" filtered ;;
  let ready := filter isFinite ready0 in
  let avgReady := average ready in
  hs0 <- numbers_of "healthScore" filtered ;;
  let hs := sort PrimFloat.sub (filter isFinite hs0) in
  let medianHS := median hs in
  cs <- cuisines_of filtered ;;
  let cuisines := distinct_count cs in
  Ok (mkStats total avgReady medianHS cuisines).

End App.

(** ** [RecipeDetail.jsx]: the nutrition chart series *)

Module RecipeDetail.

(** [stripHtml]: a detached [div] receives [html || ""] as markup and is
    read back as text. *)
Definition stripHtml (html : value) : result string :=
  markup <- ToString (or_else html (VStr "")) ;;
  let el := DOM.Element "div" (DOM.parse_fragment markup) in
  Ok (or_str (DOM.textContent el) (or_str (DOM.innerText el) "")).

Record Found : Type := mkFound { amount : number; unit : value }.
Record Slice : Type := mkSlice { slice_name : string; slice_value : number }.
Record BarItem : Type :=
  mkBar { bar_name : string; bar_amount : number; bar_unit : value }.

(** [Array.isArray(nutrition?.nutrients) ? nutrition.nutrients : []]. *)
Definition nutrients_of (nutrition : value) : list value :=
  match get_opt nutrition "nutrients" with
  | VArr items => items
  | _ => []
  end.

(** [nutrients.find(x => x?.name === name)], [undefined] when no element
    matches. *)
Definition find_by_name (nutrients : list value) (name : string) : value :=
  match List.find (fun x => strict_eq_str (get_opt x "name") name) nutrients with
  | Some x => x
  | None => VUndef
  end.

(** The local helper [find(name, fallbackUnit)]. *)
Definition find (nutrients : list value) (name fallbackUnit : string)
    : result Found :=
  let n := find_by_name nutrients name in
  a <- (if truthy n then v <- get n "amount" ;; ToNumber v
        else Ok PrimFloat.zero) ;;
  Ok (mkFound a (or_else (get_opt n "unit") (VStr fallbackUnit))).

(** [donutData]: the macro nutrients in kcal. *)
Definition donutData (nutrition : value) : result (list Slice) :=
  let nutrients := nutrients_of nutrition in
  protein <- find nutrients "Protein" "g" ;;
  fat <- find nutrients "Fat" "g" ;;
  carbs <- find nutrients "Carbohydrates" "g" ;;
  Ok [ mkSlice "Protein" (amount protein * 4)%float;
       mkSlice "Fat" (amount fat * 9)%float;
       mkSlice "Carbs" (amount carbs * 4)%float ].

Definition BAR_KEYS : list string :=
  ["Calories"; "Protein"; "Fat"; "Carbohydrates"; "Fiber"; "Sugar"].

(** [barData]: one bar per key of [BAR_KEYS]. *)
Definition barData (nutrition : value) : result (list BarItem) :=
  let nutrients := nutrients_of nutrition in
  mapM (fun k =>
          f <- find nutrients k (if k =? "Calories" then "kcal" else "g") ;;
          Ok (mkBar k (amount f) (unit f)))
       BAR_KEYS.

End RecipeDetail.

(** ** [DetailView.jsx] *)

Module DetailView.

(** The same helper, declared a second time in this file. *)
Definition stripHtml (html : value) : result string :=
  markup <- ToString (or_else html (VStr "")) ;;
  let el := DOM.Element "div" (DOM.parse_fragment markup) in
  Ok (or_str (DOM.textContent el) (or_str (DOM.innerText el) "")).

End DetailView.

(** ** The vocabulary of the specification *)

Module Spec.

(** A field that is not there: the key is missing or holds [null]. *)
Definition missing (v : value) : bool :=
  match v with
  | VUndef | VNull => true
  | _ => false
  end.

Definition is_string (v : value) : bool :=
  match v with VStr _ => true | _ => false end.

Definition is_boolean (v : value) : bool :=
  match v with VBool _ => true | _ => false end.

Definition is_array (v : value) : bool :=
  match v with VArr _ => true | _ => false end.

(** A [RecipeSummary] as the filter reads it: an object whose [title] is
    text, whose [diets] is an array of tags and whose three diet flags are
    booleans, each of them possibly missing. *)
Definition is_recipe_summary (r : value) : bool :=
  match r with
  | VObj props =>
      (missing (lookup "title" props) || is_string (lookup "title" props))
      && (missing (lookup "diets" props) || is_array (lookup "diets" props))
      && forallb (fun k => missing (lookup k props) || is_boolean (lookup k props))
           ["vegetarian"; "vegan"; "glutenFree"]
  | _ => false
  end.

(** The title of a row as text, empty when missing. *)
Definition title_of (r : value) : string :=
  match get_opt r "title" with
  | VStr s => s
  | _ => ""
  end.

(** The query as the filter compares it: trimmed and lower-cased. *)
Definition normal_query (query : string) : string := toLowerCase (trim query).

(** Text predicate: the normalised query is empty or occurs in the
    lower-cased title. *)
Definition text_predicate (query : string) (r : value) : bool :=
  (normal_query query =? "")
  || str_includes (toLowerCase (title_of r)) (normal_query query).

(** The flag and the tag that a diet selector stands for. *)
Definition selector_signals (diet : string) : option (string * string) :=
  if diet =? "vegetarian" then Some ("vegetarian", "vegetarian")
  else if diet =? "vegan" then Some ("vegan", "vegan")
  else if diet =? "glutenFree" then Some ("glutenFree", "gluten free")
  else None.

Definition flag_is_true (r : value) (field : string) : bool :=
  match get_opt r field with
  | VBool true => true
  | _ => false
  end.

Definition has_tag (r : value) (label : string) : bool :=
  match get_opt r "diets" with
  | VArr tags => existsb (fun t => strict_eq_str t label) tags
  | _ => false
  end.

(** Diet predicate: every row passes under [all]; under another selector a
    row passes by its flag or by its tag. *)
Definition diet_predicate (diet : string) (r : value) : bool :=
  (diet =? "all")
  || match selector_signals diet with
     | Some (field, label) => flag_is_true r field || has_tag r label
     | None => false
     end.

(** The same two predicates, spelled out. *)
Definition text_ok (query : string) (r : value) : Prop :=
  normal_query query = ""
  \/ exists before after,
       toLowerCase (title_of r) = before ++ normal_query query ++ after.

Definition diet_ok (diet : string) (r : value) : Prop :=
  diet = "all"
  \/ exists field label,
       selector_signals diet = Some (field, label)
       /\ (get_opt r field = VBool true
           \/ exists tags, get_opt r "diets" = VArr tags /\ In (VStr label) tags).

Definition is_number (v : value) : bool :=
  match v with VNum _ => true | _ => false end.

(** The entry [x] of a nutrient list carries exactly the name [name]. *)
Definition named (name : string) (x : value) : bool :=
  strict_eq_str (get_opt x "name") name.

(** No entry of the list is called [name]. *)
Definition absent_from (nutrients : list value) (name : string) : Prop :=
  Forall (fun x => named name x = false) nutrients.

(** [e] is the entry of the list called [name] (the first one, should the
    list repeat a name). *)
Definition first_named (nutrients : list value) (name : string) (e : value)
    : Prop :=
  exists before after,
    nutrients = (before ++ e :: after)%list
    /\ named name e = true
    /\ absent_from before name.

(** A [NutritionRecord]: every named entry of its [nutrients] list has a
    numeric [amount] and a text [unit] that may be left out.  Entries
    without a name are never looked at. *)
Definition is_nutrient (x : value) : bool :=
  if is_string (get_opt x "name") then
    is_number (get_opt x "amount")
    && (missing (get_opt x "unit") || is_string (get_opt x "unit"))
  else true.

Definition is_nutrition_record (nutrition : value) : bool :=
  forallb is_nutrient (RecipeDetail.nutrients_of nutrition).

(** The grams the record gives for [name]: the amount of its entry, 0 when
    it has none. *)
Definition grams (nutrition : value) (name : string) (a : number) : Prop :=
  (absent_from (RecipeDetail.nutrients_of nutrition) name /\ a = PrimFloat.zero)
  \/ (exists e, first_named (RecipeDetail.nutrients_of nutrition) name e
               /\ get_opt e "amount" = VNum a).

(** The unit shown for key [k] when the record gives none. *)
Definition default_unit (k : string) : string :=
  if k =? "Calories" then "kcal" else "g".

(** The unit the record gives for [name]: the unit of its entry, the
    default when it has no entry or the entry leaves the unit out. *)
Definition unit_shown (nutrition : value) (name : string) (u : value) : Prop :=
  (absent_from (RecipeDetail.nutrients_of nutrition) name
   /\ u = VStr (default_unit name))
  \/ (exists e,
        first_named (RecipeDetail.nutrients_of nutrition) name e
        /\ ((missing (get_opt e "unit") = true /\ u = VStr (default_unit name))
            \/ (get_opt e "unit" = VStr "" /\ u = VStr (default_unit name))
            \/ (exists t, get_opt e "unit" = VStr t /\ t <> "" /\ u = VStr t))).

(** Text that is not a numeric literal (and not blank). *)
Definition non_numeric (s : string) : Prop :=
  trim s <> "" /\ parse_numeric (trim s) = None.

(** The finite numeric values the rows hold in [field], in row order. *)
Definition finite_number (v : value) : list number :=
  match v with
  | VNum x => if isFinite x then [x] else []
  | _ => []
  end.

Definition finite_values (field : string) (rows : list value) : list number :=
  flat_map (fun r => finite_number (get_opt r field)) rows.

(** A field that holds a number or is left out of the object. *)
Definition number_or_left_out (v : value) : bool :=
  match v with
  | VNum _ | VUndef => true
  | _ => false
  end.

(** A row as the statistics read it: an object whose [readyInMinutes] and
    [healthScore] are numbers or left out. *)
Definition is_scored_row (r : value) : bool :=
  match r with
  | VObj props =>
      number_or_left_out (lookup "readyInMinutes" props)
      && number_or_left_out (lookup "healthScore" props)
  | _ => false
  end.

(** What [Number] makes of such a field. *)
Definition number_or_nan (v : value) : number :=
  match v with
  | VNum x => x
  | _ => PrimFloat.nan
  end.

Definition ascending (l : list number) : Prop :=
  Sorted (fun a b => (a <=? b)%float = true) l.

(** [l1] is [l2] with some elements left out, the others in place. *)
Inductive Subsequence {A : Type} : list A -> list A -> Prop :=
  | sub_nil : Subsequence [] []
  | sub_skip : forall x l1 l2, Subsequence l1 l2 -> Subsequence l1 (x :: l2)
  | sub_keep : forall x l1 l2, Subsequence l1 l2 -> Subsequence (x :: l1) (x :: l2).

End Spec.

(** ** Sample data *)

Module Sample.

Local Open Scope float_scope.

Definition tacos : value :=
  VObj [("id", VNum 1); ("title", VStr "Vegan Tacos"); ("vegan", VBool true);
        ("readyInMinutes", VNum 30); ("healthScore", VNum 80);
        ("cuisines", VArr [VStr "Mexican"])].

Definition stew : value :=
  VObj [("id", VNum 2); ("title", VStr "Beef Stew"); ("vegan", VBool false);
        ("diets", VArr [VStr "gluten free"]);
        ("readyInMinutes", VNum 90); ("healthScore", VNum 40)].

Definition search_response : list value := [tacos; stew].

Definition nutrient (name : string) (grams : number) : value :=
  VObj [("name", VStr name); ("amount", VNum grams); ("unit", VStr "g")].

(** Protein 10 g, fat 5 g, carbohydrates 20 g. *)
Definition macros : value :=
  VObj [("nutrients",
         VArr [nutrient "Protein" 10; nutrient "Fat" 5;
               nutrient "Carbohydrates" 20])].

(** A record without fibre, with sugar whose unit is left out and with a
    lower-case [calories] entry. *)
Definition no_fiber : value :=
  VObj [("nutrients",
         VArr [VObj [("name", VStr "calories"); ("amount", VNum 250);
                     ("unit", VStr "kcal")];
               nutrient "Protein" 10;
               VObj [("name", VStr "Sugar"); ("amount", VNum 3)]])].

(** Entries whose amount is left out or is not numeric text. *)
Definition odd_amounts : list value :=
  [VObj [("name", VStr "Fiber"); ("unit", VStr "mg")];
   VObj [("name", VStr "Sugar"); ("amount", VStr "n/a")]].

(** Two rows, the first with [null] for its ready time and health score. *)
Definition with_nulls : list value :=
  [VObj [("title", VStr "Soup"); ("readyInMinutes", VNull);
         ("healthScore", VNull)];
   VObj [("title", VStr "Stew"); ("readyInMinutes", VNum 30);
         ("healthScore", VNum 40)]].

(** Rows that carry only a health score. *)
Definition scored (scores : list number) : list value :=
  map (fun x => VObj [("healthScore", VNum x)]) scores.

End Sample.

Import App RecipeDetail Spec.

(** ** The platform calls of the loaders: errors, promises, responses, URLs *)

Module Platform.

(** An [Error] object, by the two properties the handlers read. *)
Record thrown : Type := mkThrown { err_name : string; err_message : string }.

(** The [TypeError] the embedded code raises, as such an object. *)
Definition of_error (e : error) : thrown :=
  match e with
  | TypeError msg => mkThrown "TypeError" msg
  end.

(** [String(e)], that is [Error.prototype.toString]. *)
Definition String_of (e : thrown) : string :=
  if err_name e =? "" then err_message e
  else if err_message e =? "" then err_name e
  else err_name e ++ ": " ++ err_message e.

(** How an awaited promise settles. *)
Inductive settled (A : Type) : Type :=
  | Fulfilled (a : A)
  | Rejected (e : thrown).
Arguments Fulfilled {A} a.
Arguments Rejected {A} e.

(** A [Response], by what the loaders read: [ok], [status] and how
    [json()] settles. *)
Record Response : Type :=
  mkResponse { res_ok : bool; res_status : number; res_json : settled value }.

(** Bytes the [application/x-www-form-urlencoded] serializer leaves as
    they are: letters, digits and [*], [-], [.], [_]. *)
Definition is_form_safe (c : ascii) : bool :=
  let n := nat_of_ascii c in
  ((48 <=? n)%nat && (n <=? 57)%nat)
  || ((65 <=? n)%nat && (n <=? 90)%nat)
  || ((97 <=? n)%nat && (n <=? 122)%nat)
  || (n =? 42)%nat || (n =? 45)%nat || (n =? 46)%nat || (n =? 95)%nat.

Definition hex_digit (n : nat) : ascii :=
  if (n <? 10)%nat then ascii_of_nat (48 + n) else ascii_of_nat (55 + n).

(** One byte, serialized: itself, [+] for a space, [%HH] otherwise. *)
Definition form_encode_byte (c : ascii) : string :=
  if is_form_safe c then String c EmptyString
  else if (nat_of_ascii c =? 32)%nat then "+"
  else String "%" (String (hex_digit (nat_of_ascii c / 16))
                     (String (hex_digit (nat_of_ascii c mod 16)) EmptyString)).

Fixpoint form_encode (s : string) : string :=
  match s with
  | EmptyString => EmptyString
  | String c rest => form_encode_byte c ++ form_encode rest
  end.

(** [new URLSearchParams(pairs).toString()]. *)
Fixpoint params_toString (pairs : list (string * string)) : string :=
  match pairs with
  | [] => EmptyString
  | (k, v) :: rest =>
      form_encode k ++ "=" ++ form_encode v
      ++ match rest with
         | [] => EmptyString
         | _ => "&" ++ params_toString rest
         end
  end.

(** [Array.prototype.flatMap] with a callback that may throw: an array
    result contributes its elements, any other result itself. *)
Fixpoint flatMapM (f : value -> result value) (l : list value)
    : result (list value) :=
  match l with
  | [] => Ok []
  | x :: xs =>
      y <- f x ;;
      ys <- flatMapM f xs ;;
      Ok ((match y with VArr items => items | v => [v] end) ++ ys)%list
  end.

End Platform.

Import Platform.

(** ** [App.jsx]: loading the list, and what a row shows *)

Module AppLoad.

Definition API_BASE : string := "https://api.spoonacular.com".

(** The component state the effect writes. *)
Record State : Type :=
  mkState { recipes : list value; loading : bool; error : value }.

Definition missing_key_message : string :=
  "Missing API key. Put it in .env as VITE_APP_API_KEY and restart `npm run dev`.".

(** The request the effect sends. *)
Definition search_url (key : string) : string :=
  API_BASE ++ "/recipes/complexSearch?"
  ++ params_toString [("apiKey", key); ("number", "50");
                      ("sort", "popularity");
                      ("addRecipeInformation", "true")].

(** The [try] block: the rows to store or the exception that leaves it,
    and the requests sent on the way.  [API_KEY] is the build-time
    variable, [None] when it is not defined; [fetch] tells how the
    request settles. *)
Definition try_load (API_KEY : option string)
    (fetch : string -> settled Response) : settled (list value) * list string :=
  match API_KEY with
  | None => (Rejected (mkThrown "Error" missing_key_message), [])
  | Some key =>
      if key =? "" then (Rejected (mkThrown "Error" missing_key_message), [])
      else
        let url := search_url key in
        (match fetch url with
         | Rejected e => Rejected e
         | Fulfilled res =>
             if negb (res_ok res) then
               Rejected (mkThrown "Error"
                           ("HTTP " ++ NumberToString (res_status res)))
             else
               match res_json res with
               | Rejected e => Rejected e
               | Fulfilled json =>
                   match get json "results" with
                   | Throw e => Rejected (of_error e)
                   | Ok results =>
                       Fulfilled (match results with
                                  | VArr items => items
                                  | _ => []
                                  end)
                   end
               end
         end, [url])
  end.

(** The effect, start to end: the state it leaves and the requests it
    sent. *)
Definition load (API_KEY : option string) (fetch : string -> settled Response)
    (st : State) : State * list string :=
  let st1 := mkState (recipes st) true VNull in
  let '(outcome, requests) := try_load API_KEY fetch in
  let st2 :=
    match outcome with
    | Fulfilled rows => mkState rows (loading st1) (error st1)
    | Rejected e =>
        if err_name e =? "AbortError" then st1
        else mkState (recipes st1) (loading st1)
               (VStr (or_str (err_message e) (String_of e)))
    end in
  (mkState (recipes st2) false (error st2), requests).

(** What the component returns for a state. *)
Inductive screen : Type :=
  | ShowLoading
  | ShowError (msg : value)
  | ShowDashboard (rows : list value).

Definition render (st : State) : screen :=
  if loading st then ShowLoading
  else if truthy (error st) then ShowError (error st)
  else ShowDashboard (recipes st).

End AppLoad.

Module AppRow.

(** A numeric cell of a row:
    [Number.isFinite(+r[field]) ? r[field] : dash]. *)
Definition cell (field : string) (r : value) : result value :=
  v <- get r field ;;
  n <- ToNumber v ;;
  Ok (if isFinite n then v else dash).

(** A child of the tag cell: a tag, the muted dash, or the value a
    short-circuited [&&] leaves in the markup. *)
Inductive child : Type :=
  | Tag (label : string)
  | MutedDash
  | Plain (v : value).

(** [v && <span className="tag">label</span>]. *)
Definition tag_if (v : value) (label : string) : child :=
  if truthy v then Tag label else Plain v.

(** The four children of the tag cell. *)
Definition tags_cell (r : value) : result (list child) :=
  vegetarian <- get r "vegetarian" ;;
  vegan <- get r "vegan" ;;
  glutenFree <- get r "glutenFree" ;;
  Ok [ tag_if vegetarian "Vegetarian";
       tag_if vegan "Vegan";
       tag_if glutenFree "Gluten Free";
       if negb (truthy vegetarian) && negb (truthy vegan)
          && negb (truthy glutenFree)
       then MutedDash else Plain (VBool false) ].

(** The tag a diet selector is shown as. *)
Definition selector_label (diet : string) : option string :=
  if diet =? "vegetarian" then Some "Vegetarian"
  else if diet =? "vegan" then Some "Vegan"
  else if diet =? "glutenFree" then Some "Gluten Free"
  else None.

(** Whether a cell holds the placeholder. *)
Definition is_dash (v : value) : bool := strict_eq_str v "—".

End AppRow.

(** ** [RecipeDetail.jsx]: loading one recipe, and its instruction steps *)

Module DetailLoad.

Record State : Type :=
  mkState { data : value; err : value; loading : bool }.

Definition missing_key_message : string := "Missing API key (VITE_APP_API_KEY)".

(** The request for recipe [id]: the pieces are pasted together as they
    are. *)
Definition detail_url (key id : string) : string :=
  AppLoad.API_BASE ++ "/recipes/" ++ id ++ "/information?apiKey=" ++ key
  ++ "&includeNutrition=true".

(** [catch] and [finally] for an exception [e]. *)
Definition fail (e : thrown) (st : State) : State :=
  mkState (data st)
    (if err_name e =? "AbortError" then err st
     else VStr (or_str (err_message e) (String_of e)))
    false.

(** The effect up to its first [await]: the state it leaves, and the
    request it waits for (none when it ended already). *)
Definition begin (API_KEY : option string) (id : string) (st : State)
    : State * option string :=
  let st1 := mkState (data st) VNull true in
  match API_KEY with
  | None => (fail (mkThrown "Error" missing_key_message) st1, None)
  | Some key =>
      if key =? "" then (fail (mkThrown "Error" missing_key_message) st1, None)
      else (st1, Some (detail_url key id))
  end.

(** The rest of the effect, run when its request has settled.  Nothing is
    written between the two awaits, so the response and its body are
    taken together. *)
Definition settle (r : settled Response) (st : State) : State :=
  match r with
  | Rejected e => fail e st
  | Fulfilled res =>
      if negb (res_ok res) then
        fail (mkThrown "Error" ("HTTP " ++ NumberToString (res_status res))) st
      else
        match res_json res with
        | Rejected e => fail e st
        | Fulfilled json => mkState json (err st) false
        end
  end.

(** One whole run of the effect. *)
Definition load (API_KEY : option string) (id : string)
    (fetch : string -> settled Response) (st : State) : State :=
  match begin API_KEY id st with
  | (st1, Some url) => settle (fetch url) st1
  | (st1, None) => st1
  end.

Inductive screen : Type :=
  | ShowLoading
  | ShowError (msg : value)
  | ShowNothing
  | ShowRecipe (recipe : value).

Definition render (st : State) : screen :=
  if loading st then ShowLoading
  else if truthy (err st) then ShowError (err st)
  else if negb (truthy (data st)) then ShowNothing
  else ShowRecipe (data st).

(** [steps]: the texts of the analyzed instructions. *)
Definition steps (data : value) : result (list value) :=
  let ai :=
    match get_opt data "analyzedInstructions" with
    | VArr items => items
    | _ => []
    end in
  all <- flatMapM (fun b => s <- get b "steps" ;; Ok (or_else s (VArr []))) ai ;;
  texts <- mapM (fun s => get s "step") all ;;
  Ok (filter truthy texts).

End DetailLoad.

(** ** More vocabulary *)

Module Spec2.

Definition nullish (v : value) : bool :=
  match v with
  | VUndef | VNull => true
  | _ => false
  end.

(** A value that [Number] and [String] convert without calling into an
    object: anything but an array or an object. *)
Definition is_primitive (v : value) : bool :=
  match v with
  | VArr _ | VObj _ => false
  | _ => true
  end.

(** A row the filter cannot read: [null] or [undefined], or one whose
    title is neither text nor falsy. *)
Definition breaks_filter (r : value) : bool :=
  nullish r
  || (truthy (get_opt r "title") && negb (is_string (get_opt r "title"))).

(** A row whose two scores convert without calling into an object. *)
Definition has_primitive_scores (r : value) : bool :=
  negb (nullish r)
  && is_primitive (get_opt r "readyInMinutes")
  && is_primitive (get_opt r "healthScore").

(** The names in a list of values that are all text. *)
Fixpoint texts_of (items : list value) : list string :=
  match items with
  | [] => []
  | VStr s :: rest => s :: texts_of rest
  | _ :: rest => texts_of rest
  end.

(** A row whose [cuisines] is a list of names, or is missing. *)
Definition has_named_cuisines (r : value) : bool :=
  match r with
  | VObj props =>
      match lookup "cuisines" props with
      | VArr items => forallb is_string items
      | v => missing v
      end
  | _ => false
  end.

(** The cuisine names of the rows, in order, repetitions included. *)
Definition cuisine_names (rows : list value) : list string :=
  flat_map (fun r => match get_opt r "cuisines" with
                     | VArr items => texts_of items
                     | _ => []
                     end) rows.

(** A nutrition value whose named entries have primitive amounts. *)
Definition has_primitive_amounts (nutrition : value) : bool :=
  forallb (fun x => negb (is_string (get_opt x "name"))
                    || is_primitive (get_opt x "amount"))
          (nutrients_of nutrition).

(** Letters only, at least one: a tag name. *)
Fixpoint all_alpha (s : string) : bool :=
  match s with
  | EmptyString => true
  | String c rest => DOM.is_alpha c && all_alpha rest
  end.

(** Elements the parser treats like any other: not the ones whose content
    it reads as raw text, relocates, keeps apart or trims. *)
Definition generic_tag (name : string) : bool :=
  negb (existsb (String.eqb (toLowerCase name))
          ["script"; "style"; "title"; "textarea"; "xmp"; "iframe";
           "noembed"; "noframes"; "noscript"; "plaintext"; "template";
           "pre"; "listing"; "table"; "caption"; "colgroup"; "col";
           "tbody"; "tfoot"; "thead"; "tr"; "td"; "th"; "select"; "svg";
           "math"]).

(** Text with [&] and [<] written as character references. *)
Fixpoint escape (s : string) : string :=
  match s with
  | EmptyString => EmptyString
  | String c rest =>
      (if (c =? "&")%char then "&amp;"
       else if (c =? "<")%char then "&lt;"
       else String c EmptyString) ++ escape rest
  end.

(** No carriage return in the text. *)
Fixpoint no_cr (s : string) : bool :=
  match s with
  | EmptyString => true
  | String c rest => negb (nat_of_ascii c =? 13)%nat && no_cr rest
  end.

(** An instruction block as the API documents it: an object whose [steps]
    is a list of objects, or is missing. *)
Definition is_step (s : value) : bool :=
  match s with VObj _ => true | _ => false end.

Definition is_block (b : value) : bool :=
  match b with
  | VObj props =>
      match lookup "steps" props with
      | VArr items => forallb is_step items
      | v => missing v
      end
  | _ => false
  end.

(** The step texts of one block, empty ones left out. *)
Definition block_texts (b : value) : list value :=
  match get_opt b "steps" with
  | VArr items => filter truthy (map (fun s => get_opt s "step") items)
  | _ => []
  end.

(** The pieces of [s] between occurrences of the byte [sep]. *)
Fixpoint split_on (sep : ascii) (s : string) : list string :=
  match s with
  | EmptyString => [EmptyString]
  | String c rest =>
      if (c =? sep)%char then EmptyString :: split_on sep rest
      else match split_on sep rest with
           | piece :: pieces => String c piece :: pieces
           | [] => [String c EmptyString]
           end
  end.

(** Only white space: every character of the text is a white space or
    line terminator code point. *)
Definition is_blank (s : string) : bool :=
  forallb (fun x => match x with
                    | Scalar c => is_white_space c
                    | Stray _ => false
                    end) (decode s).

(** How a text that is only white space begins. *)
Inductive blank_start : string -> string -> Prop :=
  | blank_one (b1 : ascii) (rest : string) :
      ws1 b1 = true -> blank_start (String b1 rest) rest
  | blank_two (b1 b2 : ascii) (rest : string) :
      ws1 b1 = false -> ws2 b1 b2 = true ->
      is_cont b1 = false -> is_cont b2 = true ->
      blank_start (String b1 (String b2 rest)) rest
  | blank_three (b1 b2 b3 : ascii) (rest : string) :
      ws1 b1 = false -> ws2 b1 b2 = false -> ws3 b1 b2 b3 = true ->
      is_cont b1 = false -> is_cont b2 = true -> is_cont b3 = true ->
      blank_start (String b1 (String b2 (String b3 rest))) rest.

(** The byte [c] does not occur in [s]. *)
Fixpoint lacks (c : ascii) (s : string) : bool :=
  match s with
  | EmptyString => true
  | String d rest => negb (d =? c)%char && lacks c rest
  end.

(** Every byte is one the form serializer leaves as it is. *)
Fixpoint all_form_safe (s : string) : bool :=
  match s with
  | EmptyString => true
  | String c rest => is_form_safe c && all_form_safe rest
  end.

(** Text the parser keeps as it is: no markup, no carriage return and no
    NUL character. *)
Definition plain_text (s : string) : bool :=
  DOM.is_plain s && lacks (ascii_of_nat 0) s.

(** Text the parser's input stage leaves alone. *)
Definition kept_text (s : string) : bool :=
  no_cr s && lacks (ascii_of_nat 0) s.

(** *** Markup, piece by piece

    The markup a recipe summary is written in: text, the references
    [&amp;], [&lt;], [&gt;], [&quot;] and [&apos;], start tags with any
    number of attributes, end tags and comments. *)

Inductive attr_value : Type :=
  | NoValue
  | DoubleQuoted (v : string)
  | SingleQuoted (v : string)
  | Unquoted (v : string).

Inductive reference : Type := RAmp | RLt | RGt | RQuot | RApos.

Inductive piece : Type :=
  | PText (s : string)
  | PRef (r : reference)
  | PStart (name : string) (attrs : list (string * attr_value))
      (self_closing : bool)
  | PEnd (name : string)
  | PComment (body : string).

(** How the pieces are written. *)
Definition render_reference (r : reference) : string :=
  match r with
  | RAmp => "&amp;"
  | RLt => "&lt;"
  | RGt => "&gt;"
  | RQuot => "&quot;"
  | RApos => "&apos;"
  end.

Definition render_value (v : attr_value) : string :=
  match v with
  | NoValue => ""
  | DoubleQuoted v => "=" ++ String DOM.dquote (v ++ String DOM.dquote "")
  | SingleQuoted v => "='" ++ v ++ "'"
  | Unquoted v => "=" ++ v
  end.

Definition render_attrs (attrs : list (string * attr_value)) : string :=
  fold_right (fun a rest => " " ++ fst a ++ render_value (snd a) ++ rest)
    "" attrs.

Definition render_piece (p : piece) : string :=
  match p with
  | PText s => s
  | PRef r => render_reference r
  | PStart name attrs self_closing =>
      "<" ++ name ++ render_attrs attrs
      ++ (if self_closing then " /" else "") ++ ">"
  | PEnd name => "</" ++ name ++ ">"
  | PComment body => "<!--" ++ body ++ "-->"
  end.

Definition render (pieces : list piece) : string :=
  fold_right (fun p rest => render_piece p ++ rest) "" pieces.
















End Spec2.

Import Spec2.

(** ** More sample data *)

Module Sample2.

Local Open Scope float_scope.

(** A row that is vegan by its tags only. *)
Definition tagged_vegan : value :=
  VObj [("title", VStr "Lentil Soup"); ("diets", VArr [VStr "vegan"])].

(** Entries that are there, with an amount that is not a number: [null],
    [false], empty text and white space. *)
Definition null_protein : value :=
  VObj [("name", VStr "Protein"); ("amount", VNull); ("unit", VStr "g")].

Definition coerced_amounts : list value :=
  [null_protein;
   VObj [("name", VStr "Fat"); ("amount", VBool false)];
   VObj [("name", VStr "Carbohydrates"); ("amount", VStr "")];
   VObj [("name", VStr "Fiber"); ("amount", VStr "  ")]].

(** Rows whose titles carry accented capitals. *)
Definition creme_brulee : value :=
  VObj [("title", VStr "CRÈME BRÛLÉE"); ("vegetarian", VBool true)].

Definition eclairs : value :=
  VObj [("title", VStr "Éclairs au chocolat")].

Definition desserts : list value := [creme_brulee; Sample.tacos; eclairs].

(** A no-break space (U+00A0) and an ideographic space (U+3000). *)
Definition nbsp : string := encode_scalar 160.

Definition ideographic_space : string := encode_scalar 12288.

Definition ok_response (json : value) : Response :=
  mkResponse true 200 (Fulfilled json).

Definition aborted : thrown :=
  mkThrown "AbortError" "The user aborted a request.".


Definition instructions : value :=
  VObj [("analyzedInstructions",
         VArr [VObj [("steps", VArr [VObj [("step", VStr "Chop.")];
                                     VObj [("step", VStr "")]])];
               VObj [("name", VStr "Sauce")];
               VObj [("steps", VArr [VObj [("step", VStr "Simmer.")]])]])].

End Sample2.

(** * Properties *)

(** ** Doubles: the sign of a difference

    The comparator [(a, b) => a - b] orders finite doubles as [<] does:
    the difference of two finite doubles is positive exactly when the
    first is the larger.  The proof goes through the bit-level
    description of subtraction. *)

Module FloatFacts.

Local Open Scope Z_scope.

(** Settles [(0 <? M) = b] once the sign of [M] follows from the context. *)
Ltac decide_sign :=
  match goal with
  | |- (0 <? ?M) = _ => destruct (Z.ltb_spec 0 M)
  end; try reflexivity; lia.

Lemma digits2_size (m : positive) : digits2_pos m = Pos.size m.
Proof. induction m; simpl; congruence. Qed.

Lemma digits2_bounds (m : positive) :
  2 ^ (Zpos (digits2_pos m) - 1) <= Zpos m < 2 ^ Zpos (digits2_pos m).
Proof.
  rewrite digits2_size. split.
  - pose proof (Pos.size_le m) as H.
    assert (H' : 2 ^ Zpos (Pos.size m) <= 2 * Zpos m).
    { rewrite <- Pos2Z.inj_pow. change (2 * Zpos m) with (Zpos m~0). now apply Pos2Z.pos_le_pos. }
    replace (Zpos (Pos.size m)) with (Z.succ (Zpos (Pos.size m) - 1)) in H' by lia.
    rewrite Z.pow_succ_r in H' by lia. lia.
  - pose proof (Pos.size_gt m) as H. rewrite <- Pos2Z.inj_pow. now apply Pos2Z.pos_lt_pos.
Qed.

Lemma shr_1_div2 (mrs : shr_record) :
  0 <= shr_m mrs -> shr_m (shr_1 mrs) = Z.div2 (shr_m mrs).
Proof.
  destruct mrs as [m r s]. simpl. intros H.
  destruct m as [|[p|p|]|p]; try reflexivity; lia.
Qed.

Lemma pow2_xO (p : positive) : 2 ^ Zpos p~0 = 2 ^ Zpos p * 2 ^ Zpos p.
Proof.
  assert (E : Zpos p~0 = Zpos p + Zpos p) by lia.
  rewrite E. apply Z.pow_add_r; lia.
Qed.

Lemma pow2_xI (p : positive) : 2 ^ Zpos p~1 = 2 * (2 ^ Zpos p * 2 ^ Zpos p).
Proof.
  assert (E : Zpos p~1 = Z.succ (Zpos p + Zpos p)) by lia.
  rewrite E, Z.pow_succ_r, Z.pow_add_r by lia. reflexivity.
Qed.

Lemma iter_shr_1 (p : positive) (mrs : shr_record) :
  0 <= shr_m mrs ->
  shr_m (iter_pos shr_1 p mrs) = shr_m mrs / 2 ^ Zpos p.
Proof.
  revert mrs. induction p as [p IH|p IH|]; intros mrs H; simpl iter_pos.
  - assert (H1 : 0 <= shr_m (shr_1 mrs)).
    { rewrite shr_1_div2 by assumption. now apply Z.div2_nonneg. }
    assert (H2 : 0 <= shr_m (iter_pos shr_1 p (shr_1 mrs))).
    { rewrite IH by assumption. apply Z.div_pos; lia. }
    rewrite (IH _ H2), (IH _ H1), shr_1_div2 by assumption.
    rewrite Z.div2_div, !Z.div_div by lia.
    f_equal. rewrite pow2_xI. lia.
  - assert (H2 : 0 <= shr_m (iter_pos shr_1 p mrs)).
    { rewrite IH by assumption. apply Z.div_pos; lia. }
    rewrite (IH _ H2), (IH _ H).
    rewrite !Z.div_div by lia. f_equal.
    rewrite pow2_xO. lia.
  - rewrite shr_1_div2 by assumption. now rewrite Z.div2_div.
Qed.


Lemma fexp_ge_emin (e : Z) : -1074 <= fexp prec emax e.
Proof. unfold fexp, SpecFloat.emin, prec, emax. lia. Qed.

(** Shifting a positive mantissa to its canonical exponent leaves it positive. *)
Lemma shr_fexp_pos (m : positive) (e : Z) (l : location) :
  -1074 <= e ->
  exists m' r s e',
    shr_fexp prec emax (Zpos m) e l = (Build_shr_record (Zpos m') r s, e')
    /\ -1074 <= e'.
Proof.
  intros He. unfold shr_fexp, shr.
  set (n := fexp prec emax (Zdigits2 (Zpos m) + e) - e).
  assert (Hn : n < Zpos (digits2_pos m)).
  { subst n. unfold fexp, SpecFloat.emin, prec, emax. simpl Zdigits2. lia. }
  destruct n as [|p|p] eqn:En.
  - destruct l as [|[| |]]; simpl; do 4 eexists; split; try reflexivity; lia.
  - cbn [Z.add]. pose proof (iter_shr_1 p (shr_record_of_loc (Zpos m) l)) as H.
    assert (Hm : shr_m (shr_record_of_loc (Zpos m) l) = Zpos m).
    { destruct l as [|[| |]]; reflexivity. }
    rewrite Hm in H. specialize (H ltac:(lia)).
    destruct (iter_pos shr_1 p (shr_record_of_loc (Zpos m) l)) as [m' r s].
    cbn [shr_m] in H.
    assert (0 < m').
    { rewrite H. apply Z.div_str_pos. split; [lia|].
      pose proof (digits2_bounds m) as [Hb _].
      eapply Z.le_trans; [|exact Hb]. apply Z.pow_le_mono_r; lia. }
    destruct m' as [|m'|m']; try lia.
    do 4 eexists. split; [reflexivity|]. lia.
  - destruct l as [|[| |]]; simpl; do 4 eexists; split; try reflexivity; lia.
Qed.

Lemma round_nearest_even_pos (m : positive) (l : location) :
  exists m1, round_nearest_even (Zpos m) l = Zpos m1.
Proof.
  destruct l as [|[| |]]; cbn [round_nearest_even].
  - now eexists.
  - destruct (Z.even (Zpos m)); [now eexists|].
    exists (m + 1)%positive. reflexivity.
  - now eexists.
  - exists (m + 1)%positive. reflexivity.
Qed.

Lemma binary_round_aux_pos (sx : bool) (m : positive) (e : Z) (l : location) :
  -1074 <= e -> signed_nonzero sx (binary_round_aux prec emax sx (Zpos m) e l).
Proof.
  intros He. unfold binary_round_aux.
  destruct (shr_fexp_pos m e l He) as [m' [r [s [e' [-> He']]]]].
  cbn [shr_m].
  destruct (round_nearest_even_pos m' (loc_of_shr_record (Build_shr_record (Zpos m') r s)))
    as [m1 ->].
  destruct (shr_fexp_pos m1 e' loc_Exact He') as [m2 [r2 [s2 [e2 [-> _]]]]].
  cbn [shr_m]. destruct (Z.leb e2 (emax - prec)); reflexivity.
Qed.

Lemma binary_round_pos (sx : bool) (m : positive) (e : Z) :
  -1074 <= e -> signed_nonzero sx (binary_round prec emax sx m e).
Proof.
  intros He. unfold binary_round, shl_align.
  pose proof (fexp_ge_emin (Zpos (digits2_pos m) + e)) as Hf.
  destruct (fexp prec emax (Zpos (digits2_pos m) + e) - e) eqn:Hd;
    apply binary_round_aux_pos; lia.
Qed.

(** The sign of a sum or difference computed at an exponent that is not
    below the smallest one survives rounding. *)
Lemma binary_normalize_sign (M e : Z) :
  -1074 <= e ->
  SFltb (S754_zero false) (binary_normalize prec emax M e false) = (0 <? M).
Proof.
  intros He. destruct M as [|m|m]; simpl binary_normalize.
  - reflexivity.
  - pose proof (binary_round_pos false m e He) as H.
    destruct (binary_round prec emax false m e) as [s|s| |s m' e']; simpl in H;
      try contradiction; subst; reflexivity.
  - pose proof (binary_round_pos true m e He) as H.
    destruct (binary_round prec emax true m e) as [s|s| |s m' e']; simpl in H;
      try contradiction; subst; reflexivity.
Qed.

Lemma iter_xO_pow (m d : positive) : Zpos (Pos.iter xO m d) = Zpos m * 2 ^ Zpos d.
Proof.
  induction d as [|d IH] using Pos.peano_ind.
  - simpl. lia.
  - rewrite Pos.iter_succ, Pos2Z.inj_xO, IH, Pos2Z.inj_succ, Z.pow_succ_r by lia.
    lia.
Qed.

Lemma shl_align_value (m : positive) (e ez : Z) :
  ez <= e -> Zpos (fst (shl_align m e ez)) = Zpos m * 2 ^ (e - ez).
Proof.
  intros H. unfold shl_align.
  destruct (ez - e) as [|d|d] eqn:Hd; try lia.
  - replace (e - ez) with 0 by lia. simpl. lia.
  - simpl fst. rewrite iter_xO_pow. f_equal. f_equal. lia.
Qed.

Lemma bounded_facts (m : positive) (e : Z) :
  bounded prec emax m e = true ->
  -1074 <= e /\ Zpos (digits2_pos m) <= 53
  /\ (-1074 < e -> Zpos (digits2_pos m) = 53).
Proof.
  unfold bounded, canonical_mantissa, fexp, SpecFloat.emin, prec, emax.
  intros H. apply andb_prop in H as [H _]. apply Z.eqb_eq in H. lia.
Qed.

Lemma scaled_lt (mx my : positive) (ex ey : Z) :
  bounded prec emax mx ex = true -> bounded prec emax my ey = true ->
  ex < ey -> Zpos mx < Zpos my * 2 ^ (ey - ex).
Proof.
  intros Hx Hy Hlt.
  destruct (bounded_facts _ _ Hx) as [Hex [Hdx _]].
  destruct (bounded_facts _ _ Hy) as [_ [_ Hdy]].
  specialize (Hdy ltac:(lia)).
  pose proof (digits2_bounds mx) as [_ Hmx].
  pose proof (digits2_bounds my) as [Hmy _]. rewrite Hdy in Hmy.
  assert (Zpos mx < 2 ^ 53).
  { eapply Z.lt_le_trans; [exact Hmx|]. apply Z.pow_le_mono_r; lia. }
  assert (2 ^ 1 <= 2 ^ (ey - ex)) by (apply Z.pow_le_mono_r; lia).
  change (2 ^ (53 - 1)) with 4503599627370496 in Hmy.
  change (2 ^ 53) with 9007199254740992 in H.
  change (2 ^ 1) with 2 in H0. nia.
Qed.

Lemma SFsub_sign (X Y : spec_float) :
  valid_binary X = true -> valid_binary Y = true ->
  finite_or_zero X = true -> finite_or_zero Y = true ->
  SFltb (S754_zero false) (SFsub prec emax X Y) = SFltb Y X.
Proof.
  intros HX HY FX FY.
  destruct X as [sx|sx| |sx mx ex]; try discriminate;
    destruct Y as [sy|sy| |sy my ey]; try discriminate.
  - destruct sx, sy; reflexivity.
  - destruct sx, sy; reflexivity.
  - destruct sx, sy; reflexivity.
  - simpl in HX, HY. cbn [SFsub].
    destruct (bounded_facts _ _ HX) as [Hex _].
    destruct (bounded_facts _ _ HY) as [Hey _].
    rewrite binary_normalize_sign by lia.
    rewrite !shl_align_value by lia.
    unfold SFltb, SFcompare.
    destruct (Z.compare_spec ey ex) as [Heq|Hlt|Hgt].
    + subst ey. rewrite Z.min_id, Z.sub_diag. change (2 ^ 0) with 1.
      rewrite !Z.mul_1_r.
      destruct sx, sy; cbn [cond_Zopp CompOpp];
        rewrite ?Pos.compare_cont_spec; cbn [Pos.switch_Eq];
        destruct (Pos.compare_spec my mx); cbn [CompOpp]; decide_sign.
    + pose proof (scaled_lt _ _ _ _ HY HX Hlt) as H.
      rewrite Z.min_r by lia. rewrite Z.sub_diag. change (2 ^ 0) with 1.
      rewrite Z.mul_1_r.
      destruct sx, sy; cbn [cond_Zopp]; decide_sign.
    + pose proof (scaled_lt _ _ _ _ HX HY ltac:(lia)) as H.
      rewrite Z.min_l by lia. rewrite Z.sub_diag. change (2 ^ 0) with 1.
      rewrite Z.mul_1_r.
      destruct sx, sy; cbn [cond_Zopp]; decide_sign.
Qed.

Lemma finite_Prim2SF (x : float) :
  PrimFloat.is_finite x = true -> finite_or_zero (Prim2SF x) = true.
Proof.
  unfold PrimFloat.is_finite, PrimFloat.is_nan, PrimFloat.is_infinity.
  rewrite !eqb_spec, abs_spec.
  change (Prim2SF infinity) with (S754_infinity false).
  destruct (Prim2SF x) as [s|s| |s m e]; try reflexivity.
  - destruct s; discriminate.
  - discriminate.
Qed.

Lemma sub_positive (x y : float) :
  PrimFloat.is_finite x = true -> PrimFloat.is_finite y = true ->
  (0 <? x - y)%float = (y <? x)%float.
Proof.
  intros Hx Hy. rewrite !ltb_spec, sub_spec.
  change (Prim2SF 0%float) with (S754_zero false).
  apply SFsub_sign; auto using Prim2SF_valid, finite_Prim2SF.
Qed.

Lemma SFcompare_antisym (X Y : spec_float) :
  finite_or_zero X = true -> finite_or_zero Y = true ->
  exists c, SFcompare X Y = Some c /\ SFcompare Y X = Some (CompOpp c).
Proof.
  intros FX FY.
  destruct X as [sx|sx| |sx mx ex]; try discriminate;
    destruct Y as [sy|sy| |sy my ey]; try discriminate; cbn [SFcompare].
  - now exists Eq.
  - destruct sy; eexists; split; reflexivity.
  - destruct sx; eexists; split; reflexivity.
  - rewrite (Z.compare_antisym ex ey).
    destruct sx, sy; try (eexists; split; reflexivity);
      destruct (ex ?= ey); cbn [CompOpp]; try (eexists; split; reflexivity);
      rewrite !Pos.compare_cont_spec; cbn [Pos.switch_Eq];
      rewrite (Pos.compare_antisym mx my);
      destruct (mx ?= my)%positive; eexists; split; reflexivity.
Qed.

Lemma not_ltb_leb (x y : float) :
  PrimFloat.is_finite x = true -> PrimFloat.is_finite y = true ->
  (y <? x)%float = false -> (x <=? y)%float = true.
Proof.
  intros Hx Hy. rewrite ltb_spec, leb_spec. unfold SFltb, SFleb.
  destruct (SFcompare_antisym _ _ (finite_Prim2SF _ Hx) (finite_Prim2SF _ Hy))
    as [c [-> ->]].
  destruct c; simpl; congruence.
Qed.

Lemma ltb_leb (x y : float) : (y <? x)%float = true -> (y <=? x)%float = true.
Proof.
  rewrite ltb_spec, leb_spec. unfold SFltb, SFleb.
  destruct (SFcompare (Prim2SF y) (Prim2SF x)) as [[| |]|]; congruence.
Qed.

End FloatFacts.

(** ** Strings: appending, reversing and trimming *)

Lemma str_app_nil_r (s : string) : s ++ "" = s.
Proof. induction s as [|c s IH]; simpl; [reflexivity | now rewrite IH]. Qed.

Lemma str_app_assoc (a b c : string) : (a ++ b) ++ c = a ++ (b ++ c).
Proof. induction a as [|x a IH]; simpl; [reflexivity | now rewrite IH]. Qed.

Ltac bools :=
  repeat match goal with
    | H : (_ && _)%bool = true |- _ =>
        let H' := fresh H in apply andb_prop in H as [H H']
    | H : (_ <=? _)%Z = true |- _ => apply Z.leb_le in H
    | H : (_ <=? _)%Z = false |- _ => apply Z.leb_gt in H
    | H : (_ <? _)%Z = true |- _ => apply Z.ltb_lt in H
    | H : (_ <? _)%Z = false |- _ => apply Z.ltb_ge in H
    end.

Lemma cont_bounds (b : ascii) :
  is_cont b = true -> (128 <= byte b <= 191)%Z.
Proof. unfold is_cont. intros H. bools. lia. Qed.

Lemma cont_not_ws1 (b : ascii) : is_cont b = true -> ws1 b = false.
Proof.
  intros H. apply cont_bounds in H. unfold ws1.
  destruct (Z.ltb_spec (byte b) 128); [lia | reflexivity].
Qed.

Lemma cont_not_lead2 (b x : ascii) : is_cont b = true -> ws2 b x = false.
Proof.
  intros H. apply cont_bounds in H. unfold ws2, valid2.
  destruct (Z.leb_spec 194 (byte b)); [lia | reflexivity].
Qed.

Lemma cont_not_lead3 (b x y : ascii) : is_cont b = true -> ws3 b x y = false.
Proof.
  intros H. apply cont_bounds in H. unfold ws3, valid3.
  destruct (Z.leb_spec 224 (byte b)); [lia | reflexivity].
Qed.

Lemma not_cont_ws2 (b x : ascii) : is_cont x = false -> ws2 b x = false.
Proof.
  intros H. unfold ws2, valid2. rewrite H. now rewrite andb_false_r.
Qed.

Lemma not_cont_ws3 (b x y : ascii) : is_cont x = false -> ws3 b x y = false.
Proof.
  intros H. unfold ws3, valid3. rewrite H.
  now rewrite !andb_false_r.
Qed.

Lemma not_cont_ws3_last (b x y : ascii) :
  is_cont y = false -> ws3 b x y = false.
Proof.
  intros H. unfold ws3, valid3. rewrite H.
  now rewrite !andb_false_r.
Qed.

Lemma valid2_facts (b1 b2 : ascii) :
  valid2 b1 b2 = true ->
  ws1 b1 = false /\ is_cont b1 = false /\ is_cont b2 = true.
Proof.
  unfold valid2, ws1, is_cont. intros H. bools. repeat split.
  - destruct (Z.ltb_spec (byte b1) 128); [lia | reflexivity].
  - destruct (Z.leb_spec (byte b1) 191); [lia | apply andb_false_r].
  - apply andb_true_iff. split; [apply Z.leb_le | apply Z.leb_le]; lia.
Qed.

Lemma valid3_facts (b1 b2 b3 : ascii) :
  valid3 b1 b2 b3 = true ->
  ws1 b1 = false /\ is_cont b1 = false /\ valid2 b1 b2 = false
  /\ is_cont b2 = true /\ is_cont b3 = true.
Proof.
  unfold valid3, valid2, ws1. intros H. bools.
  assert (Hc : is_cont b1 = false).
  { unfold is_cont. destruct (Z.leb_spec (byte b1) 191);
      [lia | apply andb_false_r]. }
  repeat split; try assumption.
  - destruct (Z.ltb_spec (byte b1) 128); [lia | reflexivity].
  - destruct (Z.leb_spec (byte b1) 223); [lia|]. now rewrite andb_false_r.
Qed.

Lemma white_space_bound (c : Z) : is_white_space c = true -> (c <= 65279)%Z.
Proof.
  unfold is_white_space. intros H.
  repeat (apply orb_prop in H as [H|H]); bools;
    try (apply Z.eqb_eq in H); lia.
Qed.

Lemma valid4_not_white_space (b1 b2 b3 b4 : ascii) :
  valid4 b1 b2 b3 b4 = true -> is_white_space (scalar4 b1 b2 b3 b4) = false.
Proof.
  unfold valid4. intros H. bools.
  destruct (is_white_space (scalar4 b1 b2 b3 b4)) eqn:Hw; [|reflexivity].
  apply white_space_bound in Hw. lia.
Qed.

Lemma is_blank_start (pad : string) :
  is_blank pad = true -> pad <> "" ->
  exists rest, blank_start pad rest /\ is_blank rest = true.
Proof.
  unfold is_blank. intros H Hne.
  destruct pad as [|b1 r1]; [congruence|]. clear Hne. cbn [decode] in H.
  destruct (byte b1 <? 128)%Z eqn:H1.
  { cbn [forallb] in H. apply andb_prop in H as [Hw Hr].
    exists r1. split; [|exact Hr]. constructor. unfold ws1. now rewrite H1. }
  destruct r1 as [|b2 r2]; [discriminate|].
  destruct (valid2 b1 b2) eqn:H2.
  { cbn [forallb] in H. apply andb_prop in H as [Hw Hr].
    destruct (valid2_facts _ _ H2) as [Ha [Hb Hc]].
    exists r2. split; [|exact Hr]. constructor; try assumption.
    unfold ws2. now rewrite H2. }
  destruct r2 as [|b3 r3]; [discriminate|].
  destruct (valid3 b1 b2 b3) eqn:H3.
  { cbn [forallb] in H. apply andb_prop in H as [Hw Hr].
    destruct (valid3_facts _ _ _ H3) as [Ha [Hb [Hc [Hd He]]]].
    exists r3. split; [|exact Hr]. constructor; try assumption.
    - unfold ws2. now rewrite H2.
    - unfold ws3. now rewrite H3. }
  destruct r3 as [|b4 r4]; [discriminate|].
  destruct (valid4 b1 b2 b3 b4) eqn:H4; [|discriminate].
  cbn [forallb] in H. apply andb_prop in H as [Hw _].
  now rewrite (valid4_not_white_space _ _ _ _ H4) in Hw.
Qed.

Lemma blank_start_shorter (pad rest : string) :
  blank_start pad rest -> (String.length rest < String.length pad)%nat.
Proof. destruct 1; simpl; lia. Qed.

(** Induction on a text that is only white space, one character at a
    time. *)
Lemma blank_ind (P : string -> Prop) :
  P "" ->
  (forall pad rest, blank_start pad rest -> is_blank rest = true ->
                    P rest -> P pad) ->
  forall pad, is_blank pad = true -> P pad.
Proof.
  intros Hnil Hstep pad.
  remember (String.length pad) as n eqn:Hn. revert pad Hn.
  induction n as [n IH] using lt_wf_ind. intros pad Hn Hb.
  destruct (String.eqb_spec pad "") as [->|Hne]; [exact Hnil|].
  destruct (is_blank_start pad Hb Hne) as [rest [Hs Hr]].
  apply (Hstep pad rest Hs Hr).
  apply (IH (String.length rest)); [|reflexivity | exact Hr].
  subst n. now apply blank_start_shorter.
Qed.

Lemma blank_head_not_cont (b : ascii) (rest : string) :
  is_blank (String b rest) = true -> is_cont b = false.
Proof.
  intros H. destruct (is_blank_start _ H) as [r [Hs _]]; [discriminate|].
  inversion Hs; subst; try assumption.
  destruct (is_cont b) eqn:Hc; [|reflexivity].
  now rewrite (cont_not_ws1 _ Hc) in *.
Qed.

Lemma trimStart_blank_app (pad s : string) :
  is_blank pad = true -> trimStart (pad ++ s) = trimStart s.
Proof.
  intros H. revert pad H. apply (blank_ind (fun pad => trimStart (pad ++ s) = trimStart s)).
  - reflexivity.
  - intros pad rest Hs _ IH. destruct Hs as [b1 r H1|b1 b2 r H1 H2 _ _|b1 b2 b3 r H1 H2 H3 _ _ _];
      cbn [append trimStart]; rewrite ?H1, ?H2, ?H3; exact IH.
Qed.

Lemma trimStart_blank (pad : string) : is_blank pad = true -> trimStart pad = "".
Proof.
  intros H. rewrite <- (str_app_nil_r pad). now rewrite trimStart_blank_app.
Qed.

Lemma reverse_onto_app (s acc : string) :
  reverse_onto s acc = reverse s ++ acc.
Proof.
  unfold reverse. revert acc. induction s as [|b s IH]; intros acc.
  - reflexivity.
  - cbn [reverse_onto]. rewrite (IH (String b acc)), (IH (String b "")).
    now rewrite str_app_assoc.
Qed.

Lemma reverse_cons (b : ascii) (s : string) :
  reverse (String b s) = reverse s ++ String b "".
Proof. unfold reverse at 1. cbn [reverse_onto]. apply reverse_onto_app. Qed.

Lemma reverse_app (a b : string) : reverse (a ++ b) = reverse b ++ reverse a.
Proof.
  induction a as [|c a IH].
  - cbn [append]. change (reverse "") with "". now rewrite str_app_nil_r.
  - cbn [append]. rewrite !reverse_cons, IH. now rewrite str_app_assoc.
Qed.

Lemma trimStart_reversed_blank (pad : string) :
  is_blank pad = true ->
  forall y, trimStart_reversed (reverse pad ++ y) = trimStart_reversed y.
Proof.
  revert pad.
  apply (blank_ind (fun pad => forall y,
           trimStart_reversed (reverse pad ++ y) = trimStart_reversed y)).
  - reflexivity.
  - intros pad rest Hs _ IH y.
    destruct Hs as [b1 r H1|b1 b2 r H1 H2 _ Hc2
                   |b1 b2 b3 r H1 H2 H3 _ Hc2 Hc3];
      rewrite !reverse_cons, !str_app_assoc, IH;
      cbn [append trimStart_reversed].
    + now rewrite H1.
    + now rewrite (cont_not_ws1 _ Hc2), H2.
    + now rewrite (cont_not_ws1 _ Hc3), (cont_not_lead2 _ b3 Hc2), H3.
Qed.

Lemma trimEnd_app_blank (s pad : string) :
  is_blank pad = true -> trimEnd (s ++ pad) = trimEnd s.
Proof.
  intros H. unfold trimEnd.
  now rewrite reverse_app, trimStart_reversed_blank.
Qed.

Lemma trim_app_blank (s pad : string) :
  is_blank pad = true -> trim (s ++ pad) = trim s.
Proof.
  intros H. unfold trim.
  remember (String.length s) as n eqn:Hn. revert s Hn.
  induction n as [n IH] using lt_wf_ind. intros s Hn.
  assert (Hkeep : forall t, trimEnd (t ++ pad) = trimEnd t)
    by (intros t; now apply trimEnd_app_blank).
  assert (Hpad : forall b r, pad = String b r -> is_cont b = false).
  { intros b r ->. now apply (blank_head_not_cont b r). }
  destruct s as [|b1 r1].
  { cbn [append trimStart]. now rewrite trimStart_blank. }
  cbn [append trimStart]. destruct (ws1 b1) eqn:H1.
  { apply (IH (String.length r1)); [subst n; simpl; lia | reflexivity]. }
  destruct r1 as [|b2 r2].
  { cbn [append]. destruct pad as [|a1 a']; [reflexivity|].
    rewrite (not_cont_ws2 b1 a1 (Hpad _ _ eq_refl)).
    destruct a' as [|a2 a''].
    - apply (Hkeep (String b1 "")).
    - rewrite (not_cont_ws3 b1 a1 a2 (Hpad _ _ eq_refl)).
      apply (Hkeep (String b1 "")). }
  cbn [append]. destruct (ws2 b1 b2) eqn:H2.
  { apply (IH (String.length r2)); [subst n; simpl; lia | reflexivity]. }
  destruct r2 as [|b3 r3].
  { cbn [append]. destruct pad as [|a1 a'].
    - reflexivity.
    - rewrite (not_cont_ws3_last b1 b2 a1 (Hpad _ _ eq_refl)).
      apply (Hkeep (String b1 (String b2 ""))). }
  cbn [append]. destruct (ws3 b1 b2 b3) eqn:H3.
  { apply (IH (String.length r3)); [subst n; simpl; lia | reflexivity]. }
  apply (Hkeep (String b1 (String b2 (String b3 r3)))).
Qed.

Lemma trim_padded (before s after : string) :
  is_blank before = true -> is_blank after = true ->
  trim (before ++ s ++ after) = trim s.
Proof.
  intros Hb Ha. unfold trim at 1. rewrite trimStart_blank_app by assumption.
  now apply trim_app_blank.
Qed.

(** ** Runtime lemmas *)

Lemma filterM_pure {A} (f : A -> result bool) (p : A -> bool) (l : list A) :
  Forall (fun x => f x = Ok (p x)) l ->
  filterM f l = Ok (filter p l).
Proof.
  induction 1 as [|x l Hx _ IH]; simpl.
  - reflexivity.
  - rewrite Hx, IH. simpl. reflexivity.
Qed.

Lemma filter_Subsequence {A} (p : A -> bool) (l : list A) :
  Subsequence (filter p l) l.
Proof.
  induction l as [|x l IH]; simpl.
  - constructor.
  - destruct (p x); now constructor.
Qed.

Lemma same_value_zero_str (v : value) (label : string) :
  same_value_zero v (VStr label) = strict_eq_str v label.
Proof. destruct v; reflexivity. Qed.

(** ** The filter *)

Lemma or_else_title (t : value) :
  missing t || is_string t = true ->
  call_toLowerCase (or_else t (VStr "")) =
  Ok (toLowerCase (match t with VStr s => s | _ => "" end)).
Proof.
  destruct t as [| |b|n|s|l|o]; simpl; try discriminate; try reflexivity.
  intros _. unfold or_else; simpl.
  destruct (String.eqb_spec s ""); simpl; subst; reflexivity.
Qed.

Lemma diet_flag_typed (props : list (string * value)) (field label : string) :
  missing (lookup "diets" props) || is_array (lookup "diets" props) = true ->
  missing (lookup field props) || is_boolean (lookup field props) = true ->
  diet_flag (VObj props) field label =
  Ok (flag_is_true (VObj props) field || has_tag (VObj props) label).
Proof.
  intros Hd Hf. unfold diet_flag, flag_is_true, has_tag; simpl.
  destruct (lookup field props) as [| |[|]|n|s|l|o]; simpl in *;
    try discriminate; try reflexivity;
    destruct (lookup "diets" props) as [| |b|n|s|l|o]; simpl in *;
    try discriminate; try reflexivity;
    f_equal; apply existsb_ext; intros; apply same_value_zero_str.
Qed.

Lemma keep_typed (query diet : string) (r : value) :
  is_recipe_summary r = true ->
  keep (normal_query query) diet r =
  Ok (text_predicate query r && diet_predicate diet r).
Proof.
  destruct r as [| |b|n|s|l|props]; simpl; try discriminate.
  intros H.
  apply andb_prop in H as [H Hflags]. apply andb_prop in H as [Ht Hd].
  simpl in Hflags.
  apply andb_prop in Hflags as [Hv Hflags].
  apply andb_prop in Hflags as [Hvn Hflags].
  apply andb_prop in Hflags as [Hg _].
  unfold keep. simpl get. cbn [bind].
  rewrite (or_else_title _ Ht). cbn [bind].
  unfold text_predicate, title_of, diet_predicate. simpl get_opt.
  destruct (String.eqb_spec diet "all") as [->|Hall].
  - simpl. now rewrite andb_true_r.
  - rewrite !diet_flag_typed by assumption. cbn [bind orb].
    unfold selector_signals.
    destruct (String.eqb_spec diet "vegetarian") as [->|_];
      [simpl; now rewrite ?orb_false_r|].
    destruct (String.eqb_spec diet "vegan") as [->|_];
      [simpl; now rewrite ?orb_false_r|].
    destruct (String.eqb_spec diet "glutenFree") as [->|_]; reflexivity.
Qed.

Lemma prefix_app (q s : string) :
  String.prefix q s = true <-> exists after, s = q ++ after.
Proof.
  revert s. induction q as [|c q IH]; intros s.
  - split; [intros _; now exists s | intros _; destruct s; reflexivity].
  - destruct s as [|d s]; simpl.
    + split; [discriminate | intros [after H]; discriminate].
    + destruct (Ascii.ascii_dec c d) as [->|Hcd].
      * rewrite IH. split; intros [after H]; exists after.
        -- now rewrite H.
        -- now injection H.
      * split; [discriminate|]. intros [after H]. injection H as H1 _.
        now elim Hcd.
Qed.

Lemma str_includes_app (s q : string) :
  str_includes s q = true <-> exists before after, s = before ++ q ++ after.
Proof.
  induction s as [|c s IH]; cbn [str_includes].
  - rewrite orb_false_r, prefix_app. split.
    + intros [after H]. now exists "", after.
    + intros [[|d before] [after H]]; [now exists after | discriminate].
  - rewrite orb_true_iff, prefix_app, IH. split.
    + intros [[after H] | [before [after H]]].
      * now exists "", after.
      * exists (String c before), after. simpl. now rewrite H.
    + intros [[|d before] [after H]].
      * left. now exists after.
      * right. injection H as _ H. now exists before, after.
Qed.

Lemma text_predicate_ok (query : string) (r : value) :
  text_predicate query r = true <-> text_ok query r.
Proof.
  unfold text_predicate, text_ok.
  rewrite orb_true_iff, String.eqb_eq, str_includes_app. reflexivity.
Qed.

Lemma strict_eq_str_true (v : value) (label : string) :
  strict_eq_str v label = true <-> v = VStr label.
Proof.
  destruct v; simpl; try (split; [discriminate | intros H; discriminate H]).
  rewrite String.eqb_eq. split; [now intros -> | now intros [= ->]].
Qed.

Lemma diet_predicate_ok (diet : string) (r : value) :
  diet_predicate diet r = true <-> diet_ok diet r.
Proof.
  unfold diet_predicate, diet_ok. rewrite orb_true_iff, String.eqb_eq.
  apply or_iff_compat_l.
  destruct (selector_signals diet) as [[field label]|].
  - rewrite orb_true_iff. unfold flag_is_true, has_tag. split.
    + intros H. exists field, label. split; [reflexivity|].
      destruct H as [H|H].
      * left. destruct (get_opt r field) as [| |[|]|n|s|l|o]; try discriminate.
        reflexivity.
      * right. destruct (get_opt r "diets") as [| |b|n|s|tags|o];
          try discriminate.
        exists tags. split; [reflexivity|].
        apply existsb_exists in H as [t [Hin Ht]].
        apply strict_eq_str_true in Ht. now subst t.
    + intros [f [l [[= <- <-] [H|[tags [Hd Hin]]]]]].
      * left. now rewrite H.
      * right. rewrite Hd. apply existsb_exists. exists (VStr label).
        split; [assumption | now apply strict_eq_str_true].
  - split; [discriminate|]. intros [f [l [H _]]]. discriminate.
Qed.

Lemma filter_all {A} (p : A -> bool) (l : list A) :
  (forall x, In x l -> p x = true) -> filter p l = l.
Proof.
  induction l as [|x l IH]; simpl; intros H; [reflexivity|].
  rewrite (H x (or_introl eq_refl)). f_equal. apply IH. intros y Hy.
  apply H. now right.
Qed.

Lemma filter_none {A} (p : A -> bool) (l : list A) :
  (forall x, In x l -> p x = false) -> filter p l = [].
Proof.
  induction l as [|x l IH]; simpl; intros H; [reflexivity|].
  rewrite (H x (or_introl eq_refl)). apply IH. intros y Hy.
  apply H. now right.
Qed.

Section FilterOnSummaries.

Variable recipes : list value.
Variable query : string.
Hypothesis typed : Forall (fun r => is_recipe_summary r = true) recipes.

Lemma filtered_typed (diet : string) :
  filtered recipes query diet =
  Ok (filter (fun r => text_predicate query r && diet_predicate diet r) recipes).
Proof.
  unfold filtered. apply filterM_pure.
  eapply Forall_impl; [|exact typed]. intros r Hr. now apply keep_typed.
Qed.

(** C3: on a list of recipe summaries the filter returns, in the original
    order and without repeating a row, exactly the rows that pass both the
    text predicate (the trimmed, lower-cased query is empty or occurs in
    the lower-cased title) and the diet predicate (selector [all], or the
    selector's flag is [true], or the [diets] array holds the selector's
    tag, which for [glutenFree] is "gluten free"). *)
Theorem filtered_keeps_matching_rows (diet : string) :
  exists out,
    filtered recipes query diet = Ok out
    /\ out = filter (fun r => text_predicate query r && diet_predicate diet r)
               recipes
    /\ Subsequence out recipes
    /\ (NoDup recipes -> NoDup out)
    /\ (forall r, In r out <-> In r recipes /\ text_ok query r /\ diet_ok diet r)
    /\ selector_signals "glutenFree" = Some ("glutenFree", "gluten free").
Proof.
  eexists. split; [apply filtered_typed|].
  split; [reflexivity|]. split; [apply filter_Subsequence|].
  split; [apply NoDup_filter|]. split; [|reflexivity].
  intros r. rewrite filter_In, andb_true_iff, text_predicate_ok, diet_predicate_ok.
  reflexivity.
Qed.

(** C4: with selector [all] and a query that is empty once trimmed, or
    that is made of white space only (blanks, tabs, line terminators,
    no-break and ideographic spaces and the other white space of the
    language), the filter returns the whole list of recipe summaries,
    unchanged and in its original order. *)
Theorem filtered_all_blank_query_is_identity :
  trim query = "" \/ is_blank query = true ->
  filtered recipes query "all" = Ok recipes.
Proof.
  intros H.
  assert (Hq : trim query = "").
  { destruct H as [H|H]; [exact H|].
    unfold trim. now rewrite (trimStart_blank _ H). }
  rewrite filtered_typed. f_equal.
  apply filter_all. intros r _.
  unfold text_predicate, diet_predicate, normal_query. now rewrite Hq.
Qed.

(** C9: under a selector that is none of [all], [vegetarian], [vegan] and
    [glutenFree] the filter returns the empty list, whatever the rows and
    the query. *)
Theorem filtered_unknown_selector_is_empty (diet : string) :
  diet <> "all" -> diet <> "vegetarian" -> diet <> "vegan" ->
  diet <> "glutenFree" ->
  filtered recipes query diet = Ok [].
Proof.
  intros Ha Hv Hn Hg. rewrite filtered_typed. f_equal.
  apply filter_none. intros r _.
  unfold diet_predicate, selector_signals.
  apply String.eqb_neq in Ha, Hv, Hn, Hg. rewrite Ha, Hv, Hn, Hg.
  apply andb_false_r.
Qed.

End FilterOnSummaries.

Lemma sample_rows_are_summaries :
  Forall (fun r => is_recipe_summary r = true) Sample.search_response.
Proof. repeat constructor. Defined.

Lemma desserts_are_summaries :
  Forall (fun r => is_recipe_summary r = true) Sample2.desserts.
Proof. repeat constructor. Defined.

Lemma filtered_keeps_matching_rows_witness :
  exists out,
    filtered Sample2.desserts " Crème" "vegetarian" = Ok out
    /\ out = [Sample2.creme_brulee].
Proof.
  destruct (filtered_keeps_matching_rows Sample2.desserts " Crème"
              desserts_are_summaries "vegetarian") as [out [Hrun [Hout _]]].
  exists out. split; [exact Hrun|]. rewrite Hout. reflexivity.
Defined.

Lemma filtered_all_blank_query_is_identity_witness :
  is_blank (" " ++ Sample2.nbsp ++ Sample2.ideographic_space) = true
  /\ trim "   " = ""
  /\ filtered Sample.search_response
       (" " ++ Sample2.nbsp ++ Sample2.ideographic_space) "all" =
     Ok Sample.search_response.
Proof.
  split; [reflexivity|]. split; [reflexivity|].
  apply (filtered_all_blank_query_is_identity Sample.search_response
           (" " ++ Sample2.nbsp ++ Sample2.ideographic_space)
           sample_rows_are_summaries).
  right. reflexivity.
Defined.

Lemma filtered_unknown_selector_is_empty_witness :
  filtered Sample.search_response "" "paleo" = Ok [].
Proof.
  apply (filtered_unknown_selector_is_empty Sample.search_response ""
           sample_rows_are_summaries "paleo"); discriminate.
Defined.

(** ** The statistics *)

(** C7: for the empty list the statistics are a total of 0 and the
    placeholder for the average ready time, the median health score and
    the number of distinct cuisines. *)
Theorem stats_of_empty_list :
  stats [] = Ok (mkStats 0 dash dash dash) /\ dash = VStr "—".
Proof. split; reflexivity. Qed.

(** *** Sorting with the comparator [a - b] *)

Lemma insert_Permutation (cmp : number -> number -> number) (x : number)
    (l : list number) :
  Permutation (insert cmp x l) (x :: l).
Proof.
  induction l as [|y l IH]; simpl; [reflexivity|].
  destruct (0 <? cmp x y)%float; [|reflexivity].
  rewrite IH. apply perm_swap.
Qed.

Lemma sort_Permutation (cmp : number -> number -> number) (l : list number) :
  Permutation (sort cmp l) l.
Proof.
  induction l as [|x l IH]; simpl; [reflexivity|].
  unfold sort in IH. now rewrite insert_Permutation, IH.
Qed.

Lemma insert_ascending (x : number) (l : list number) :
  isFinite x = true -> Forall (fun y => isFinite y = true) l ->
  ascending l -> ascending (insert PrimFloat.sub x l).
Proof.
  intros Hx Hl Hs. unfold ascending in *.
  induction l as [|y l IH]; simpl.
  - repeat constructor.
  - inversion Hl as [|? ? Hy Hl']; subst. inversion Hs as [|? ? Hs' Hhd]; subst.
    rewrite (FloatFacts.sub_positive x y Hx Hy).
    destruct (y <? x)%float eqn:Hlt.
    + constructor; [now apply IH|].
      destruct l as [|z l]; simpl.
      * constructor. now apply FloatFacts.ltb_leb.
      * inversion Hl' as [|? ? Hz _]; subst.
        rewrite (FloatFacts.sub_positive x z Hx Hz).
        destruct (z <? x)%float.
        -- constructor. now inversion Hhd.
        -- constructor. now apply FloatFacts.ltb_leb.
    + constructor; [assumption|]. constructor.
      now apply FloatFacts.not_ltb_leb.
Qed.

Lemma sort_ascending (l : list number) :
  Forall (fun y => isFinite y = true) l -> ascending (sort PrimFloat.sub l).
Proof.
  induction 1 as [|x l Hx Hl IH]; simpl.
  - constructor.
  - apply insert_ascending; [assumption | | assumption].
    eapply Permutation_Forall; [|exact Hl].
    symmetry. apply sort_Permutation.
Qed.

(** *** The statistics on rows with numeric fields *)

Lemma numbers_of_objects (field : string) (rows : list value) :
  Forall (fun r => exists props, r = VObj props
                   /\ number_or_left_out (lookup field props) = true) rows ->
  numbers_of field rows =
  Ok (map (fun r => number_or_nan (get_opt r field)) rows).
Proof.
  unfold numbers_of.
  induction 1 as [|r rows [props [-> Hf]] _ IH]; simpl; [reflexivity|].
  rewrite IH.
  destruct (lookup field props); try discriminate; reflexivity.
Qed.

Lemma finite_of_numbers (field : string) (rows : list value) :
  filter isFinite (map (fun r => number_or_nan (get_opt r field)) rows) =
  finite_values field rows.
Proof.
  unfold finite_values. induction rows as [|r rows IH]; simpl; [reflexivity|].
  rewrite IH. destruct (get_opt r field) as [| |b|x|s|l|o]; try reflexivity.
  simpl. now destruct (isFinite x).
Qed.

Lemma cuisines_of_objects (rows : list value) :
  Forall (fun r => exists props, r = VObj props) rows ->
  exists cs, cuisines_of rows = Ok cs.
Proof.
  induction 1 as [|r rows [props ->] _ [cs IH]]; simpl.
  - now eexists.
  - rewrite IH. now eexists.
Qed.

Lemma finite_values_finite (field : string) (rows : list value) :
  Forall (fun y => isFinite y = true) (finite_values field rows).
Proof.
  unfold finite_values. induction rows as [|r rows IH]; simpl; [constructor|].
  apply Forall_app. split; [|assumption].
  destruct (get_opt r field) as [| |b|x|s|l|o]; simpl; try constructor.
  destruct (isFinite x) eqn:Hx; repeat constructor. assumption.
Qed.

Lemma median_cases (hs : list number) :
  (hs = [] -> median hs = dash)
  /\ (forall k, List.length hs = (2 * k + 1)%nat ->
        median hs = VNum (nth k hs PrimFloat.nan))
  /\ (forall k, List.length hs = (2 * k + 2)%nat ->
        median hs =
        VStr (toFixed1 ((nth k hs PrimFloat.nan + nth (k + 1) hs PrimFloat.nan)
                        / 2)%float)).
Proof.
  unfold median, at_index. split; [now intros ->|]. split; intros k Hk.
  - rewrite Hk.
    assert (Hm : ((2 * k + 1) mod 2 = 1)%nat).
    { rewrite Nat.add_comm, Nat.mul_comm. now rewrite Nat.Div0.mod_add. }
    assert (Hd : ((2 * k + 1 - 1) / 2 = k)%nat).
    { replace (2 * k + 1 - 1)%nat with (k * 2)%nat by lia.
      now apply Nat.div_mul. }
    rewrite Hm, Hd. replace (2 * k + 1)%nat with (S (2 * k)) by lia.
    reflexivity.
  - rewrite Hk.
    assert (Hm : ((2 * k + 2) mod 2 = 0)%nat).
    { replace (2 * k + 2)%nat with (0 + (k + 1) * 2)%nat by lia.
      now rewrite Nat.Div0.mod_add. }
    assert (Hd : ((2 * k + 2) / 2 = k + 1)%nat).
    { replace (2 * k + 2)%nat with ((k + 1) * 2)%nat by lia.
      now apply Nat.div_mul. }
    rewrite Hm, Hd. replace (k + 1 - 1)%nat with k by lia.
    replace (2 * k + 2)%nat with (S (2 * k + 1)) by lia.
    reflexivity.
Qed.

Lemma stats_scored_rows (rows : list value) :
  Forall (fun r => is_scored_row r = true) rows ->
  exists st,
    stats rows = Ok st
    /\ total st = List.length rows
    /\ avgReady st = average (finite_values "readyInMinutes" rows)
    /\ medianHS st =
       median (sort PrimFloat.sub (finite_values "healthScore" rows)).
Proof.
  intros H. unfold stats.
  rewrite (numbers_of_objects "readyInMinutes"), (numbers_of_objects "healthScore").
  - cbn [bind]. rewrite !finite_of_numbers.
    destruct (cuisines_of_objects rows) as [cs ->].
    + eapply Forall_impl; [|exact H].
      intros [| |b|n|s|l|props]; try discriminate. now eexists.
    + cbn [bind]. eexists. split; [reflexivity|]. now repeat split.
  - eapply Forall_impl; [|exact H].
    intros [| |b|n|s|l|props]; try discriminate. simpl. intros Hr.
    apply andb_prop in Hr as [_ Hr]. now eexists.
  - eapply Forall_impl; [|exact H].
    intros [| |b|n|s|l|props]; try discriminate. simpl. intros Hr.
    apply andb_prop in Hr as [Hr _]. now eexists.
Qed.

(** C1 (the code departs from the claim): a row whose [readyInMinutes] or
    [healthScore] is [null] is not left out of the statistics; [Number]
    turns the [null] into 0, which is finite and enters the mean and the
    median.  With ready times [null] and 30 the average shown is "15.0",
    where the mean of the finite numeric values alone is "30.0"; with
    health scores [null] and 40 the median shown is "20.0", not 40. *)
Theorem stats_counts_null_as_zero :
  stats Sample.with_nulls = Ok (mkStats 2 (VStr "15.0") (VStr "20.0") dash)
  /\ finite_values "readyInMinutes" Sample.with_nulls = [30%float]
  /\ average (finite_values "readyInMinutes" Sample.with_nulls) = VStr "30.0"
  /\ finite_values "healthScore" Sample.with_nulls = [40%float]
  /\ median (finite_values "healthScore" Sample.with_nulls) = VNum 40%float
  /\ ToNumber VNull = Ok 0%float
  /\ ToNumber (VBool true) = Ok 1%float
  /\ ToNumber (VStr "") = Ok 0%float.
Proof. repeat split; reflexivity. Qed.

(** C2, as the claim words it, fails for an even count: the average of
    the two middle scores always goes through [toFixed(1)], so the scores
    10, 20, 30, 40 give the text "25.0" and not the number 25. *)
Lemma medianHS_even_count_is_text :
  stats (Sample.scored [10; 20; 30; 40]%float) =
    Ok (mkStats 4 dash (VStr "25.0") dash)
  /\ VStr "25.0" <> VNum 25%float.
Proof. split; [reflexivity | discriminate]. Qed.

(** C2 (amended): on rows that give [healthScore] and [readyInMinutes]
    as a number or leave them out, [medianHS] is the median of the finite
    [healthScore] values sorted ascending: the placeholder when there is
    none, the middle value (a number) for an odd count, and for an even
    count the text [toFixed(1)] prints for the average of the two middle
    values, whether or not the average is integral.  The scores 10, 20,
    30, 40 give "25.0", 10 and 15 give "12.5", and 10, 20, 30 give 20;
    from 1e21 on [toFixed] prints the exponent form, so two scores of
    1e21 give "1e+21". *)
Theorem medianHS_is_median_of_sorted_scores :
  (forall rows,
     Forall (fun r => is_scored_row r = true) rows ->
     exists st hs,
       stats rows = Ok st
       /\ Permutation hs (finite_values "healthScore" rows)
       /\ ascending hs
       /\ (hs = [] -> medianHS st = dash)
       /\ (forall k, List.length hs = (2 * k + 1)%nat ->
             medianHS st = VNum (nth k hs PrimFloat.nan))
       /\ (forall k, List.length hs = (2 * k + 2)%nat ->
             medianHS st =
             VStr (toFixed1
                     ((nth k hs PrimFloat.nan + nth (k + 1) hs PrimFloat.nan)
                      / 2)%float)))
  /\ stats (Sample.scored [10; 20; 30; 40]%float) =
       Ok (mkStats 4 dash (VStr "25.0") dash)
  /\ stats (Sample.scored [40; 10; 30; 20]%float) =
       Ok (mkStats 4 dash (VStr "25.0") dash)
  /\ stats (Sample.scored [10; 20; 30]%float) =
       Ok (mkStats 3 dash (VNum 20%float) dash)
  /\ stats (Sample.scored [10; 15]%float) =
       Ok (mkStats 2 dash (VStr "12.5") dash)
  /\ stats (Sample.scored [1; 2.5]%float) =
       Ok (mkStats 2 dash (VStr "1.8") dash)
  /\ stats (Sample.scored [1e21; 1e21]%float) =
       Ok (mkStats 2 dash (VStr "1e+21") dash).
Proof.
  split; [|repeat split; reflexivity].
  intros rows H.
  destruct (stats_scored_rows rows H) as [st [Hst [_ [_ Hm]]]].
  exists st, (sort PrimFloat.sub (finite_values "healthScore" rows)).
  split; [exact Hst|]. split; [apply sort_Permutation|].
  split; [apply sort_ascending, finite_values_finite|].
  rewrite Hm. apply median_cases.
Qed.

Lemma medianHS_is_median_of_sorted_scores_witness :
  Forall (fun r => is_scored_row r = true) Sample.search_response
  /\ exists st hs,
       stats Sample.search_response = Ok st
       /\ Permutation hs (finite_values "healthScore" Sample.search_response)
       /\ ascending hs
       /\ (hs = [] -> medianHS st = dash)
       /\ (forall k, List.length hs = (2 * k + 1)%nat ->
             medianHS st = VNum (nth k hs PrimFloat.nan))
       /\ (forall k, List.length hs = (2 * k + 2)%nat ->
             medianHS st =
             VStr (toFixed1
                     ((nth k hs PrimFloat.nan + nth (k + 1) hs PrimFloat.nan)
                      / 2)%float)).
Proof.
  assert (H : Forall (fun r => is_scored_row r = true) Sample.search_response)
    by (repeat constructor).
  split; [exact H|].
  exact (proj1 medianHS_is_median_of_sorted_scores Sample.search_response H).
Defined.

(** ** The nutrition series *)

Lemma named_is_object (name : string) (x : value) :
  named name x = true -> exists props, x = VObj props.
Proof.
  destruct x; try discriminate. intros _. now eexists.
Qed.

Lemma find_by_name_absent (nutrients : list value) (name : string) :
  absent_from nutrients name -> find_by_name nutrients name = VUndef.
Proof.
  unfold find_by_name, absent_from, named.
  induction 1 as [|x l Hx _ IH]; simpl; [reflexivity|].
  now rewrite Hx.
Qed.

Lemma find_by_name_first (nutrients : list value) (name : string) (e : value) :
  first_named nutrients name e -> find_by_name nutrients name = e.
Proof.
  intros [before [after [-> [He Hb]]]]. unfold find_by_name.
  induction Hb as [|x l Hx _ IH]; simpl.
  - unfold named in He. now rewrite He.
  - unfold named in Hx. now rewrite Hx.
Qed.

Lemma absent_or_first (nutrients : list value) (name : string) :
  absent_from nutrients name \/ exists e, first_named nutrients name e.
Proof.
  induction nutrients as [|x l IH].
  - left. constructor.
  - destruct (named name x) eqn:Hx.
    + right. exists x, [], l. repeat split; [assumption | constructor].
    + destruct IH as [IH | [e [before [after [-> [He Hb]]]]]].
      * left. now constructor.
      * right. exists e, (x :: before), after.
        repeat split; [assumption | now constructor].
Qed.

Lemma find_absent (nutrients : list value) (name fallbackUnit : string) :
  absent_from nutrients name ->
  find nutrients name fallbackUnit = Ok (mkFound PrimFloat.zero (VStr fallbackUnit)).
Proof.
  intros H. unfold find. now rewrite (find_by_name_absent _ _ H).
Qed.

Lemma find_present (nutrients : list value) (name fallbackUnit : string) (e : value) :
  first_named nutrients name e ->
  find nutrients name fallbackUnit =
  (a <- ToNumber (get_opt e "amount") ;;
   Ok (mkFound a (or_else (get_opt e "unit") (VStr fallbackUnit)))).
Proof.
  intros H. unfold find. rewrite (find_by_name_first _ _ _ H).
  destruct H as [_ [_ [_ [He _]]]].
  apply named_is_object in He as [props ->]. reflexivity.
Qed.

Lemma StringToNumber_non_numeric (s : string) :
  non_numeric s -> StringToNumber s = PrimFloat.nan.
Proof.
  intros [Hne Hnone]. unfold StringToNumber. rewrite Hnone.
  apply String.eqb_neq in Hne. now rewrite Hne.
Qed.

Lemma StringToNumber_blank (s : string) :
  trim s = "" -> StringToNumber s = PrimFloat.zero.
Proof. intros H. unfold StringToNumber. now rewrite H. Qed.

(** C10, as the claim words it, fails: an entry that is there with a
    missing amount does not always give NaN.  With an amount of [null]
    (which the specification counts as missing), [false], empty text or
    white space the coercion gives 0, the very amount of an absent
    entry. *)
Lemma find_present_null_amount_is_zero :
  first_named Sample2.coerced_amounts "Protein" Sample2.null_protein
  /\ missing (get_opt Sample2.null_protein "amount") = true
  /\ find Sample2.coerced_amounts "Protein" "g" =
     Ok (mkFound PrimFloat.zero (VStr "g"))
  /\ find Sample2.coerced_amounts "Fat" "g" =
     Ok (mkFound PrimFloat.zero (VStr "g"))
  /\ find Sample2.coerced_amounts "Carbohydrates" "g" =
     Ok (mkFound PrimFloat.zero (VStr "g"))
  /\ find Sample2.coerced_amounts "Fiber" "g" =
     Ok (mkFound PrimFloat.zero (VStr "g"))
  /\ PrimFloat.is_nan PrimFloat.zero = false.
Proof.
  split; [|repeat split; reflexivity].
  exists [], (tl Sample2.coerced_amounts).
  split; [reflexivity|]. split; [reflexivity | constructor].
Qed.

(** C10 (amended): the amount 0 is given when the list has no entry of
    that exact name.  When it has one, the amount is the numeric coercion
    of the entry's [amount] field and only the unit falls back to the
    default: a number gives itself, an amount that is left out or is
    non-numeric text gives NaN, and an amount that is [null], [false] or
    text that trims to nothing gives 0. *)
Theorem find_coerces_amount_when_present (nutrients : list value)
    (name fallbackUnit : string) :
  ((absent_from nutrients name
    /\ find nutrients name fallbackUnit =
       Ok (mkFound PrimFloat.zero (VStr fallbackUnit)))
   \/ (exists e,
        first_named nutrients name e
        /\ find nutrients name fallbackUnit =
           (a <- ToNumber (get_opt e "amount") ;;
            Ok (mkFound a (or_else (get_opt e "unit") (VStr fallbackUnit))))
        /\ (forall a, get_opt e "amount" = VNum a ->
            find nutrients name fallbackUnit =
            Ok (mkFound a (or_else (get_opt e "unit") (VStr fallbackUnit))))
        /\ (get_opt e "amount" = VUndef
            \/ (exists s, get_opt e "amount" = VStr s /\ non_numeric s) ->
            find nutrients name fallbackUnit =
            Ok (mkFound PrimFloat.nan
                  (or_else (get_opt e "unit") (VStr fallbackUnit))))
        /\ (get_opt e "amount" = VNull
            \/ get_opt e "amount" = VBool false
            \/ (exists s, get_opt e "amount" = VStr s /\ trim s = "") ->
            find nutrients name fallbackUnit =
            Ok (mkFound PrimFloat.zero
                  (or_else (get_opt e "unit") (VStr fallbackUnit))))))
  /\ find Sample.odd_amounts "Fiber" "g" = Ok (mkFound PrimFloat.nan (VStr "mg"))
  /\ find Sample.odd_amounts "Sugar" "g" = Ok (mkFound PrimFloat.nan (VStr "g"))
  /\ find Sample2.coerced_amounts "Protein" "g" =
     Ok (mkFound PrimFloat.zero (VStr "g"))
  /\ PrimFloat.is_nan PrimFloat.nan = true
  /\ PrimFloat.is_nan PrimFloat.zero = false.
Proof.
  split; [|repeat split; reflexivity].
  destruct (absent_or_first nutrients name) as [H | [e H]].
  - left. split; [assumption | now apply find_absent].
  - right. exists e. split; [assumption|].
    rewrite (find_present _ _ fallbackUnit _ H). split; [reflexivity|].
    split; [|split].
    + now intros a ->.
    + intros [-> | [s [-> Hs]]]; simpl.
      * reflexivity.
      * now rewrite (StringToNumber_non_numeric _ Hs).
    + intros [-> | [-> | [s [-> Hs]]]]; simpl; try reflexivity.
      now rewrite (StringToNumber_blank _ Hs).
Qed.

Lemma mapM_Forall2 {A B} (f : A -> result B) (P : A -> B -> Prop) (l : list A) :
  (forall x, In x l -> exists y, f x = Ok y /\ P x y) ->
  exists ys, mapM f l = Ok ys /\ Forall2 P l ys.
Proof.
  induction l as [|x l IH]; intros H; simpl.
  - exists []. split; [reflexivity | constructor].
  - destruct (H x (or_introl eq_refl)) as [y [Hy Hp]].
    destruct IH as [ys [Hys Hall]]; [intros z Hz; apply H; now right|].
    exists (y :: ys). rewrite Hy, Hys. split; [reflexivity | now constructor].
Qed.

Lemma first_named_In (nutrients : list value) (name : string) (e : value) :
  first_named nutrients name e -> In e nutrients.
Proof.
  intros [before [after [-> _]]]. apply in_or_app. right. now left.
Qed.

Lemma or_else_unit (u : value) (fallbackUnit : string) :
  missing u || is_string u = true ->
  (missing u = true /\ or_else u (VStr fallbackUnit) = VStr fallbackUnit)
  \/ (u = VStr "" /\ or_else u (VStr fallbackUnit) = VStr fallbackUnit)
  \/ (exists t, u = VStr t /\ t <> "" /\ or_else u (VStr fallbackUnit) = VStr t).
Proof.
  destruct u as [| |b|n|t|l|o]; simpl; try discriminate; intros _.
  - left. now split.
  - left. now split.
  - destruct (String.eqb_spec t "") as [->|Hne].
    + right. left. now split.
    + right. right. exists t. unfold or_else; simpl.
      apply String.eqb_neq in Hne as Hb. rewrite Hb. now repeat split.
Qed.

(** On a nutrition record the helper [find] never throws: it returns the
    grams and the unit the record gives for the name. *)
Lemma find_typed (nutrition : value) (name : string) :
  is_nutrition_record nutrition = true ->
  exists a u,
    find (nutrients_of nutrition) name (default_unit name) = Ok (mkFound a u)
    /\ grams nutrition name a
    /\ unit_shown nutrition name u.
Proof.
  intros Ht. unfold is_nutrition_record in Ht. rewrite forallb_forall in Ht.
  destruct (absent_or_first (nutrients_of nutrition) name) as [H | [e H]].
  - exists PrimFloat.zero, (VStr (default_unit name)).
    split; [now apply find_absent|]. split; left; now split.
  - rewrite (find_present _ _ _ _ H).
    pose proof (Ht e (first_named_In _ _ _ H)) as He.
    pose proof H as [_ [_ [_ [Hname _]]]].
    destruct e as [| |b|n|s|l|props]; try discriminate.
    unfold is_nutrient in He. unfold named in Hname. simpl get_opt in *.
    destruct (lookup "name" props) as [| |b|n|nm|l|o]; try discriminate.
    simpl in He. apply andb_prop in He as [Ha Hu].
    destruct (lookup "amount" props) as [| |b|a|s|l|o] eqn:Hamount;
      try discriminate.
    exists a, (or_else (lookup "unit" props) (VStr (default_unit name))).
    split; [reflexivity|]. split.
    + right. exists (VObj props). now split.
    + right. exists (VObj props). split; [assumption|]. simpl get_opt.
      destruct (or_else_unit _ (default_unit name) Hu)
        as [[H1 ->] | [[H1 ->] | [t [H1 [H2 ->]]]]].
      * left. now split.
      * right. left. now split.
      * right. right. exists t. now repeat split.
Qed.

(** C5: the macro split of a nutrition record has the three entries
    Protein, Fat and Carbs, in that order, worth the record's protein
    grams times 4, fat grams times 9 and carbohydrate grams times 4; a
    macro nutrient the record lacks counts 0 grams and keeps its entry
    (with value 0).  For protein 10 g, fat 5 g and carbohydrates 20 g the
    split is 40, 45 and 80. *)
Theorem donutData_macro_split :
  (forall nutrition,
     is_nutrition_record nutrition = true ->
     exists protein fat carbs,
       donutData nutrition =
       Ok [ mkSlice "Protein" (protein * 4)%float;
            mkSlice "Fat" (fat * 9)%float;
            mkSlice "Carbs" (carbs * 4)%float ]
       /\ grams nutrition "Protein" protein
       /\ grams nutrition "Fat" fat
       /\ grams nutrition "Carbohydrates" carbs)
  /\ (0 * 4 = 0 /\ 0 * 9 = 0)%float
  /\ donutData (VObj []) =
     Ok [mkSlice "Protein" 0%float; mkSlice "Fat" 0%float; mkSlice "Carbs" 0%float]
  /\ donutData Sample.macros =
     Ok [mkSlice "Protein" 40%float; mkSlice "Fat" 45%float; mkSlice "Carbs" 80%float].
Proof.
  split; [|repeat split; reflexivity].
  intros nutrition Ht. unfold donutData.
  destruct (find_typed nutrition "Protein" Ht) as [p [pu [Hp [Gp _]]]].
  destruct (find_typed nutrition "Fat" Ht) as [f [fu [Hf [Gf _]]]].
  destruct (find_typed nutrition "Carbohydrates" Ht) as [c [cu [Hc [Gc _]]]].
  change (default_unit "Protein") with "g" in Hp.
  change (default_unit "Fat") with "g" in Hf.
  change (default_unit "Carbohydrates") with "g" in Hc.
  exists p, f, c. rewrite Hp, Hf, Hc. now repeat split.
Qed.

Lemma donutData_macro_split_witness :
  is_nutrition_record Sample.macros = true
  /\ exists protein fat carbs,
       donutData Sample.macros =
       Ok [ mkSlice "Protein" (protein * 4)%float;
            mkSlice "Fat" (fat * 9)%float;
            mkSlice "Carbs" (carbs * 4)%float ]
       /\ grams Sample.macros "Protein" protein
       /\ grams Sample.macros "Fat" fat
       /\ grams Sample.macros "Carbohydrates" carbs.
Proof.
  split; [reflexivity|].
  apply (proj1 donutData_macro_split Sample.macros). reflexivity.
Defined.

(** C6: the bar series of a nutrition record has the six entries
    Calories, Protein, Fat, Carbohydrates, Fiber and Sugar, in that order.
    Each is looked up by its exact name (letter case included).  A
    nutrient the record lacks has amount 0 and the default unit, "kcal"
    for Calories and "g" for the others; the default unit is also shown
    for an entry that leaves its unit out. *)
Theorem barData_six_fixed_entries :
  (forall nutrition,
     is_nutrition_record nutrition = true ->
     exists items,
       barData nutrition = Ok items
       /\ map bar_name items = BAR_KEYS
       /\ Forall (fun item =>
                    grams nutrition (bar_name item) (bar_amount item)
                    /\ unit_shown nutrition (bar_name item) (bar_unit item))
                 items)
  /\ BAR_KEYS = ["Calories"; "Protein"; "Fat"; "Carbohydrates"; "Fiber"; "Sugar"]
  /\ map default_unit BAR_KEYS = ["kcal"; "g"; "g"; "g"; "g"; "g"]
  /\ barData Sample.no_fiber =
     Ok [ mkBar "Calories" 0%float (VStr "kcal");
          mkBar "Protein" 10%float (VStr "g");
          mkBar "Fat" 0%float (VStr "g");
          mkBar "Carbohydrates" 0%float (VStr "g");
          mkBar "Fiber" 0%float (VStr "g");
          mkBar "Sugar" 3%float (VStr "g") ].
Proof.
  split; [|repeat split; reflexivity].
  intros nutrition Ht. unfold barData.
  destruct (mapM_Forall2
              (fun k =>
                 f <- find (nutrients_of nutrition) k
                        (if k =? "Calories" then "kcal" else "g") ;;
                 Ok (mkBar k (amount f) (unit f)))
              (fun k item =>
                 bar_name item = k
                 /\ grams nutrition k (bar_amount item)
                 /\ unit_shown nutrition k (bar_unit item))
              BAR_KEYS) as [items [Hrun Hall]].
  - intros k _. destruct (find_typed nutrition k Ht) as [a [u [Hf [Ha Hu]]]].
    exists (mkBar k a u). unfold default_unit in Hf. rewrite Hf.
    now repeat split.
  - exists items. split; [exact Hrun|]. clear Hrun.
    induction Hall as [|k item ks items [Hn [Hg Hu]] _ [IH1 IH2]].
    + split; [reflexivity | constructor].
    + split.
      * simpl. now rewrite Hn, IH1.
      * constructor; [|assumption]. rewrite Hn. now split.
Qed.

Lemma barData_six_fixed_entries_witness :
  is_nutrition_record Sample.no_fiber = true
  /\ exists items,
       barData Sample.no_fiber = Ok items
       /\ map bar_name items = BAR_KEYS
       /\ Forall (fun item =>
                    grams Sample.no_fiber (bar_name item) (bar_amount item)
                    /\ unit_shown Sample.no_fiber (bar_name item) (bar_unit item))
                 items.
Proof.
  split; [reflexivity|].
  apply (proj1 barData_six_fixed_entries Sample.no_fiber). reflexivity.
Defined.

(** ** The text helper *)

Lemma text_of_app (l1 l2 : list DOM.node) :
  DOM.text_of (l1 ++ l2)%list = DOM.text_of l1 ++ DOM.text_of l2.
Proof.
  induction l1 as [|x l1 IH]; simpl; [reflexivity|].
  now rewrite IH, str_app_assoc.
Qed.

Lemma textContent_Element (tag : string) (children : list DOM.node) :
  DOM.textContent (DOM.Element tag children) = DOM.text_of children.
Proof.
  simpl. induction children as [|c l IH]; simpl; [reflexivity | now rewrite IH].
Qed.

Lemma text_of_rev_cons (x : DOM.node) (cur : list DOM.node) :
  DOM.text_of (rev (x :: cur)) = DOM.text_of (rev cur) ++ DOM.textContent x.
Proof.
  simpl rev. rewrite text_of_app. simpl. now rewrite str_app_nil_r.
Qed.

Lemma text_of_close_all (cur : list DOM.node) (stack : list DOM.frame) :
  DOM.text_of (DOM.close_all cur stack) =
  DOM.outer_text stack ++ DOM.text_of (rev cur).
Proof.
  revert cur. induction stack as [|[tag before] outer IH]; intros cur; simpl.
  - reflexivity.
  - rewrite IH, text_of_rev_cons, textContent_Element.
    now rewrite !str_app_assoc.
Qed.

Lemma text_of_append_char (c : ascii) (cur : list DOM.node) :
  DOM.text_of (rev (DOM.append_char c cur)) =
  DOM.text_of (rev cur) ++ String c "".
Proof.
  unfold DOM.append_char.
  destruct cur as [|[d| |tag cs] before]; rewrite !text_of_rev_cons;
    try reflexivity.
  simpl DOM.textContent. now rewrite str_app_assoc.
Qed.

Lemma close_until_close_all (name : string) (cur : list DOM.node)
    (stack : list DOM.frame) :
  DOM.close_all (fst (DOM.close_until name cur stack))
                (snd (DOM.close_until name cur stack)) =
  DOM.close_all cur stack.
Proof.
  revert cur. induction stack as [|[tag before] outer IH]; intros cur; simpl.
  - reflexivity.
  - destruct (tag =? name); [reflexivity | apply IH].
Qed.

(** Tree construction neither drops nor reorders character data. *)
Lemma text_of_build (tokens : list DOM.token) (cur : list DOM.node)
    (stack : list DOM.frame) :
  DOM.text_of (DOM.build tokens cur stack) =
  DOM.text_of (DOM.close_all cur stack) ++ DOM.token_text tokens.
Proof.
  revert cur stack.
  induction tokens as [|[c|name|name|] rest IH]; intros cur stack; simpl.
  - now rewrite str_app_nil_r.
  - rewrite IH, !text_of_close_all, text_of_append_char.
    now rewrite !str_app_assoc.
  - destruct (DOM.is_void name); rewrite IH, !text_of_close_all.
    + rewrite text_of_rev_cons. simpl. now rewrite str_app_nil_r.
    + simpl. now rewrite str_app_nil_r.
  - destruct (existsb (fun f => fst f =? name) stack); [|apply IH].
    pose proof (close_until_close_all name cur stack) as H.
    destruct (DOM.close_until name cur stack) as [cur' stack'].
    rewrite IH. simpl in H. now rewrite H.
  - rewrite IH, !text_of_close_all, text_of_rev_cons. simpl.
    now rewrite str_app_nil_r.
Qed.



Lemma or_str_idem (t : string) : or_str t (or_str t "") = t.
Proof. unfold or_str. destruct (String.eqb_spec t ""); congruence. Qed.

Lemma stripHtml_string (s : string) :
  RecipeDetail.stripHtml (VStr s) =
  Ok (DOM.textContent (DOM.Element "div" (DOM.parse_fragment s))).
Proof.
  unfold RecipeDetail.stripHtml, DOM.innerText, or_else. simpl truthy.
  destruct (String.eqb_spec s "") as [->|Hne]; simpl negb; cbn [ToString bind];
    now rewrite or_str_idem.
Qed.

Lemma normalize_newlines_plain (s : string) :
  DOM.is_plain s = true -> DOM.normalize_newlines s = s.
Proof.
  induction s as [|c s IH]; simpl; [reflexivity|].
  intros H. apply andb_prop in H as [Hc Hs].
  apply negb_true_iff in Hc. apply orb_false_iff in Hc as [_ Hcr].
  rewrite Hcr. now rewrite IH.
Qed.

Lemma tokenize_plain (s : string) :
  DOM.is_plain s = true -> DOM.token_text (DOM.tokenize DOM.Data s) = s.
Proof.
  induction s as [|c s IH]; [reflexivity|].
  intros H. simpl in H. apply andb_prop in H as [Hc Hs].
  apply negb_true_iff in Hc. apply orb_false_iff in Hc as [Hc _].
  apply orb_false_iff in Hc as [Hlt Hamp].
  cbn [DOM.tokenize]. rewrite Hlt, Hamp. simpl. now rewrite IH.
Qed.

(** * Further properties of the filter *)

Lemma Forall_filter_keep {A} (P : A -> Prop) (p : A -> bool) (l : list A) :
  Forall P l -> Forall P (filter p l).
Proof.
  intros H. apply Forall_forall. intros x Hx. apply filter_In in Hx as [Hx _].
  rewrite Forall_forall in H. now apply H.
Qed.

Lemma filter_andb {A} (p q : A -> bool) (l : list A) :
  filter q (filter p l) = filter (fun x => p x && q x) l.
Proof.
  induction l as [|x l IH]; simpl; [reflexivity|].
  destruct (p x) eqn:Hp; simpl; [|assumption].
  destruct (q x); now rewrite IH.
Qed.

Lemma filter_weaker_Subsequence {A} (p q : A -> bool) (l : list A) :
  (forall x, p x = true -> q x = true) ->
  Subsequence (filter p l) (filter q l).
Proof.
  intros H. induction l as [|x l IH]; simpl; [constructor|].
  destruct (p x) eqn:Hp.
  - rewrite (H x Hp). now constructor.
  - destruct (q x); [now constructor | assumption].
Qed.

Lemma text_predicate_blank (r : value) : text_predicate "" r = true.
Proof. reflexivity. Qed.

Lemma diet_predicate_all (r : value) : diet_predicate "all" r = true.
Proof. reflexivity. Qed.

(** X1: filtering is idempotent: running the filter again on its own
    output, with the same query and selector, changes nothing. *)
Theorem filtered_idempotent (recipes : list value) (query diet : string) :
  Forall (fun r => is_recipe_summary r = true) recipes ->
  exists out,
    filtered recipes query diet = Ok out
    /\ filtered out query diet = Ok out.
Proof.
  intros H. eexists. split; [now apply filtered_typed|].
  rewrite filtered_typed by now apply Forall_filter_keep.
  rewrite filter_andb. f_equal. apply filter_ext. intros r.
  now rewrite andb_diag.
Qed.

Lemma filtered_idempotent_witness :
  exists out,
    filtered Sample.search_response "e" "vegan" = Ok out
    /\ filtered out "e" "vegan" = Ok out.
Proof.
  exact (filtered_idempotent Sample.search_response "e" "vegan"
           sample_rows_are_summaries).
Defined.

(** X2: the two criteria compose: searching first and then selecting the
    diet on the result, or the other way round, gives what one call with
    both criteria gives; so a diet selector only ever removes rows from
    the result for [all]. *)
Theorem filtered_criteria_compose (recipes : list value) (query diet : string) :
  Forall (fun r => is_recipe_summary r = true) recipes ->
  exists by_text by_diet out,
    filtered recipes query "all" = Ok by_text
    /\ filtered recipes "" diet = Ok by_diet
    /\ filtered recipes query diet = Ok out
    /\ filtered by_text "" diet = Ok out
    /\ filtered by_diet query "all" = Ok out
    /\ Subsequence out by_text
    /\ Subsequence out by_diet.
Proof.
  intros H. do 3 eexists.
  split; [now apply filtered_typed|]. split; [now apply filtered_typed|].
  split; [now apply filtered_typed|].
  rewrite !filtered_typed by now apply Forall_filter_keep.
  rewrite !filter_andb.
  split; [|split; [|split]].
  - f_equal. apply filter_ext. intros r.
    rewrite text_predicate_blank, diet_predicate_all. simpl.
    now rewrite andb_true_r.
  - f_equal. apply filter_ext. intros r.
    rewrite text_predicate_blank, diet_predicate_all. simpl.
    rewrite andb_true_r. apply andb_comm.
  - apply filter_weaker_Subsequence. intros r Hr.
    apply andb_prop in Hr as [Hr _]. now rewrite Hr, diet_predicate_all.
  - apply filter_weaker_Subsequence. intros r Hr.
    apply andb_prop in Hr as [_ Hr]. now rewrite Hr, text_predicate_blank.
Qed.

Lemma filtered_criteria_compose_witness :
  exists by_text by_diet out,
    filtered Sample.search_response "e" "all" = Ok by_text
    /\ filtered Sample.search_response "" "vegan" = Ok by_diet
    /\ filtered Sample.search_response "e" "vegan" = Ok out
    /\ filtered by_text "" "vegan" = Ok out
    /\ filtered by_diet "e" "all" = Ok out
    /\ Subsequence out by_text
    /\ Subsequence out by_diet.
Proof.
  exact (filtered_criteria_compose Sample.search_response "e" "vegan"
           sample_rows_are_summaries).
Defined.

Lemma str_includes_trans (t a b : string) :
  str_includes t a = true -> str_includes a b = true ->
  str_includes t b = true.
Proof.
  rewrite !str_includes_app.
  intros [p1 [s1 ->]] [p2 [s2 ->]].
  exists (p1 ++ p2), (s2 ++ s1). now rewrite !str_app_assoc.
Qed.

Lemma str_includes_in_empty (b : string) :
  str_includes "" b = true -> b = "".
Proof.
  rewrite str_includes_app. intros [[|c p] [s H]]; [|discriminate].
  destruct b; [reflexivity | discriminate].
Qed.

(** X3: typing more narrows the result: when the normalised query of one
    search occurs inside that of another, every row the longer query
    keeps is kept by the shorter one, in the same order. *)
Theorem filtered_longer_query_narrows (recipes : list value)
    (shorter longer diet : string) :
  Forall (fun r => is_recipe_summary r = true) recipes ->
  str_includes (normal_query longer) (normal_query shorter) = true ->
  exists wide narrow,
    filtered recipes shorter diet = Ok wide
    /\ filtered recipes longer diet = Ok narrow
    /\ Subsequence narrow wide.
Proof.
  intros H Hq. do 2 eexists.
  split; [now apply filtered_typed|]. split; [now apply filtered_typed|].
  apply filter_weaker_Subsequence. intros r Hr.
  apply andb_prop in Hr as [Ht Hd]. rewrite Hd, andb_true_r.
  unfold text_predicate in *. apply orb_true_iff in Ht as [Ht|Ht].
  - apply String.eqb_eq in Ht. rewrite Ht in Hq.
    apply str_includes_in_empty in Hq. now rewrite Hq.
  - apply orb_true_iff. right. now apply (str_includes_trans _ _ _ Ht).
Qed.

Lemma filtered_longer_query_narrows_witness :
  exists wide narrow,
    filtered Sample2.desserts " É" "all" = Ok wide
    /\ filtered Sample2.desserts "éclairs" "all" = Ok narrow
    /\ Subsequence narrow wide.
Proof.
  apply (filtered_longer_query_narrows Sample2.desserts " É" "éclairs"
           "all" desserts_are_summaries).
  reflexivity.
Defined.

(** X4: the search ignores white space around the query: padding the
    query on either side with white space or line terminators of any
    kind (a no-break space or an ideographic space as well as a blank or
    a tab) gives the same outcome on every list, result or exception
    alike. *)
Theorem filtered_ignores_query_padding (recipes : list value)
    (query before after diet : string) :
  is_blank before = true -> is_blank after = true ->
  filtered recipes (before ++ query ++ after) diet =
  filtered recipes query diet.
Proof.
  intros Hb Ha. unfold filtered. now rewrite trim_padded.
Qed.

Lemma filtered_ignores_query_padding_witness :
  filtered Sample.search_response
    ((" " ++ Sample2.nbsp) ++ "Tacos" ++ (Sample2.ideographic_space ++ " "))
    "all" =
  filtered Sample.search_response "Tacos" "all".
Proof.
  apply (filtered_ignores_query_padding Sample.search_response
           "Tacos" (" " ++ Sample2.nbsp) (Sample2.ideographic_space ++ " ")
           "all"); reflexivity.
Defined.

Lemma filterM_throws {A} (f : A -> result bool) (l : list A) (x : A) :
  In x l -> (exists e, f x = Throw e) -> exists e, filterM f l = Throw e.
Proof.
  intros Hin Hx. induction l as [|y l IH]; [contradiction|].
  simpl. destruct (f y) as [b|e] eqn:Hy; [|now exists e].
  destruct Hin as [->|Hin].
  - destruct Hx as [e He]. congruence.
  - destruct (IH Hin) as [e ->]. now exists e.
Qed.

Lemma keep_breaks (q diet : string) (r : value) :
  breaks_filter r = true -> exists e, keep q diet r = Throw e.
Proof.
  unfold breaks_filter, keep. intros H.
  destruct r as [| |b|n|s|l|props]; simpl in *; try discriminate;
    try (now eexists).
  unfold or_else.
  destruct (lookup "title" props) as [| |b|n|s|l|o]; simpl in *;
    try discriminate.
  - destruct b; [now eexists | discriminate].
  - rewrite andb_true_r in H. rewrite H. now eexists.
  - rewrite andb_false_r in H. discriminate.
  - now eexists.
  - now eexists.
Qed.

Lemma keep_all_reads (q : string) (r : value) :
  breaks_filter r = false -> exists b, keep q "all" r = Ok b.
Proof.
  unfold breaks_filter, keep. intros H.
  apply orb_false_iff in H as [Hn Ht].
  destruct r as [| |b|n|s|l|props]; simpl in *; try discriminate;
    try (now eexists).
  unfold or_else.
  destruct (lookup "title" props) as [| |b|n|s|l|o]; simpl in *;
    try discriminate; try (now eexists).
  - destruct b; [discriminate | now eexists].
  - rewrite andb_true_r in Ht. rewrite Ht. now eexists.
  - destruct (negb (s =? "")); now eexists.
Qed.

Lemma filterM_reads {A} (f : A -> result bool) (l : list A) :
  Forall (fun x => exists b, f x = Ok b) l -> exists out, filterM f l = Ok out.
Proof.
  induction 1 as [|x l [b Hx] _ [out IH]]; simpl.
  - now eexists.
  - rewrite Hx, IH. now eexists.
Qed.

(** X5: when the filter throws.  Under the selector [all] it throws a
    [TypeError] exactly when some row is [null] or [undefined] or has a
    title that is neither text nor falsy; such a row makes it throw under
    every other selector too. *)
Theorem filtered_throws_on_unreadable_rows (recipes : list value)
    (query : string) :
  (existsb breaks_filter recipes = true <->
   exists msg, filtered recipes query "all" = Throw (TypeError msg))
  /\ (existsb breaks_filter recipes = true ->
      forall diet, exists msg,
        filtered recipes query diet = Throw (TypeError msg)).
Proof.
  assert (Hthrow : existsb breaks_filter recipes = true ->
                   forall diet, exists msg,
                     filtered recipes query diet = Throw (TypeError msg)).
  { intros H diet. apply existsb_exists in H as [r [Hin Hr]].
    destruct (filterM_throws (keep (normal_query query) diet) recipes r Hin
                (keep_breaks _ _ _ Hr)) as [[msg] He].
    now exists msg. }
  split; [|exact Hthrow]. split; [intros H; apply Hthrow, H|].
  intros [msg Hmsg].
  destruct (existsb breaks_filter recipes) eqn:Hex; [reflexivity|].
  exfalso.
  assert (Hok : exists out, filtered recipes query "all" = Ok out).
  { apply filterM_reads. apply Forall_forall. intros r Hin.
    apply keep_all_reads.
    destruct (breaks_filter r) eqn:Hr; [|reflexivity].
    assert (existsb breaks_filter recipes = true)
      by (apply existsb_exists; now exists r).
    congruence. }
  destruct Hok as [out Hout]. congruence.
Qed.

(** * Further properties of the statistics *)

Lemma mapM_throws {A B} (f : A -> result B) (l : list A) (x : A) :
  In x l -> (exists e, f x = Throw e) -> exists e, mapM f l = Throw e.
Proof.
  intros Hin Hx. induction l as [|y l IH]; [contradiction|].
  simpl. destruct (f y) as [b|e] eqn:Hy; [|now exists e].
  destruct Hin as [->|Hin].
  - destruct Hx as [e He]. congruence.
  - destruct (IH Hin) as [e ->]. now exists e.
Qed.

Lemma mapM_reads {A B} (f : A -> result B) (l : list A) :
  Forall (fun x => exists y, f x = Ok y) l ->
  exists ys, mapM f l = Ok ys /\ List.length ys = List.length l.
Proof.
  induction 1 as [|x l [y Hx] _ [ys [IH Hlen]]]; simpl.
  - now exists [].
  - rewrite Hx, IH. exists (y :: ys). simpl. now rewrite Hlen.
Qed.

Lemma ToNumber_primitive (v : value) :
  is_primitive v = true -> exists n, ToNumber v = Ok n.
Proof.
  destruct v as [| |[|]|n|s|l|o]; try discriminate; intros _; now eexists.
Qed.

Lemma get_reads (r : value) (k : string) :
  nullish r = false -> get r k = Ok (get_opt r k).
Proof. destruct r; try discriminate; reflexivity. Qed.

Lemma cuisines_of_reads (rows : list value) :
  Forall (fun r => nullish r = false) rows ->
  cuisines_of rows =
  Ok (flat_map (fun r => match get_opt r "cuisines" with
                         | VArr items => items
                         | _ => []
                         end) rows).
Proof.
  induction 1 as [|r rows Hr _ IH]; simpl; [reflexivity|].
  now rewrite (get_reads _ _ Hr), IH.
Qed.

Lemma stats_reads_primitive_rows (rows : list value) :
  Forall (fun r => has_primitive_scores r = true) rows ->
  exists st, stats rows = Ok st /\ total st = List.length rows.
Proof.
  intros H. unfold stats, numbers_of.
  assert (Hn : Forall (fun r => nullish r = false) rows).
  { eapply Forall_impl; [|exact H]. intros r Hr. unfold has_primitive_scores in Hr.
    apply andb_prop in Hr as [Hr _]. apply andb_prop in Hr as [Hr _].
    now apply negb_true_iff. }
  destruct (mapM_reads
              (fun r => v <- get r "readyInMinutes" ;; ToNumber v) rows)
    as [ready [-> _]].
  { rewrite Forall_forall in *. intros r Hin.
    rewrite (get_reads _ _ (Hn r Hin)). cbn [bind].
    apply ToNumber_primitive. specialize (H r Hin).
    unfold has_primitive_scores in H.
    apply andb_prop in H as [H _]. now apply andb_prop in H as [_ H]. }
  destruct (mapM_reads
              (fun r => v <- get r "healthScore" ;; ToNumber v) rows)
    as [hs [-> _]].
  { rewrite Forall_forall in *. intros r Hin.
    rewrite (get_reads _ _ (Hn r Hin)). cbn [bind].
    apply ToNumber_primitive. specialize (H r Hin).
    unfold has_primitive_scores in H. now apply andb_prop in H as [_ H]. }
  rewrite (cuisines_of_reads _ Hn). cbn [bind]. eexists. split; reflexivity.
Qed.

(** X6: the statistics are computed for every list whose rows are not
    [null] or [undefined] and hold no array or object in [readyInMinutes]
    and [healthScore], and the total then counts every row; a [null] or
    [undefined] row anywhere makes the computation throw. *)
Theorem stats_reads_or_throws (rows : list value) :
  (Forall (fun r => has_primitive_scores r = true) rows ->
   exists st, stats rows = Ok st /\ total st = List.length rows)
  /\ (existsb nullish rows = true -> exists e, stats rows = Throw e).
Proof.
  split; [apply stats_reads_primitive_rows|].
  intros H. apply existsb_exists in H as [r [Hin Hr]]. unfold stats.
  destruct (mapM_throws
              (fun r => v <- get r "readyInMinutes" ;; ToNumber v) rows r Hin)
    as [e He].
  { destruct r; try discriminate; now eexists. }
  unfold numbers_of. rewrite He. now exists e.
Qed.

Lemma stats_reads_or_throws_witness :
  (exists st, stats Sample.with_nulls = Ok st
              /\ total st = List.length Sample.with_nulls)
  /\ exists e, stats [Sample.tacos; VNull] = Throw e.
Proof.
  split.
  - apply (proj1 (stats_reads_or_throws Sample.with_nulls)).
    repeat constructor.
  - apply (proj2 (stats_reads_or_throws [Sample.tacos; VNull])).
    reflexivity.
Defined.

(** *** Distinct cuisines *)

Lemma texts_of_VStr (l : list string) : texts_of (map VStr l) = l.
Proof. induction l as [|s l IH]; simpl; [reflexivity | now rewrite IH]. Qed.

Lemma named_items (items : list value) :
  forallb is_string items = true -> items = map VStr (texts_of items).
Proof.
  induction items as [|[| |b|n|s|l|o] items IH]; simpl; try discriminate;
    [reflexivity|].
  intros H. now rewrite <- IH.
Qed.

Lemma cuisines_of_named (rows : list value) :
  Forall (fun r => has_named_cuisines r = true) rows ->
  cuisines_of rows = Ok (map VStr (cuisine_names rows)).
Proof.
  unfold cuisine_names.
  induction 1 as [|r rows Hr _ IH]; simpl; [reflexivity|].
  destruct r as [| |b|n|s|l|props]; try discriminate. simpl in *.
  rewrite IH. cbn [bind]. rewrite map_app. f_equal. f_equal.
  destruct (lookup "cuisines" props) as [| |b|n|s|items|o]; try discriminate;
    try reflexivity.
  now apply named_items.
Qed.

Lemma set_add_texts (s : string) (seen : list string) :
  set_add (VStr s) (map VStr seen) =
  map VStr (if existsb (String.eqb s) seen then seen else seen ++ [s])%list.
Proof.
  induction seen as [|t seen IH]; simpl; [reflexivity|].
  rewrite (String.eqb_sym s t).
  destruct (t =? s); [reflexivity|].
  rewrite IH. now destruct (existsb (String.eqb s) seen).
Qed.

Lemma set_fold_texts (l seen : list string) :
  NoDup seen ->
  exists names,
    fold_left (fun acc x => set_add x acc) (map VStr l) (map VStr seen) =
    map VStr names
    /\ NoDup names
    /\ (forall s, In s names <-> In s seen \/ In s l).
Proof.
  revert seen. induction l as [|x l IH]; intros seen Hnd; simpl.
  - exists seen. split; [reflexivity|]. split; [assumption|]. tauto.
  - rewrite set_add_texts.
    destruct (existsb (String.eqb x) seen) eqn:Hex.
    + destruct (IH seen Hnd) as [names [H1 [H2 H3]]].
      exists names. split; [assumption|]. split; [assumption|].
      intros s. rewrite H3. apply existsb_exists in Hex as [y [Hy Hxy]].
      apply String.eqb_eq in Hxy. subst y.
      split; [tauto|]. intros [H|[<-|H]]; tauto.
    + assert (Hnot : ~ In x seen).
      { intros Hin. assert (existsb (String.eqb x) seen = true).
        { apply existsb_exists. exists x. split; [assumption|].
          apply String.eqb_refl. }
        congruence. }
      destruct (IH (seen ++ [x])%list) as [names [H1 [H2 H3]]].
      { apply NoDup_app; [assumption | repeat constructor; intros [] |].
        intros y Hy [<-|[]]. contradiction. }
      exists names. split; [assumption|]. split; [assumption|].
      intros s. rewrite H3, in_app_iff. simpl. tauto.
Qed.

Lemma filter_truthy_texts (l : list string) :
  filter truthy (map VStr l) = map VStr (filter (fun s => negb (s =? "")) l).
Proof.
  induction l as [|s l IH]; simpl; [reflexivity|].
  destruct (negb (s =? "")); simpl; now rewrite IH.
Qed.

(** X7: for rows whose cuisines are lists of names, the cuisine statistic
    is the number of different non-empty names over all rows (a name
    shared by several rows counts once, an empty name never), and the
    placeholder when there is none. *)
Theorem stats_counts_distinct_cuisine_names (rows : list value) :
  Forall (fun r => has_named_cuisines r = true) rows ->
  Forall (fun r => has_primitive_scores r = true) rows ->
  exists st names,
    stats rows = Ok st
    /\ NoDup names
    /\ (forall s, In s names <-> s <> "" /\ In s (cuisine_names rows))
    /\ cuisines st = match names with
                     | [] => dash
                     | _ => VNum (of_nat (List.length names))
                     end.
Proof.
  intros Hc Hp.
  destruct (stats_reads_primitive_rows rows Hp) as [st [Hst _]].
  destruct (set_fold_texts
              (filter (fun s => negb (s =? "")) (cuisine_names rows)) []
              (NoDup_nil _)) as [names [Hfold [Hnd Hin]]].
  exists st, names. split; [exact Hst|]. split; [exact Hnd|]. split.
  - intros s. rewrite Hin, filter_In, negb_true_iff, String.eqb_neq.
    simpl. tauto.
  - unfold stats in Hst.
    destruct (numbers_of "readyInMinutes" rows); [|discriminate].
    destruct (numbers_of "healthScore" rows); [|discriminate].
    rewrite (cuisines_of_named _ Hc) in Hst. cbn [bind] in Hst.
    injection Hst as <-. cbn [cuisines].
    unfold distinct_count, set_size, set_of.
    rewrite filter_truthy_texts. change (@nil value) with (map VStr []).
    rewrite Hfold, length_map. now destruct names.
Qed.

Lemma stats_counts_distinct_cuisine_names_witness :
  exists st names,
    stats Sample.search_response = Ok st
    /\ NoDup names
    /\ (forall s, In s names <->
                  s <> "" /\ In s (cuisine_names Sample.search_response))
    /\ cuisines st = match names with
                     | [] => dash
                     | _ => VNum (of_nat (List.length names))
                     end.
Proof.
  apply (stats_counts_distinct_cuisine_names Sample.search_response);
    repeat constructor.
Defined.

(** * The cells of a row *)

Lemma cell_is_dash (field : string) (r c : value) (v : value) (n : number) :
  get r field = Ok v -> ToNumber v = Ok n ->
  AppRow.cell field r = Ok c ->
  AppRow.is_dash c = negb (isFinite n).
Proof.
  unfold AppRow.cell. intros -> Hn. cbn [bind]. rewrite Hn. cbn [bind].
  intros [= <-]. destruct (isFinite n) eqn:Hf; [|reflexivity].
  destruct v as [| |b|x|s|l|o]; try reflexivity.
  unfold AppRow.is_dash, strict_eq_str.
  destruct (String.eqb_spec s "—") as [->|]; [|reflexivity].
  simpl in Hn. injection Hn as <-. discriminate Hf.
Qed.

(** X8: the list and the statistics agree on which rows have a ready time
    (or a health score): whenever the numbers of a field can be read, so
    can its cells, and the values averaged are as many as the rows whose
    cell does not show the placeholder. *)
Theorem cells_and_statistics_agree (field : string) (rows : list value)
    (ns : list number) :
  numbers_of field rows = Ok ns ->
  exists cells,
    mapM (AppRow.cell field) rows = Ok cells
    /\ List.length (filter isFinite ns) =
       List.length (filter (fun c => negb (AppRow.is_dash c)) cells).
Proof.
  unfold numbers_of. revert ns.
  induction rows as [|r rows IH]; intros ns H; simpl in *.
  - injection H as <-. now exists [].
  - destruct (get r field) as [v|] eqn:Hv; [|discriminate]. cbn [bind] in H.
    destruct (ToNumber v) as [n|] eqn:Hn; [|discriminate]. cbn [bind] in H.
    destruct (mapM (fun r0 => v0 <- get r0 field ;; ToNumber v0) rows)
      as [ns'|]; [|discriminate].
    injection H as <-. destruct (IH ns' eq_refl) as [cells [Hc Hlen]].
    assert (Hcell : AppRow.cell field r = Ok (if isFinite n then v else dash)).
    { unfold AppRow.cell. rewrite Hv. cbn [bind]. now rewrite Hn. }
    rewrite Hcell, Hc. cbn [bind]. eexists. split; [reflexivity|].
    simpl. rewrite (cell_is_dash field r _ v n Hv Hn Hcell).
    rewrite negb_involutive. destruct (isFinite n); simpl; now rewrite Hlen.
Qed.

Lemma cells_and_statistics_agree_witness :
  exists cells,
    mapM (AppRow.cell "readyInMinutes") Sample.with_nulls = Ok cells
    /\ List.length (filter isFinite [0%float; 30%float]) =
       List.length (filter (fun c => negb (AppRow.is_dash c)) cells).
Proof.
  apply (cells_and_statistics_agree "readyInMinutes" Sample.with_nulls
           [0%float; 30%float]).
  reflexivity.
Defined.

(** X9: the tag cell always shows something: the muted dash is among its
    children exactly when no tag is, whatever the three flags hold. *)
Theorem tags_cell_dash_iff_no_tag (r : value) (children : list AppRow.child) :
  AppRow.tags_cell r = Ok children ->
  (In AppRow.MutedDash children <->
   forall label, ~ In (AppRow.Tag label) children)
  /\ List.length children = 4%nat.
Proof.
  unfold AppRow.tags_cell.
  destruct (get r "vegetarian") as [a|]; [|discriminate].
  destruct (get r "vegan") as [b|]; [|discriminate].
  destruct (get r "glutenFree") as [c|]; [|discriminate].
  cbn [bind]. intros [= <-]. split; [|reflexivity].
  unfold AppRow.tag_if.
  destruct (truthy a), (truthy b), (truthy c); simpl; split; intros H;
    first
      [ solve [destruct H as [H|[H|[H|[H|[]]]]]; discriminate]
      | solve [intros label [H'|[H'|[H'|[H'|[]]]]]; discriminate]
      | solve [exfalso; apply (H "Vegetarian"); simpl; tauto]
      | solve [exfalso; apply (H "Vegan"); simpl; tauto]
      | solve [exfalso; apply (H "Gluten Free"); simpl; tauto]
      | solve [simpl; tauto] ].
Qed.

Lemma tags_cell_dash_iff_no_tag_witness :
  (In AppRow.MutedDash
      [AppRow.Plain VUndef; AppRow.Plain (VBool false); AppRow.Plain VUndef;
       AppRow.MutedDash] <->
   forall label,
     ~ In (AppRow.Tag label)
          [AppRow.Plain VUndef; AppRow.Plain (VBool false);
           AppRow.Plain VUndef; AppRow.MutedDash])
  /\ List.length
       [AppRow.Plain VUndef; AppRow.Plain (VBool false); AppRow.Plain VUndef;
        AppRow.MutedDash] = 4%nat.
Proof.
  apply (tags_cell_dash_iff_no_tag Sample.stew). reflexivity.
Defined.

(** X10: the tags shown and the diet filter.  On a recipe summary, a row
    that shows the tag of a diet selector passes that selector; the
    converse fails, because the cell reads the flags only: a row whose
    flags are not set but whose [diets] array holds the selector's tag
    passes the selector and shows the muted dash instead of a tag. *)
Theorem tags_shown_pass_the_selector (r : value) (diet label tag : string)
    (field : string) :
  is_recipe_summary r = true ->
  AppRow.selector_label diet = Some label ->
  selector_signals diet = Some (field, tag) ->
  exists children,
    AppRow.tags_cell r = Ok children
    /\ (In (AppRow.Tag label) children -> diet_predicate diet r = true)
    /\ (flag_is_true r "vegetarian" = false ->
        flag_is_true r "vegan" = false ->
        flag_is_true r "glutenFree" = false ->
        has_tag r tag = true ->
        diet_predicate diet r = true
        /\ In AppRow.MutedDash children
        /\ ~ In (AppRow.Tag label) children).
Proof.
  intros Hr Hl Hs.
  destruct r as [| |b|n|s|l|props]; try discriminate.
  simpl in Hr. apply andb_prop in Hr as [_ Hflags].
  apply andb_prop in Hflags as [Hv Hflags].
  apply andb_prop in Hflags as [Hvn Hflags].
  apply andb_prop in Hflags as [Hg _].
  unfold AppRow.tags_cell, AppRow.tag_if, diet_predicate, flag_is_true.
  simpl get. cbn [bind]. rewrite Hs. eexists. split; [reflexivity|].
  assert (Hdiet : diet = "vegetarian" \/ diet = "vegan" \/ diet = "glutenFree").
  { unfold AppRow.selector_label in Hl.
    destruct (String.eqb_spec diet "vegetarian"); [tauto|].
    destruct (String.eqb_spec diet "vegan"); [tauto|].
    destruct (String.eqb_spec diet "glutenFree"); [tauto | discriminate]. }
  destruct Hdiet as [ -> | [ -> | -> ] ];
    injection Hl as <-; injection Hs as <- <-; simpl get_opt;
    destruct (lookup "vegetarian" props) as [| |[|]|?|?|?|?];
    destruct (lookup "vegan" props) as [| |[|]|?|?|?|?];
    destruct (lookup "glutenFree" props) as [| |[|]|?|?|?|?];
    try discriminate; simpl;
    (split;
     [ intros H;
       first [ reflexivity
             | destruct H as [H|[H|[H|[H|[]]]]]; discriminate ]
     | intros H1 H2 H3 H4;
       first [ discriminate
             | split; [exact H4|];
               split; [tauto|];
               intros [H|[H|[H|[H|[]]]]]; discriminate ] ]).
Qed.

Lemma tags_shown_pass_the_selector_witness :
  exists children,
    AppRow.tags_cell Sample2.tagged_vegan = Ok children
    /\ (In (AppRow.Tag "Vegan") children ->
        diet_predicate "vegan" Sample2.tagged_vegan = true)
    /\ (flag_is_true Sample2.tagged_vegan "vegetarian" = false ->
        flag_is_true Sample2.tagged_vegan "vegan" = false ->
        flag_is_true Sample2.tagged_vegan "glutenFree" = false ->
        has_tag Sample2.tagged_vegan "vegan" = true ->
        diet_predicate "vegan" Sample2.tagged_vegan = true
        /\ In AppRow.MutedDash children
        /\ ~ In (AppRow.Tag "Vegan") children).
Proof.
  apply (tags_shown_pass_the_selector Sample2.tagged_vegan "vegan" "Vegan"
           "vegan" "vegan"); reflexivity.
Defined.

(** * Further properties of the nutrition series *)

Lemma or_else_truthy (u : value) (fallbackUnit : string) :
  fallbackUnit <> "" -> truthy (or_else u (VStr fallbackUnit)) = true.
Proof.
  intros H. unfold or_else. destruct (truthy u) eqn:Hu; [assumption|].
  simpl. apply String.eqb_neq in H. now rewrite H.
Qed.

Lemma find_primitive (nutrition : value) (name fallbackUnit : string) :
  has_primitive_amounts nutrition = true ->
  fallbackUnit <> "" ->
  exists f, find (nutrients_of nutrition) name fallbackUnit = Ok f
            /\ truthy (unit f) = true.
Proof.
  intros Hp Hfb. unfold has_primitive_amounts in Hp.
  rewrite forallb_forall in Hp.
  destruct (absent_or_first (nutrients_of nutrition) name) as [H | [e H]].
  - rewrite (find_absent _ _ _ H). eexists. split; [reflexivity|].
    simpl. apply String.eqb_neq in Hfb. now rewrite Hfb.
  - rewrite (find_present _ _ _ _ H).
    pose proof (Hp e (first_named_In _ _ _ H)) as He.
    pose proof H as [_ [_ [_ [Hname _]]]].
    unfold named in Hname. apply strict_eq_str_true in Hname.
    rewrite Hname in He. simpl in He.
    destruct (ToNumber_primitive _ He) as [a ->]. cbn [bind].
    eexists. split; [reflexivity|]. cbn [unit]. now apply or_else_truthy.
Qed.

(** X11: the bar series never lacks a bar or a unit: for every nutrition
    value whose named entries hold no array or object as amount (numbers,
    text, [null], nothing at all), it has the six bars of [BAR_KEYS], in
    that order, and every bar carries a unit that is not empty. *)
Theorem barData_always_six_bars_with_units (nutrition : value) :
  has_primitive_amounts nutrition = true ->
  exists items,
    barData nutrition = Ok items
    /\ map bar_name items = BAR_KEYS
    /\ Forall (fun item => truthy (bar_unit item) = true) items.
Proof.
  intros Hp. unfold barData.
  destruct (mapM_Forall2
              (fun k =>
                 f <- find (nutrients_of nutrition) k
                        (if k =? "Calories" then "kcal" else "g") ;;
                 Ok (mkBar k (amount f) (unit f)))
              (fun k item => bar_name item = k /\ truthy (bar_unit item) = true)
              BAR_KEYS) as [items [Hrun Hall]].
  - intros k _.
    destruct (find_primitive nutrition k
                (if k =? "Calories" then "kcal" else "g") Hp) as [f [Hf Hu]].
    { destruct (k =? "Calories"); discriminate. }
    rewrite Hf. cbn [bind]. eexists. now repeat split.
  - exists items. split; [exact Hrun|]. clear Hrun.
    induction Hall as [|k item ks items [Hn Hu] _ [IH1 IH2]].
    + split; [reflexivity | constructor].
    + split; [simpl; now rewrite Hn, IH1 | now constructor].
Qed.

Lemma barData_always_six_bars_with_units_witness :
  exists items,
    barData (VObj [("nutrients", VArr Sample.odd_amounts)]) = Ok items
    /\ map bar_name items = BAR_KEYS
    /\ Forall (fun item => truthy (bar_unit item) = true) items.
Proof.
  apply (barData_always_six_bars_with_units
           (VObj [("nutrients", VArr Sample.odd_amounts)])).
  reflexivity.
Defined.

(** X12: the two charts read the same amounts: whenever both series are
    built, the donut's three values are the amounts of the Protein, Fat
    and Carbohydrates bars times 4, 9 and 4. *)
Theorem donut_agrees_with_bars (nutrition : value) (slices : list Slice)
    (bars : list BarItem) :
  donutData nutrition = Ok slices ->
  barData nutrition = Ok bars ->
  exists calories protein fat carbs fiber sugar,
    map bar_amount bars = [calories; protein; fat; carbs; fiber; sugar]
    /\ slices = [ mkSlice "Protein" (protein * 4)%float;
                  mkSlice "Fat" (fat * 9)%float;
                  mkSlice "Carbs" (carbs * 4)%float ].
Proof.
  unfold donutData, barData, BAR_KEYS. cbn [mapM String.eqb Ascii.eqb Bool.eqb].
  intros Hd Hb.
  destruct (find (nutrients_of nutrition) "Calories" "kcal") as [fc|];
    [|discriminate].
  cbn [bind] in Hb.
  destruct (find (nutrients_of nutrition) "Protein" "g") as [fp|] eqn:Hp;
    [|discriminate].
  destruct (find (nutrients_of nutrition) "Fat" "g") as [ff|] eqn:Hf;
    [|discriminate].
  destruct (find (nutrients_of nutrition) "Carbohydrates" "g") as [fk|] eqn:Hk;
    [|discriminate].
  cbn [bind] in Hd, Hb.
  destruct (find (nutrients_of nutrition) "Fiber" "g") as [fi|];
    [|discriminate].
  destruct (find (nutrients_of nutrition) "Sugar" "g") as [fs|];
    [|discriminate].
  cbn [bind] in Hb. injection Hd as <-. injection Hb as <-.
  now exists (amount fc), (amount fp), (amount ff), (amount fk), (amount fi),
    (amount fs).
Qed.

Lemma donut_agrees_with_bars_witness :
  exists calories protein fat carbs fiber sugar,
    map bar_amount
      [ mkBar "Calories" 0%float (VStr "kcal");
        mkBar "Protein" 10%float (VStr "g");
        mkBar "Fat" 5%float (VStr "g");
        mkBar "Carbohydrates" 20%float (VStr "g");
        mkBar "Fiber" 0%float (VStr "g");
        mkBar "Sugar" 0%float (VStr "g") ]
    = [calories; protein; fat; carbs; fiber; sugar]
    /\ [ mkSlice "Protein" 40%float; mkSlice "Fat" 45%float;
         mkSlice "Carbs" 80%float ]
       = [ mkSlice "Protein" (protein * 4)%float;
           mkSlice "Fat" (fat * 9)%float;
           mkSlice "Carbs" (carbs * 4)%float ].
Proof.
  apply (donut_agrees_with_bars Sample.macros); reflexivity.
Defined.

(** * Further properties of the text helper *)

Lemma stripHtml_token_text (s : string) :
  RecipeDetail.stripHtml (VStr s) =
  Ok (DOM.token_text (DOM.tokenize DOM.Data (DOM.normalize_newlines s))).
Proof.
  rewrite stripHtml_string, textContent_Element. unfold DOM.parse_fragment.
  now rewrite text_of_build.
Qed.

Lemma no_cr_app (a b : string) : no_cr (a ++ b) = no_cr a && no_cr b.
Proof.
  induction a as [|c a IH]; simpl; [reflexivity|].
  now rewrite IH, andb_assoc.
Qed.

Lemma normalize_newlines_no_cr (s : string) :
  no_cr s = true -> DOM.normalize_newlines s = s.
Proof.
  induction s as [|c s IH]; simpl; [reflexivity|].
  intros H. apply andb_prop in H as [Hc Hs].
  apply negb_true_iff in Hc. rewrite Hc. now rewrite IH.
Qed.

Lemma plain_no_cr (s : string) : DOM.is_plain s = true -> no_cr s = true.
Proof.
  induction s as [|c s IH]; simpl; [reflexivity|].
  intros H. apply andb_prop in H as [Hc Hs].
  apply negb_true_iff in Hc. apply orb_false_iff in Hc as [_ Hc].
  now rewrite Hc, IH.
Qed.

Lemma alpha_no_cr (s : string) : all_alpha s = true -> no_cr s = true.
Proof.
  induction s as [|c s IH]; simpl; [reflexivity|].
  intros H. apply andb_prop in H as [Hc Hs]. rewrite (IH Hs), andb_true_r.
  revert Hc. destruct c as [[] [] [] [] [] [] [] []]; try discriminate;
    reflexivity.
Qed.

Lemma token_text_app (t1 t2 : list DOM.token) :
  DOM.token_text (t1 ++ t2)%list = DOM.token_text t1 ++ DOM.token_text t2.
Proof.
  induction t1 as [|[c|n|n|] t1 IH]; simpl; try assumption;
    [reflexivity | now rewrite IH].
Qed.

Lemma tokenize_plain_app (a rest : string) :
  DOM.is_plain a = true ->
  DOM.token_text (DOM.tokenize DOM.Data (a ++ rest)) =
  a ++ DOM.token_text (DOM.tokenize DOM.Data rest).
Proof.
  induction a as [|c a IH]; [reflexivity|].
  intros H. simpl in H. apply andb_prop in H as [Hc Hs].
  apply negb_true_iff in Hc. apply orb_false_iff in Hc as [Hc _].
  apply orb_false_iff in Hc as [Hlt Hamp].
  cbn [append DOM.tokenize]. rewrite Hlt, Hamp. simpl. now rewrite IH.
Qed.

Lemma alpha_in_tag_name (c : ascii) :
  DOM.is_alpha c = true ->
  DOM.is_html_space c = false /\ (c =? "/")%char = false
  /\ (c =? ">")%char = false.
Proof.
  destruct c as [[] [] [] [] [] [] [] []]; try discriminate; now repeat split.
Qed.

Lemma tokenize_tag_name (closing : bool) (acc name rest : string) :
  all_alpha name = true ->
  exists full,
    DOM.tokenize (DOM.TagName closing acc) (name ++ String ">" rest) =
    DOM.tag_token closing full :: DOM.tokenize DOM.Data rest.
Proof.
  revert acc. induction name as [|c name IH]; intros acc H.
  - exists acc. reflexivity.
  - simpl in H. apply andb_prop in H as [Hc Hn].
    destruct (alpha_in_tag_name c Hc) as [H1 [H2 H3]].
    destruct (IH (DOM.snoc acc c) Hn) as [full Hfull].
    exists full. cbn [append DOM.tokenize]. rewrite H1, H2, H3. exact Hfull.
Qed.

Lemma tokenize_start_tag (name rest : string) :
  all_alpha name = true -> name <> "" ->
  exists full,
    DOM.tokenize DOM.Data (String "<" (name ++ String ">" rest)) =
    DOM.TStart full :: DOM.tokenize DOM.Data rest.
Proof.
  intros H Hne. destruct name as [|c name]; [congruence|].
  simpl in H. apply andb_prop in H as [Hc Hn].
  destruct (tokenize_tag_name false (DOM.snoc "" c) name rest Hn)
    as [full Hfull].
  exists full. cbn [DOM.tag_token] in Hfull. rewrite <- Hfull. clear Hfull.
  revert Hc. destruct c as [[] [] [] [] [] [] [] []]; try discriminate;
    reflexivity.
Qed.

Lemma tokenize_end_tag (name rest : string) :
  all_alpha name = true -> name <> "" ->
  exists full,
    DOM.tokenize DOM.Data (String "<" (String "/" (name ++ String ">" rest))) =
    DOM.TEnd full :: DOM.tokenize DOM.Data rest.
Proof.
  intros H Hne. destruct name as [|c name]; [congruence|].
  simpl in H. apply andb_prop in H as [Hc Hn].
  destruct (tokenize_tag_name true (DOM.snoc "" c) name rest Hn)
    as [full Hfull].
  exists full. cbn [DOM.tag_token] in Hfull. rewrite <- Hfull.
  cbn [append DOM.tokenize].
  change (("<" =? "<")%char) with true. cbv iota. now rewrite Hc.
Qed.

Lemma plain_text_plain (s : string) :
  plain_text s = true -> DOM.is_plain s = true.
Proof. unfold plain_text. intros H. now apply andb_prop in H. Qed.

(** X13: tags are stripped and text is kept: plain text around and inside
    an element comes back as it is, the opening and closing tags gone,
    for every ordinary element with a name made of letters. *)
Theorem stripHtml_drops_tags_around_text (before inside after name : string) :
  plain_text before = true -> plain_text inside = true ->
  plain_text after = true ->
  all_alpha name = true -> name <> "" -> generic_tag name = true ->
  RecipeDetail.stripHtml
    (VStr (before ++ "<" ++ name ++ ">" ++ inside
           ++ "</" ++ name ++ ">" ++ after)) =
  Ok (before ++ inside ++ after).
Proof.
  intros Hb Hi Ha Hn Hne _.
  apply plain_text_plain in Hb, Hi, Ha.
  rewrite stripHtml_token_text. f_equal. rewrite normalize_newlines_no_cr.
  - rewrite (tokenize_plain_app _ _ Hb). f_equal.
    destruct (tokenize_start_tag name
                (inside ++ "</" ++ name ++ ">" ++ after) Hn Hne) as [t1 H1].
    cbn [append] in *. rewrite H1. cbn [DOM.token_text].
    rewrite (tokenize_plain_app _ _ Hi). f_equal.
    destruct (tokenize_end_tag name after Hn Hne) as [t2 H2].
    cbn [append] in *. rewrite H2. cbn [DOM.token_text].
    now apply tokenize_plain.
  - rewrite !no_cr_app, (plain_no_cr _ Hb), (plain_no_cr _ Hi),
      (plain_no_cr _ Ha), (alpha_no_cr _ Hn). reflexivity.
Qed.

Lemma stripHtml_drops_tags_around_text_witness :
  RecipeDetail.stripHtml (VStr "Serve <em>warm</em> with rice.") =
  Ok "Serve warm with rice.".
Proof.
  apply (stripHtml_drops_tags_around_text
           "Serve " "warm" " with rice." "em");
    first [ reflexivity | discriminate ].
Defined.

Lemma lacks_dquote_step (c : ascii) (v : string) :
  lacks DOM.dquote (String c v) = true ->
  (c =? DOM.dquote)%char = false /\ lacks DOM.dquote v = true.
Proof.
  simpl. intros H. apply andb_prop in H as [Hc Hv].
  now apply negb_true_iff in Hc.
Qed.

Lemma tokenize_quoted_value (closing : bool) (nm v rest : string) :
  lacks DOM.dquote v = true ->
  DOM.tokenize (DOM.ValueDouble closing nm) (v ++ String DOM.dquote rest) =
  DOM.tokenize (DOM.BeforeAttrName closing nm) rest.
Proof.
  induction v as [|c v IH]; intros H.
  - reflexivity.
  - apply lacks_dquote_step in H as [Hc Hv].
    cbn [append DOM.tokenize]. rewrite Hc. now apply IH.
Qed.

Lemma alpha_in_attr_name (c : ascii) :
  DOM.is_alpha c = true -> (c =? "=")%char = false.
Proof.
  destruct c as [[] [] [] [] [] [] [] []]; try discriminate; reflexivity.
Qed.

Lemma tokenize_attr_name (closing : bool) (nm attr rest : string) :
  all_alpha attr = true ->
  DOM.tokenize (DOM.AttrName closing nm) (attr ++ String "=" rest) =
  DOM.tokenize (DOM.BeforeAttrValue closing nm) rest.
Proof.
  induction attr as [|c attr IH]; intros H.
  - reflexivity.
  - simpl in H. apply andb_prop in H as [Hc Ha].
    destruct (alpha_in_tag_name c Hc) as [H1 [H2 H3]].
    cbn [append DOM.tokenize].
    rewrite H1, H2, H3, (alpha_in_attr_name c Hc). now apply IH.
Qed.

Lemma tokenize_tag_name_then_space (closing : bool) (acc name rest : string) :
  all_alpha name = true ->
  exists full,
    DOM.tokenize (DOM.TagName closing acc) (name ++ String " " rest) =
    DOM.tokenize (DOM.BeforeAttrName closing full) rest.
Proof.
  revert acc. induction name as [|c name IH]; intros acc H.
  - exists acc. reflexivity.
  - simpl in H. apply andb_prop in H as [Hc Hn].
    destruct (alpha_in_tag_name c Hc) as [H1 [H2 H3]].
    destruct (IH (DOM.snoc acc c) Hn) as [full Hfull].
    exists full. cbn [append DOM.tokenize]. rewrite H1, H2, H3. exact Hfull.
Qed.

Lemma tokenize_start_tag_with_attribute (name attr v rest : string) :
  all_alpha name = true -> name <> "" ->
  all_alpha attr = true -> attr <> "" ->
  lacks DOM.dquote v = true ->
  exists full,
    DOM.tokenize DOM.Data
      (String "<" (name ++ String " " (attr ++ String "="
         (String DOM.dquote (v ++ String DOM.dquote (String ">" rest)))))) =
    DOM.TStart full :: DOM.tokenize DOM.Data rest.
Proof.
  intros Hn Hne Ha Hae Hv.
  destruct name as [|c name]; [congruence|].
  destruct attr as [|a attr]; [congruence|].
  simpl in Hn. apply andb_prop in Hn as [Hc Hn].
  simpl in Ha. apply andb_prop in Ha as [Hac Ha].
  destruct (tokenize_tag_name_then_space false (DOM.snoc "" c) name
              (String a (attr ++ String "="
                 (String DOM.dquote (v ++ String DOM.dquote (String ">" rest)))))
              Hn) as [full Hfull].
  exists full.
  transitivity (DOM.tokenize (DOM.TagName false (DOM.snoc "" c))
                  (name ++ String " " (String a (attr ++ String "="
                     (String DOM.dquote
                        (v ++ String DOM.dquote (String ">" rest))))))).
  { clear Hfull. revert Hc.
    destruct c as [[] [] [] [] [] [] [] []]; try discriminate; reflexivity. }
  rewrite Hfull. destruct (alpha_in_tag_name a Hac) as [H1 [H2 H3]].
  cbn [DOM.tokenize]. rewrite H1, H2, H3. cbn [orb].
  rewrite (tokenize_attr_name _ _ _ _ Ha).
  cbn [DOM.tokenize].
  change (DOM.is_html_space DOM.dquote) with false.
  rewrite Ascii.eqb_refl. cbv iota.
  rewrite (tokenize_quoted_value _ _ _ _ Hv). reflexivity.
Qed.

(** X14: what an attribute holds never reaches the text: for a link such
    as [<a href=...>] with its address in double quotes, only the text
    around and inside the element comes back, whatever the address holds
    ([<], [>] and [&] included) short of a double quote. *)
Theorem stripHtml_drops_attribute_values
    (before inside after name attr v : string) :
  plain_text before = true -> plain_text inside = true ->
  plain_text after = true ->
  all_alpha name = true -> name <> "" -> generic_tag name = true ->
  all_alpha attr = true -> attr <> "" ->
  lacks DOM.dquote v = true -> no_cr v = true ->
  RecipeDetail.stripHtml
    (VStr (before ++ "<" ++ name ++ " " ++ attr ++ "="
           ++ String DOM.dquote (v ++ String DOM.dquote
                (">" ++ inside ++ "</" ++ name ++ ">" ++ after)))) =
  Ok (before ++ inside ++ after).
Proof.
  intros Hb Hi Ha Hn Hne _ Hat Hate Hv Hcr.
  apply plain_text_plain in Hb, Hi, Ha.
  rewrite stripHtml_token_text. f_equal. rewrite normalize_newlines_no_cr.
  - rewrite (tokenize_plain_app _ _ Hb). f_equal.
    destruct (tokenize_start_tag_with_attribute name attr v
                (inside ++ "</" ++ name ++ ">" ++ after)
                Hn Hne Hat Hate Hv) as [t1 H1].
    cbn [append] in *. rewrite H1. cbn [DOM.token_text].
    rewrite (tokenize_plain_app _ _ Hi). f_equal.
    destruct (tokenize_end_tag name after Hn Hne) as [t2 H2].
    cbn [append] in *. rewrite H2. cbn [DOM.token_text].
    now apply tokenize_plain.
  - rewrite !no_cr_app. cbn [no_cr]. rewrite !no_cr_app. cbn [no_cr].
    rewrite !no_cr_app.
    rewrite (plain_no_cr _ Hb), (plain_no_cr _ Hi), (plain_no_cr _ Ha),
      (alpha_no_cr _ Hn), (alpha_no_cr _ Hat), Hcr. reflexivity.
Qed.

Lemma stripHtml_drops_attribute_values_witness :
  RecipeDetail.stripHtml
    (VStr ("See " ++ "<" ++ "a" ++ " " ++ "href" ++ "="
           ++ String DOM.dquote ("https://x.test/?a=1&b=<2>"
                ++ String DOM.dquote
                     (">" ++ "the recipe" ++ "</" ++ "a" ++ ">" ++ ".")))) =
  Ok ("See " ++ "the recipe" ++ ".").
Proof.
  apply (stripHtml_drops_attribute_values
           "See " "the recipe" "." "a" "href" "https://x.test/?a=1&b=<2>");
    first [ reflexivity | discriminate ].
Defined.

Lemma no_cr_escape (s : string) : no_cr s = true -> no_cr (escape s) = true.
Proof.
  induction s as [|c s IH]; [reflexivity|].
  cbn [no_cr escape]. intros H. apply andb_prop in H as [Hc Hs].
  rewrite no_cr_app, (IH Hs), andb_true_r.
  destruct (c =? "&")%char; [reflexivity|].
  destruct (c =? "<")%char; [reflexivity|].
  cbn [no_cr]. now rewrite Hc.
Qed.

Lemma tokenize_escape (s : string) :
  DOM.token_text (DOM.tokenize DOM.Data (escape s)) = s.
Proof.
  induction s as [|c s IH]; [reflexivity|].
  cbn [escape].
  destruct (c =? "&")%char eqn:Hamp.
  - apply Ascii.eqb_eq in Hamp. subst c. cbn. now rewrite IH.
  - destruct (c =? "<")%char eqn:Hlt.
    + apply Ascii.eqb_eq in Hlt. subst c. cbn. now rewrite IH.
    + cbn [append DOM.tokenize]. rewrite Hlt, Hamp. cbn [DOM.token_text].
      now rewrite IH.
Qed.

(** X15: escaping is undone exactly: text whose [&] and [<] are written as
    the character references [&amp;] and [&lt;] comes back from
    [stripHtml] as the original text, so escaped markup is shown, not
    interpreted. *)
Theorem stripHtml_undoes_escaping (s : string) :
  kept_text s = true ->
  RecipeDetail.stripHtml (VStr (escape s)) = Ok s.
Proof.
  intros H. unfold kept_text in H. apply andb_prop in H as [Hcr _].
  rewrite stripHtml_token_text, (normalize_newlines_no_cr _ (no_cr_escape _ Hcr)).
  now rewrite tokenize_escape.
Qed.

Lemma stripHtml_undoes_escaping_witness :
  escape "Salt & <b>pepper</b>" = "Salt &amp; &lt;b>pepper&lt;/b>"
  /\ RecipeDetail.stripHtml (VStr "Salt &amp; &lt;b>pepper&lt;/b>") =
     Ok "Salt & <b>pepper</b>".
Proof.
  split; [reflexivity|].
  apply (stripHtml_undoes_escaping "Salt & <b>pepper</b>"). reflexivity.
Defined.

(** * The text helper on markup *)




























(** * Loading the list *)

(** X16: however the request goes, the list effect ends with the loading
    flag off and has sent at most one request; it leaves either no error,
    or an error text together with the rows that were there before; and
    nothing of the previous error or loading flag survives it. *)
Theorem load_settles (API_KEY : option string)
    (fetch : string -> settled Response) (st : AppLoad.State) :
  AppLoad.loading (fst (AppLoad.load API_KEY fetch st)) = false
  /\ (List.length (snd (AppLoad.load API_KEY fetch st)) <= 1)%nat
  /\ (AppLoad.error (fst (AppLoad.load API_KEY fetch st)) = VNull
      \/ exists msg,
           AppLoad.error (fst (AppLoad.load API_KEY fetch st)) = VStr msg
           /\ AppLoad.recipes (fst (AppLoad.load API_KEY fetch st)) =
              AppLoad.recipes st)
  /\ (forall l e,
        AppLoad.load API_KEY fetch (AppLoad.mkState (AppLoad.recipes st) l e) =
        AppLoad.load API_KEY fetch st).
Proof.
  unfold AppLoad.load, AppLoad.try_load.
  destruct API_KEY as [key|]; [destruct (key =? "")|];
    try (destruct (fetch (AppLoad.search_url key)) as [res|e];
         [destruct (res_ok res);
          [destruct (res_json res) as [json|e];
           [destruct (get json "results") as [results|[msg]]|]|]|]);
    try (destruct (err_name e =? "AbortError") eqn:Hname);
    cbn; try rewrite Hname; cbn;
    (split; [reflexivity|]); (split; [lia|]);
    (split; [|intros l e'; reflexivity]);
    first [ now left | right; eexists; split; reflexivity ].
Qed.

(** X17: without a key nothing is sent: the effect sends no request
    exactly when the key is undefined or empty, and then reports the
    missing key and keeps the rows; with a key it sends one request, to
    the search address built from that key. *)
Theorem load_needs_key (API_KEY : option string)
    (fetch : string -> settled Response) (st : AppLoad.State) :
  (snd (AppLoad.load API_KEY fetch st) = []
   <-> API_KEY = None \/ API_KEY = Some "")
  /\ (snd (AppLoad.load API_KEY fetch st) = [] ->
      fst (AppLoad.load API_KEY fetch st) =
      AppLoad.mkState (AppLoad.recipes st) false
        (VStr AppLoad.missing_key_message))
  /\ (forall key, API_KEY = Some key -> key <> "" ->
      snd (AppLoad.load API_KEY fetch st) = [AppLoad.search_url key]).
Proof.
  unfold AppLoad.load, AppLoad.try_load.
  destruct API_KEY as [key|].
  - destruct (String.eqb_spec key "") as [->|Hne].
    + cbn. repeat split; auto. intros key [= <-] H. congruence.
    + destruct (match fetch (AppLoad.search_url key) with
                | Fulfilled res => _
                | Rejected e => _
                end) as [rows|e]; cbn.
      * repeat split; try discriminate.
        -- intros [H|[= H]]; [discriminate | congruence].
        -- now intros k [= <-] _.
      * repeat split; try discriminate.
        -- intros [H|[= H]]; [discriminate | congruence].
        -- now intros k [= <-] _.
  - cbn. repeat split; auto. intros key [=].
Qed.

(** X18: an aborted request is silent: when the request, or the reading of
    its body, is rejected with an [AbortError], the effect reports no
    error and keeps the rows, and the page shows the dashboard over those
    rows with the loading message gone. *)
Theorem load_abort_is_silent (key : string)
    (fetch : string -> settled Response) (st : AppLoad.State) (e : thrown) :
  key <> "" ->
  err_name e = "AbortError" ->
  (fetch (AppLoad.search_url key) = Rejected e
   \/ exists res, fetch (AppLoad.search_url key) = Fulfilled res
                  /\ res_ok res = true /\ res_json res = Rejected e) ->
  fst (AppLoad.load (Some key) fetch st) =
    AppLoad.mkState (AppLoad.recipes st) false VNull
  /\ AppLoad.render (fst (AppLoad.load (Some key) fetch st)) =
     AppLoad.ShowDashboard (AppLoad.recipes st).
Proof.
  intros Hkey Hname Hfetch.
  assert (Hst : fst (AppLoad.load (Some key) fetch st) =
                AppLoad.mkState (AppLoad.recipes st) false VNull).
  { unfold AppLoad.load, AppLoad.try_load.
    apply String.eqb_neq in Hkey. rewrite Hkey.
    destruct Hfetch as [->|[res [-> [Hok ->]]]]; [|rewrite Hok]; cbn;
      now rewrite Hname. }
  split; [exact Hst|]. now rewrite Hst.
Qed.

Lemma load_abort_is_silent_witness :
  fst (AppLoad.load (Some "k") (fun _ => Rejected Sample2.aborted)
         (AppLoad.mkState Sample.search_response true (VStr "HTTP 500"))) =
    AppLoad.mkState Sample.search_response false VNull
  /\ AppLoad.render
       (fst (AppLoad.load (Some "k") (fun _ => Rejected Sample2.aborted)
               (AppLoad.mkState Sample.search_response true
                  (VStr "HTTP 500")))) =
     AppLoad.ShowDashboard Sample.search_response.
Proof.
  apply (load_abort_is_silent "k" (fun _ => Rejected Sample2.aborted)
           (AppLoad.mkState Sample.search_response true (VStr "HTTP 500"))
           Sample2.aborted);
    [discriminate | reflexivity | now left].
Defined.

(** X19: the body is read only from a successful response.  When the
    response is not [ok] the effect reports [HTTP] and the status and
    keeps the rows, whatever the body is; when it is [ok] and its body is
    any JSON value but [null], the rows become the body's [results] if
    that is a list and the empty list otherwise, with no error. *)
Theorem load_reads_body_only_when_ok (key : string)
    (fetch : string -> settled Response) (st : AppLoad.State)
    (res : Response) :
  key <> "" ->
  fetch (AppLoad.search_url key) = Fulfilled res ->
  (res_ok res = false ->
   fst (AppLoad.load (Some key) fetch st) =
   AppLoad.mkState (AppLoad.recipes st) false
     (VStr ("HTTP " ++ NumberToString (res_status res))))
  /\ (forall json,
        res_ok res = true -> res_json res = Fulfilled json ->
        nullish json = false ->
        fst (AppLoad.load (Some key) fetch st) =
        AppLoad.mkState
          (match get_opt json "results" with
           | VArr items => items
           | _ => []
           end) false VNull).
Proof.
  intros Hkey Hfetch. apply String.eqb_neq in Hkey.
  unfold AppLoad.load, AppLoad.try_load. rewrite Hkey, Hfetch. split.
  - intros ->. reflexivity.
  - intros json -> -> Hjson. cbn. now rewrite (get_reads _ _ Hjson).
Qed.

Lemma load_reads_body_only_when_ok_witness :
  (res_ok (mkResponse false 404%float (Fulfilled VNull)) = false ->
   fst (AppLoad.load (Some "k")
          (fun _ => Fulfilled (mkResponse false 404%float (Fulfilled VNull)))
          (AppLoad.mkState [] true VNull)) =
   AppLoad.mkState [] false (VStr "HTTP 404"))
  /\ fst (AppLoad.load (Some "k")
            (fun _ => Fulfilled
                        (Sample2.ok_response
                           (VObj [("results", VArr Sample.search_response)])))
            (AppLoad.mkState [] true VNull)) =
     AppLoad.mkState Sample.search_response false VNull.
Proof.
  split.
  - apply (load_reads_body_only_when_ok "k"
             (fun _ => Fulfilled (mkResponse false 404%float (Fulfilled VNull)))
             (AppLoad.mkState [] true VNull)
             (mkResponse false 404%float (Fulfilled VNull)));
      [discriminate | reflexivity].
  - apply (proj2 (load_reads_body_only_when_ok "k"
                    (fun _ => Fulfilled
                       (Sample2.ok_response
                          (VObj [("results", VArr Sample.search_response)])))
                    (AppLoad.mkState [] true VNull)
                    (Sample2.ok_response
                       (VObj [("results", VArr Sample.search_response)]))
                    ltac:(discriminate) eq_refl)
             (VObj [("results", VArr Sample.search_response)]));
      reflexivity.
Defined.

(** * The request addresses *)

Lemma lacks_app (c : ascii) (a b : string) :
  lacks c (a ++ b) = lacks c a && lacks c b.
Proof.
  induction a as [|d a IH]; simpl; [reflexivity|].
  now rewrite IH, andb_assoc.
Qed.

Lemma form_encode_byte_lacks (c d : ascii) :
  is_form_safe c = false -> (c =? "+")%char = false ->
  (c =? "%")%char = false ->
  lacks c (form_encode_byte d) = true.
Proof.
  intros Hs Hp Hq.
  assert (Hd : forall x, is_form_safe x = true -> (x =? c)%char = false).
  { intros x Hx. destruct (Ascii.eqb_spec x c) as [->|]; congruence. }
  assert (Hhex : forall n, (n < 16)%nat ->
                           is_form_safe (hex_digit n) = true).
  { intros n Hn. do 16 (destruct n as [|n]; [reflexivity|]). lia. }
  unfold form_encode_byte.
  destruct (is_form_safe d) eqn:Hsafe.
  - cbn [lacks]. now rewrite (Hd d Hsafe).
  - destruct (nat_of_ascii d =? 32)%nat.
    + cbn [lacks]. rewrite Ascii.eqb_sym, Hp. reflexivity.
    + assert (H1 : (nat_of_ascii d / 16 < 16)%nat).
      { apply Nat.Div0.div_lt_upper_bound.
        pose proof (nat_ascii_bounded d). lia. }
      assert (H2 : (nat_of_ascii d mod 16 < 16)%nat)
        by (apply Nat.mod_upper_bound; lia).
      cbn [lacks]. rewrite (Ascii.eqb_sym "%" c), Hq.
      now rewrite (Hd _ (Hhex _ H1)), (Hd _ (Hhex _ H2)).
Qed.

Lemma form_encode_lacks (c : ascii) (s : string) :
  is_form_safe c = false -> (c =? "+")%char = false ->
  (c =? "%")%char = false ->
  lacks c (form_encode s) = true.
Proof.
  intros Hs Hp Hq. induction s as [|d s IH]; [reflexivity|].
  cbn [form_encode]. now rewrite lacks_app, form_encode_byte_lacks, IH.
Qed.

Lemma split_on_lacks (sep : ascii) (a : string) :
  lacks sep a = true -> split_on sep a = [a].
Proof.
  induction a as [|c a IH]; [reflexivity|].
  cbn [lacks split_on]. intros H. apply andb_prop in H as [Hc Ha].
  apply negb_true_iff in Hc. now rewrite Hc, (IH Ha).
Qed.

Lemma split_on_app (sep : ascii) (a b : string) :
  lacks sep a = true ->
  split_on sep (a ++ String sep b) = a :: split_on sep b.
Proof.
  induction a as [|c a IH].
  - intros _. cbn [append split_on]. now rewrite Ascii.eqb_refl.
  - cbn [lacks append split_on]. intros H. apply andb_prop in H as [Hc Ha].
    apply negb_true_iff in Hc. now rewrite Hc, (IH Ha).
Qed.

(** X20: whatever the key holds, the search request carries exactly the
    four parameters of the code: the serialized key has no [&], [=], [#],
    [?] or space in it, so splitting the query at [&] gives the key and
    the three fixed settings and nothing else. *)
Theorem search_url_has_four_parameters (key : string) :
  AppLoad.search_url key =
    AppLoad.API_BASE ++ "/recipes/complexSearch?" ++ "apiKey="
    ++ form_encode key
    ++ "&number=50&sort=popularity&addRecipeInformation=true"
  /\ split_on "&"
       ("apiKey=" ++ form_encode key
        ++ "&number=50&sort=popularity&addRecipeInformation=true") =
     ["apiKey=" ++ form_encode key; "number=50"; "sort=popularity";
      "addRecipeInformation=true"]
  /\ lacks "&" (form_encode key) = true
  /\ lacks "=" (form_encode key) = true
  /\ lacks "#" (form_encode key) = true
  /\ lacks "?" (form_encode key) = true
  /\ lacks " " (form_encode key) = true.
Proof.
  split; [reflexivity|].
  split; [|repeat split; now apply form_encode_lacks].
  change ("apiKey=" ++ form_encode key
          ++ "&number=50&sort=popularity&addRecipeInformation=true")
    with (("apiKey=" ++ form_encode key)
          ++ String "&" "number=50&sort=popularity&addRecipeInformation=true").
  rewrite split_on_app; [reflexivity|].
  rewrite lacks_app. now rewrite form_encode_lacks.
Qed.

Lemma form_encode_safe (s : string) :
  all_form_safe s = true -> form_encode s = s.
Proof.
  induction s as [|c s IH]; [reflexivity|].
  cbn [all_form_safe form_encode]. intros H. apply andb_prop in H as [Hc Hs].
  unfold form_encode_byte. now rewrite Hc, (IH Hs).
Qed.

Lemma form_encode_length (s : string) :
  (String.length s <= String.length (form_encode s))%nat.
Proof.
  induction s as [|c s IH]; [apply Nat.le_refl|].
  cbn [form_encode]. unfold form_encode_byte.
  destruct (is_form_safe c); [|destruct (nat_of_ascii c =? 32)%nat];
    simpl; lia.
Qed.

Lemma form_encode_fixed (s : string) :
  form_encode s = s -> all_form_safe s = true.
Proof.
  induction s as [|c s IH]; [reflexivity|].
  cbn [all_form_safe form_encode]. unfold form_encode_byte.
  destruct (is_form_safe c) eqn:Hc.
  - intros [= H]. now rewrite (IH H).
  - destruct (nat_of_ascii c =? 32)%nat eqn:Hsp.
    + intros [= <- _]. discriminate Hsp.
    + intros [= _ H]. pose proof (form_encode_length s) as Hlen.
      rewrite <- H in Hlen at 1. simpl in Hlen. lia.
Qed.

Lemma str_app_inv_head (a x y : string) : a ++ x = a ++ y -> x = y.
Proof.
  induction a as [|c a IH]; [trivial|]. intros [= H]. now apply IH.
Qed.

Lemma str_app_length (a b : string) :
  String.length (a ++ b) = (String.length a + String.length b)%nat.
Proof. induction a as [|c a IH]; simpl; [reflexivity | now rewrite IH]. Qed.

Lemma str_app_inv_tail (x y b : string) : x ++ b = y ++ b -> x = y.
Proof.
  revert y. induction x as [|c x IH]; intros [|d y] H.
  - reflexivity.
  - apply (f_equal String.length) in H. simpl in H.
    rewrite str_app_length in H. lia.
  - apply (f_equal String.length) in H. simpl in H.
    rewrite str_app_length in H. lia.
  - injection H as -> H. now rewrite (IH _ H).
Qed.

(** X21: the detail request pastes the key into the address as it is.  The
    address is the one a serialized query would give exactly when the key
    is made of letters, digits and [*], [-], [.], [_] only. *)
Theorem detail_url_is_serialized_iff_key_is_safe (key id : string) :
  DetailLoad.detail_url key id =
    AppLoad.API_BASE ++ "/recipes/" ++ id ++ "/information?"
    ++ params_toString [("apiKey", key); ("includeNutrition", "true")]
  <-> all_form_safe key = true.
Proof.
  unfold DetailLoad.detail_url.
  change (params_toString [("apiKey", key); ("includeNutrition", "true")])
    with ("apiKey=" ++ form_encode key ++ "&includeNutrition=true").
  change ("/information?apiKey=" ++ key ++ "&includeNutrition=true")
    with ("/information?" ++ "apiKey=" ++ key ++ "&includeNutrition=true").
  split.
  - intros H. apply form_encode_fixed.
    do 5 apply str_app_inv_head in H.
    symmetry. now apply str_app_inv_tail in H.
  - intros H. now rewrite (form_encode_safe _ H).
Qed.

(** * Loading one recipe *)

(** X22: one run of the detail effect, however the request goes, ends with
    the loading flag off and leaves either no error, or an error text
    together with the recipe that was there before; the previous error
    and loading flag play no part. *)
Theorem detail_load_settles (API_KEY : option string) (id : string)
    (fetch : string -> settled Response) (st : DetailLoad.State) :
  DetailLoad.loading (DetailLoad.load API_KEY id fetch st) = false
  /\ (DetailLoad.err (DetailLoad.load API_KEY id fetch st) = VNull
      \/ exists msg,
           DetailLoad.err (DetailLoad.load API_KEY id fetch st) = VStr msg
           /\ DetailLoad.data (DetailLoad.load API_KEY id fetch st) =
              DetailLoad.data st)
  /\ (forall e l,
        DetailLoad.load API_KEY id fetch
          (DetailLoad.mkState (DetailLoad.data st) e l) =
        DetailLoad.load API_KEY id fetch st).
Proof.
  unfold DetailLoad.load, DetailLoad.begin, DetailLoad.settle, DetailLoad.fail.
  destruct API_KEY as [key|]; [destruct (key =? "")|];
    try (destruct (fetch (DetailLoad.detail_url key id)) as [res|e];
         [destruct (res_ok res); [destruct (res_json res) as [json|e]|]|]);
    try (destruct (err_name e =? "AbortError") eqn:Hname);
    cbn; try rewrite Hname; cbn;
    (split; [reflexivity|]); (split; [|intros e' l; reflexivity]);
    first [ now left | right; eexists; split; reflexivity ].
Qed.

(** X23: an aborted request still switches the loading flag off.  When a
    newer request has begun and the older one is then rejected with an
    [AbortError], the page leaves the loading message while the newer
    request is still pending and shows the recipe that was there before
    (or nothing, if there was none), without an error; once the newer
    request succeeds the page holds its recipe. *)
Theorem superseded_request_ends_loading_early (key id : string)
    (st : DetailLoad.State) (e : thrown) :
  key <> "" ->
  err_name e = "AbortError" ->
  let pending := fst (DetailLoad.begin (Some key) id st) in
  let after_abort := DetailLoad.settle (Rejected e) pending in
  snd (DetailLoad.begin (Some key) id st) =
    Some (DetailLoad.detail_url key id)
  /\ DetailLoad.render pending = DetailLoad.ShowLoading
  /\ after_abort = DetailLoad.mkState (DetailLoad.data st) VNull false
  /\ DetailLoad.render after_abort =
     (if truthy (DetailLoad.data st)
      then DetailLoad.ShowRecipe (DetailLoad.data st)
      else DetailLoad.ShowNothing)
  /\ (forall status json,
        DetailLoad.settle
          (Fulfilled (mkResponse true status (Fulfilled json))) after_abort =
        DetailLoad.mkState json VNull false).
Proof.
  intros Hkey Hname pending after_abort. subst after_abort pending.
  apply String.eqb_neq in Hkey.
  unfold DetailLoad.begin, DetailLoad.settle, DetailLoad.fail,
    DetailLoad.render.
  rewrite Hkey, Hname. cbn.
  repeat split. now destruct (truthy (DetailLoad.data st)).
Qed.

Lemma superseded_request_ends_loading_early_witness :
  let st := DetailLoad.mkState Sample.tacos VNull false in
  let pending := fst (DetailLoad.begin (Some "k") "716429" st) in
  let after_abort := DetailLoad.settle (Rejected Sample2.aborted) pending in
  snd (DetailLoad.begin (Some "k") "716429" st) =
    Some (DetailLoad.detail_url "k" "716429")
  /\ DetailLoad.render pending = DetailLoad.ShowLoading
  /\ after_abort = DetailLoad.mkState (DetailLoad.data st) VNull false
  /\ DetailLoad.render after_abort =
     (if truthy (DetailLoad.data st)
      then DetailLoad.ShowRecipe (DetailLoad.data st)
      else DetailLoad.ShowNothing)
  /\ (forall status json,
        DetailLoad.settle
          (Fulfilled (mkResponse true status (Fulfilled json))) after_abort =
        DetailLoad.mkState json VNull false).
Proof.
  apply (superseded_request_ends_loading_early "k" "716429"
           (DetailLoad.mkState Sample.tacos VNull false) Sample2.aborted);
    [discriminate | reflexivity].
Defined.

(** X24: a failed reload hides the recipe it leaves in place: after a
    response that is not [ok] the previous recipe is still in the state,
    yet the page shows only the error, [HTTP] and the status. *)
Theorem failed_reload_shows_error_over_recipe (key id : string)
    (fetch : string -> settled Response) (st : DetailLoad.State)
    (res : Response) :
  key <> "" ->
  fetch (DetailLoad.detail_url key id) = Fulfilled res ->
  res_ok res = false ->
  DetailLoad.data (DetailLoad.load (Some key) id fetch st) = DetailLoad.data st
  /\ DetailLoad.render (DetailLoad.load (Some key) id fetch st) =
     DetailLoad.ShowError (VStr ("HTTP " ++ NumberToString (res_status res))).
Proof.
  intros Hkey Hfetch Hok. apply String.eqb_neq in Hkey.
  unfold DetailLoad.load, DetailLoad.begin, DetailLoad.settle.
  rewrite Hkey, Hfetch, Hok. now cbn.
Qed.

Lemma failed_reload_shows_error_over_recipe_witness :
  DetailLoad.data
    (DetailLoad.load (Some "k") "716429"
       (fun _ => Fulfilled (mkResponse false 402%float (Fulfilled VNull)))
       (DetailLoad.mkState Sample.tacos VNull false)) = Sample.tacos
  /\ DetailLoad.render
       (DetailLoad.load (Some "k") "716429"
          (fun _ => Fulfilled (mkResponse false 402%float (Fulfilled VNull)))
          (DetailLoad.mkState Sample.tacos VNull false)) =
     DetailLoad.ShowError (VStr "HTTP 402").
Proof.
  apply (failed_reload_shows_error_over_recipe "k" "716429"
           (fun _ => Fulfilled (mkResponse false 402%float (Fulfilled VNull)))
           (DetailLoad.mkState Sample.tacos VNull false)
           (mkResponse false 402%float (Fulfilled VNull)));
    [discriminate | reflexivity | reflexivity].
Defined.

(** * The instruction steps *)

Lemma flatMapM_blocks (blocks : list value) :
  Forall (fun b => is_block b = true) blocks ->
  flatMapM (fun b => s <- get b "steps" ;; Ok (or_else s (VArr []))) blocks =
  Ok (flat_map (fun b => match get_opt b "steps" with
                         | VArr items => items
                         | _ => []
                         end) blocks).
Proof.
  induction 1 as [|b blocks Hb _ IH]; [reflexivity|].
  cbn [flatMapM flat_map]. rewrite IH.
  destruct b as [| |x|n|s|l|props]; try discriminate.
  cbn in Hb |- *.
  destruct (lookup "steps" props) as [| |x|n|s|items|o]; try discriminate;
    reflexivity.
Qed.

Lemma block_steps_are_objects (blocks : list value) :
  Forall (fun b => is_block b = true) blocks ->
  Forall (fun s => is_step s = true)
    (flat_map (fun b => match get_opt b "steps" with
                        | VArr items => items
                        | _ => []
                        end) blocks).
Proof.
  induction 1 as [|b blocks Hb _ IH]; [constructor|].
  cbn [flat_map]. apply Forall_app. split; [|exact IH].
  destruct b as [| |x|n|s|l|props]; try discriminate.
  cbn in Hb |- *.
  destruct (lookup "steps" props) as [| |x|n|s|items|o]; try discriminate;
    try constructor.
  apply Forall_forall. now apply forallb_forall.
Qed.

Lemma mapM_step_texts (all : list value) :
  Forall (fun s => is_step s = true) all ->
  mapM (fun s => get s "step") all = Ok (map (fun s => get_opt s "step") all).
Proof.
  induction 1 as [|s all Hs _ IH]; [reflexivity|].
  cbn [mapM map]. rewrite IH.
  destruct s; try discriminate; reflexivity.
Qed.

Lemma block_texts_flat (blocks : list value) :
  filter truthy
    (map (fun s => get_opt s "step")
       (flat_map (fun b => match get_opt b "steps" with
                           | VArr items => items
                           | _ => []
                           end) blocks)) =
  flat_map block_texts blocks.
Proof.
  induction blocks as [|b blocks IH]; [reflexivity|].
  cbn [flat_map]. rewrite map_app, filter_app, IH. f_equal.
  unfold block_texts. now destruct (get_opt b "steps").
Qed.

(** X25: on instructions shaped as the API documents them (blocks that are
    objects whose [steps], when present, is a list of objects) the steps
    are the step texts of all blocks in order, block after block, with
    missing and empty texts left out; a block without steps contributes
    none. *)
Theorem steps_flattens_blocks (data : value) (blocks : list value) :
  get_opt data "analyzedInstructions" = VArr blocks ->
  Forall (fun b => is_block b = true) blocks ->
  DetailLoad.steps data = Ok (flat_map block_texts blocks)
  /\ Forall (fun t => truthy t = true) (flat_map block_texts blocks).
Proof.
  intros Hai Hb. split.
  - unfold DetailLoad.steps. rewrite Hai, (flatMapM_blocks _ Hb). cbn [bind].
    rewrite (mapM_step_texts _ (block_steps_are_objects _ Hb)). cbn [bind].
    now rewrite block_texts_flat.
  - apply Forall_forall. intros t Ht. apply in_flat_map in Ht as [b [_ Ht]].
    unfold block_texts in Ht.
    destruct (get_opt b "steps"); try contradiction.
    now apply filter_In in Ht as [_ Ht].
Qed.

Lemma steps_flattens_blocks_witness :
  DetailLoad.steps Sample2.instructions = Ok [VStr "Chop."; VStr "Simmer."].
Proof.
  apply (steps_flattens_blocks Sample2.instructions
           [VObj [("steps", VArr [VObj [("step", VStr "Chop.")];
                                  VObj [("step", VStr "")]])];
            VObj [("name", VStr "Sauce")];
            VObj [("steps", VArr [VObj [("step", VStr "Simmer.")]])]]);
    [reflexivity | repeat constructor].
Defined.

Lemma flatMapM_throws (f : value -> result value) (l : list value) (x : value) :
  In x l -> (exists e, f x = Throw e) -> exists e, flatMapM f l = Throw e.
Proof.
  intros Hin Hx. induction l as [|y l IH]; [contradiction|].
  cbn [flatMapM]. destruct (f y) as [b|e] eqn:Hy; [|now exists e].
  destruct Hin as [->|Hin].
  - destruct Hx as [e He]. congruence.
  - destruct (IH Hin) as [e ->]. now exists e.
Qed.

(** X26: when the steps are empty and when they throw.  A recipe whose
    [analyzedInstructions] is missing or not a list has no steps, and so
    has [null] or [undefined] in place of the recipe; a [null] or
    [undefined] block in the list makes the computation throw. *)
Theorem steps_empty_or_throws (data : value) :
  (is_array (get_opt data "analyzedInstructions") = false ->
   DetailLoad.steps data = Ok [])
  /\ DetailLoad.steps VNull = Ok []
  /\ DetailLoad.steps VUndef = Ok []
  /\ (forall blocks,
        get_opt data "analyzedInstructions" = VArr blocks ->
        existsb nullish blocks = true ->
        exists e, DetailLoad.steps data = Throw e).
Proof.
  split; [|split; [reflexivity|split; [reflexivity|]]].
  - unfold DetailLoad.steps.
    now destruct (get_opt data "analyzedInstructions").
  - intros blocks Hai Hex. apply existsb_exists in Hex as [b [Hin Hb]].
    unfold DetailLoad.steps. rewrite Hai.
    destruct (flatMapM_throws
                (fun b => s <- get b "steps" ;; Ok (or_else s (VArr [])))
                blocks b Hin) as [e ->].
    + destruct b; try discriminate; now eexists.
    + now exists e.
Qed.

(** * The filter and the statistics together *)

Lemma filterM_keeps {A} (P : A -> Prop) (f : A -> result bool)
    (l out : list A) :
  filterM f l = Ok out -> Forall P l ->
  Forall P out /\ (List.length out <= List.length l)%nat.
Proof.
  revert out. induction l as [|x l IH]; intros out H HP.
  - injection H as <-. split; [constructor | apply Nat.le_refl].
  - inversion HP as [|? ? Hx Hl]; subst. cbn [filterM] in H.
    destruct (f x) as [b|e]; [|discriminate]. cbn [bind] in H.
    destruct (filterM f l) as [ys|e]; [|discriminate]. cbn [bind] in H.
    destruct (IH ys eq_refl Hl) as [Hys Hlen].
    injection H as <-. destruct b; simpl; split; auto; lia.
Qed.

(** X27: the statistics follow the filter: whenever the filter returns on
    rows whose [readyInMinutes] and [healthScore] hold no array or object,
    the statistics over its result are computed too, and the total they
    show is the number of rows listed, never more than the rows loaded. *)
Theorem stats_follow_the_filter (recipes out : list value)
    (query diet : string) :
  Forall (fun r => has_primitive_scores r = true) recipes ->
  filtered recipes query diet = Ok out ->
  exists st,
    stats out = Ok st
    /\ total st = List.length out
    /\ (total st <= List.length recipes)%nat.
Proof.
  intros Hp Hf. unfold filtered in Hf.
  destruct (filterM_keeps _ _ _ _ Hf Hp) as [Hout Hlen].
  destruct (stats_reads_primitive_rows out Hout) as [st [Hst Htot]].
  exists st. repeat split; [assumption | assumption | lia].
Qed.

Lemma stats_follow_the_filter_witness :
  exists st,
    stats [Sample2.tagged_vegan] = Ok st
    /\ total st = List.length [Sample2.tagged_vegan]
    /\ (total st <= List.length [Sample.tacos; Sample2.tagged_vegan])%nat.
Proof.
  apply (stats_follow_the_filter [Sample.tacos; Sample2.tagged_vegan]
           [Sample2.tagged_vegan] "soup" "vegan");
    [repeat constructor | reflexivity].
Defined.
